(** * OPC_P2: the catalogue crawl-and-export scripts, embedded in Rocq

    The repository holds several variants of one scraper
    (all_books_data.py, images_book_data.py, books_data_images.py,
    test2_image.py).  Every variant is embedded in a module of its own,
    named after the file; the definitions keep the names of the Python
    functions they are translated from.

    Modelling choices shared by all the modules:
    - a Python [str] is the list of its code points ([list N]);
    - a dict whose order is observable (a scraped row, the rows grouped by
      category) is an association list in insertion order; a dict that is
      only looked up, and the file system, are [gmap]s;
    - the network and BeautifulSoup are outside the repository: a page is
      the record of what the selectors used by the scripts find in it, and
      the network is a function from requests to replies;
    - exceptions, the file system and what is printed are threaded through
      a state-and-exception monad [M];
    - [urljoin] raises on a reference it cannot parse, and the operating
      system may refuse a path when a folder is made or a file is opened,
      written as CSV or moved; a file that could be opened takes every
      chunk written to it (a disk that fills up is not modelled);
    - [time.sleep] only waits and is left out. *)

From Stdlib Require Import String Ascii.
From stdpp Require Import gmap list fin_maps.

Set Default Proof Using "Type".
Local Open Scope N_scope.

(** ** Python strings *)
Module Py.

(** A character is its code point, a string the list of its characters. *)
Abbreviation char := N (only parsing).
Abbreviation str := (list N) (only parsing).

(** An ASCII literal as a Python string. *)
Definition py (s : string) : str :=
  map (λ a, N.of_nat (nat_of_ascii a)) (list_ascii_of_string s).

Definition str_eqb (a b : str) : bool := bool_decide (a = b).

(** Truthiness of a string: [bool(s)]. *)
Definition truthy (s : str) : bool :=
  match s with [] => false | _ => true end.

(** [a or b] on strings. *)
Definition or_else (a b : str) : str := if truthy a then a else b.

(** [str.isspace] for one code point (CPython's [_PyUnicode_IsWhitespace]). *)
Definition isspace (c : char) : bool :=
  ((9 <=? c) && (c <=? 13)) || ((28 <=? c) && (c <=? 32))
  || (c =? 133) || (c =? 160) || (c =? 5760)
  || ((8192 <=? c) && (c <=? 8202))
  || (c =? 8232) || (c =? 8233) || (c =? 8239) || (c =? 8287) || (c =? 12288).

Fixpoint lstrip_by (p : char → bool) (s : str) : str :=
  match s with
  | [] => []
  | c :: r => if p c then lstrip_by p r else s
  end.

Fixpoint take_while (p : char → bool) (s : str) : str :=
  match s with
  | [] => []
  | c :: r => if p c then c :: take_while p r else []
  end.

Definition drop_while := lstrip_by.

Definition rstrip_by (p : char → bool) (s : str) : str :=
  rev (lstrip_by p (rev s)).

Definition strip_by (p : char → bool) (s : str) : str :=
  rstrip_by p (lstrip_by p s).

(** [s.strip()] *)
Definition strip (s : str) : str := strip_by isspace s.

(** [s.strip(chars)] *)
Definition strip_chars (chars : str) (s : str) : str :=
  strip_by (λ c, bool_decide (c ∈ chars)) s.

Fixpoint starts_with (p s : str) : bool :=
  match p, s with
  | [], _ => true
  | _ :: _, [] => false
  | a :: p', b :: s' => (a =? b) && starts_with p' s'
  end.

(** [s.replace(old, new)] for a non-empty [old]: the leftmost occurrences,
    not overlapping.  [fuel] bounds the positions still to visit. *)
Fixpoint replace_from (fuel : nat) (old new s : str) : str :=
  match fuel with
  | O => s
  | S fuel' =>
      match s with
      | [] => []
      | c :: r =>
          if starts_with old s
          then new ++ replace_from fuel' old new (drop (length old) s)
          else c :: replace_from fuel' old new r
      end
  end.

(** [s.replace(old, new)]; with an empty [old] Python puts [new] before
    every character and at the end. *)
Definition replace (old new s : str) : str :=
  match old with
  | [] => new ++ flat_map (λ c, c :: new) s
  | _ => replace_from (length s) old new s
  end.

(** [sub in s] *)
Fixpoint contains (sub s : str) : bool :=
  starts_with sub s ||
  match s with
  | [] => false
  | _ :: r => contains sub r
  end.

(** [s.split(sep)] for a one-character separator. *)
Fixpoint split (sep : char) (s : str) : list str :=
  match s with
  | [] => [[]]
  | c :: r =>
      if c =? sep then [] :: split sep r
      else match split sep r with
           | [] => [[c]]
           | w :: ws => (c :: w) :: ws
           end
  end.

(** The character class of [re.sub(r"[^A-Za-z0-9_-]+", ...)]. *)
Definition safe_char (c : char) : bool :=
  ((65 <=? c) && (c <=? 90)) || ((97 <=? c) && (c <=? 122))
  || ((48 <=? c) && (c <=? 57)) || (c =? 95) || (c =? 45).

(** [re.sub(r"[^A-Za-z0-9_-]+", "_", s)]: every maximal run of characters
    outside the class becomes one underscore.  [in_run] tells that the
    previous character was already outside the class. *)
Fixpoint sub_unsafe_runs (in_run : bool) (s : str) : str :=
  match s with
  | [] => []
  | c :: r =>
      if safe_char c then c :: sub_unsafe_runs false r
      else if in_run then sub_unsafe_runs true r
      else 95 :: sub_unsafe_runs true r
  end.

(** [cleaner] of books_data_images.py and test2_image.py, [sanitize] of
    images_book_data.py (the three bodies are the same expression):
    [re.sub(r"[^A-Za-z0-9_-]+", "_", (s or "")).strip("_") or "file"].
    The argument may be [None]. *)
Definition cleaner (s : option str) : str :=
  or_else (strip_chars (py "_") (sub_unsafe_runs false (default [] s)))
          (py "file").

Definition sanitize := cleaner.

End Py.
Export Py.

(** ** Pages, network, file system and the monad of the scripts *)
Module Web.

(** Exceptions the scripts can meet.  [except Exception] catches them
    all; [except requests.HTTPError] only [HTTPError]. *)
Inductive exn :=
  | ConnectionError
  | Timeout
  | HTTPError (status : N)
  | ValueError (msg : str)
  | AttributeError
  | KeyError (key : str)
  | OSError (path : str).

(** What [urllib.parse.urljoin] gives: the joined URL, or the message of
    the ValueError it raises on a reference it cannot parse (["//[x"]). *)
Inductive joined := Joined (u : str) | Unparsable (msg : str).

(** What lies outside the repository and is not given a definition here:
    [urllib.parse.urljoin], [str.lower], the Unicode decimal digits that
    [\d] matches, and the paths at which the operating system refuses to
    make a directory or to open, write or move a file (a name over the
    limit, a missing permission). *)
Record extern := {
  urljoin : str → str → joined;
  lower : str → str;
  isdecimal : char → bool;
  refuses : str → bool;
}.

(** The text nodes of an element, in document order. *)
Abbreviation texts := (list (list N)) (only parsing).

(** [el.text] *)
Definition text (el : texts) : str := concat el.

(** [el.get_text(strip=True)]: every text node stripped, empty ones
    dropped, the rest concatenated. *)
Definition get_text_strip (el : texts) : str :=
  concat (filter (λ s, truthy s = true) (map strip el)).

Record anchor := { a_href : option str; a_texts : texts }.

Inductive cell_tag := Th | Td.
Global Instance cell_tag_eq_dec : EqDecision cell_tag.
Proof. solve_decision. Defined.
Record cell := { c_tag : cell_tag; c_texts : texts }.
Abbreviation row := (list cell) (only parsing).

(** One [<li>] of [ul.breadcrumb]: it wraps a link, or it is plain text
    (the active entry). *)
Inductive crumb := CrumbLink (t : texts) | CrumbText (t : texts).

(** One [article.product_pod]: its [h3] if any, and the first [a] of
    that [h3] if any. *)
Record pod := { pod_h3 : option (option anchor) }.

(** A parsed page, as the selectors of the scripts see it. *)
Record soup := {
  h1 : option texts;                   (* the first h1 *)
  main_h1 : option texts;              (* div.product_main h1 *)
  tables : list (list row);            (* table.table.table-striped, their tr *)
  description : option (option texts); (* #product_description, the p after it *)
  breadcrumb : list crumb;             (* ul.breadcrumb li *)
  gallery_img : option (option str);   (* #product_gallery img, its src *)
  pods : list pod;                     (* article.product_pod *)
  next_li : option (option anchor);    (* li.next, its a *)
}.

Definition empty_soup : soup :=
  {| h1 := None; main_h1 := None; tables := []; description := None;
     breadcrumb := []; gallery_img := None; pods := []; next_li := None |}.

(** An HTTP response: the status line, the Content-Type header, the body
    as parsed by BeautifulSoup, and the body as [iter_content] streams it
    (the chunks, then [stream_exn] if the connection breaks). *)
Record response := {
  status : N;
  content_type : option str;
  page : soup;
  chunks : list (list N);
  stream_exn : option exn;
}.

Record request := { url : str; referer : option str }.

Inductive reply := NetFail (e : exn) | Reply (r : response).

(** What is printed; variants word the same message differently. *)
Inductive msg :=
  | MsgStart
  | MsgPage (n : Z) (u : str)
  | MsgFound (k : nat)
  | MsgItem (i k : nat) (u : option str)
  | MsgError (u : str) (e : exn)
  | MsgListingFailed (u : str) (e : exn)
  | MsgNextFailed (u : str) (e : exn)
  | MsgStop (max_pages : Z)
  | MsgNext
  | MsgDone
  | MsgSaved (k : nat) (path : str)
  | MsgFinished (categories : option nat) (total : nat)
  | MsgNothing
  | MsgImgCached (path : str)
  | MsgImgSaved (path : str) (bytes : nat)
  | MsgImgFail (u : str) (e : exn).

Inductive event := Get (rq : request) | Print (m : msg).

(** A file holds bytes, or the table of a written CSV (header first);
    quoting and line ends are pandas's and are not modelled. *)
Inductive content := Bytes (b : list N) | Table (t : list (list str)).

Definition size_of (c : content) : nat :=
  match c with Bytes b => length b | Table t => length (concat (concat t)) end.

(** The world: the site, the files, and what happened so far (latest
    event last).  Directories are not part of the state: making one
    either is refused or changes nothing that is looked at later. *)
Record world := {
  net : request → reply;
  files : gmap str content;
  trace : list event;
}.

Inductive outcome (A : Type) :=
  | Ret (a : A)
  | Raise (e : exn)
  | OutOfFuel.
Arguments Ret {A} a.
Arguments Raise {A} e.
Arguments OutOfFuel {A}.

Definition M (A : Type) : Type := world → outcome A * world.

Definition ret {A} (a : A) : M A := λ w, (Ret a, w).
Definition raise {A} (e : exn) : M A := λ w, (Raise e, w).
Definition out_of_fuel {A} : M A := λ w, (OutOfFuel, w).

Definition bind {A B} (m : M A) (k : A → M B) : M B :=
  λ w, match m w with
       | (Ret a, w') => k a w'
       | (Raise e, w') => (Raise e, w')
       | (OutOfFuel, w') => (OutOfFuel, w')
       end.

(** [try: m  except Exception as e: h e] *)
Definition try_except {A} (m : M A) (h : exn → M A) : M A :=
  λ w, match m w with
       | (Raise e, w') => h e w'
       | r => r
       end.

Definition log (ev : event) : M unit :=
  λ w, (Ret tt, {| net := net w; files := files w; trace := trace w ++ [ev] |}).

Definition print (m : msg) : M unit := log (Print m).

(** [requests.get] / [SESSION.get]: the request goes out; a transport
    failure is raised, any HTTP response is returned. *)
Definition http_get (rq : request) : M response :=
  λ w, let w' := {| net := net w; files := files w; trace := trace w ++ [Get rq] |} in
       match net w rq with
       | NetFail e => (Raise e, w')
       | Reply r => (Ret r, w')
       end.

(** [r.raise_for_status()] *)
Definition raise_for_status (r : response) : M unit :=
  if (400 <=? status r) && (status r <? 600)
  then raise (HTTPError (status r)) else ret tt.

Definition set_file (path : str) (c : content) : M unit :=
  λ w, (Ret tt, {| net := net w; files := <[path := c]> (files w); trace := trace w |}).

(** [os.path.exists(path)] *)
Definition exists_ (path : str) : M bool :=
  λ w, (Ret (bool_decide (is_Some (files w !! path))), w).

(** [os.path.getsize(path)] of an existing file. *)
Definition getsize (path : str) : M nat :=
  λ w, (Ret (from_option size_of 0%nat (files w !! path)), w).

(** [os.makedirs(path, exist_ok=True)] *)
Definition makedirs (L : extern) (path : str) : M unit :=
  if refuses L path then raise (OSError path) else ret tt.

(** [open(path, "wb")]: the file is created or emptied, unless the
    system refuses. *)
Definition open_wb (L : extern) (path : str) : M unit :=
  if refuses L path then raise (OSError path) else set_file path (Bytes []).

(** [df.to_csv(path, ...)] for the table [t] of the frame. *)
Definition write_csv (L : extern) (path : str) (t : list (list str)) : M unit :=
  if refuses L path then raise (OSError path) else set_file path (Table t).

(** [f.write(chunk)] on a file opened by [open_wb]; once the file is
    open the write goes through. *)
Definition write (path : str) (chunk : list N) : M unit :=
  λ w, let old := match files w !! path with Some (Bytes b) => b | _ => [] end in
       (Ret tt, {| net := net w; files := <[path := Bytes (old ++ chunk)]> (files w);
                   trace := trace w |}).

(** [os.replace(src, dst)] of an existing [src]. *)
Definition os_replace (L : extern) (src dst : str) : M unit :=
  if refuses L dst then raise (OSError dst)
  else
    λ w, match files w !! src with
         | Some c => (Ret tt, {| net := net w;
                                 files := <[dst := c]> (delete src (files w));
                                 trace := trace w |})
         | None => (Ret tt, w)
         end.

(** [os.path.join(a, b)] for a relative [b] and an [a] without a final
    slash, which is how the scripts call it. *)
Definition path_join (a b : str) : str := a ++ 47 :: b.

Declare Scope monad_scope.
Delimit Scope monad_scope with monad.
Notation "x <- m ;; k" := (bind m (λ x, k))
  (at level 100, m at next level, right associativity) : monad_scope.
Notation "m ;; k" := (bind m (λ _, k))
  (at level 100, right associativity) : monad_scope.

(** Python dicts whose insertion order is observable. *)
Abbreviation dict V := (list (list N * V)) (only parsing).

Fixpoint dict_get {V} (k : str) (d : dict V) : option V :=
  match d with
  | [] => None
  | (k', v) :: r => if str_eqb k' k then Some v else dict_get k r
  end.

(** [d[k]] for a literal key [k] that the dict holds. *)
Definition item (k : string) (d : dict str) : str :=
  default [] (dict_get (py k) d).

(** [d[k] = v] *)
Fixpoint dict_set {V} (k : str) (v : V) (d : dict V) : dict V :=
  match d with
  | [] => [(k, v)]
  | (k', v') :: r =>
      if str_eqb k' k then (k', v) :: r else (k', v') :: dict_set k v r
  end.

(** [d.setdefault(k, []).append(x)] *)
Fixpoint setdefault_append {V} (k : str) (x : V) (d : dict (list V))
  : dict (list V) :=
  match d with
  | [] => [(k, [x])]
  | (k', xs) :: r =>
      if str_eqb k' k then (k', xs ++ [x]) :: r
      else (k', xs) :: setdefault_append k x r
  end.

(** Truthiness of [x] where [x] is a string or [None]. *)
Definition truthy_opt (x : option str) : bool :=
  match x with Some s => truthy s | None => false end.

(** [urljoin(base, ref)] as a step of a script. *)
Definition join (L : extern) (base ref : str) : M str :=
  match urljoin L base ref with
  | Joined u => ret u
  | Unparsable msg => raise (ValueError msg)
  end.

End Web.
Export Web.
Local Open Scope monad_scope.

(** ** pandas, as far as the exporters use it *)
Module Pandas.

(** A frame: the column labels and, per row, one cell per column; [None]
    is NaN. *)
Record frame := { columns : list str; cells : list (list (option str)) }.

(** Labels of [d] that are not yet in [cols], appended in order. *)
Fixpoint add_keys (cols : list str) (d : dict str) : list str :=
  match d with
  | [] => cols
  | (k, _) :: r =>
      add_keys (if bool_decide (k ∈ cols) then cols else cols ++ [k]) r
  end.

(** [pd.DataFrame(rows)] for a list of dicts: the columns are the keys in
    order of first appearance; a key a row lacks gives NaN. *)
Definition DataFrame (rows : list (dict str)) : frame :=
  let cols := foldl add_keys [] rows in
  {| columns := cols;
     cells := map (λ d, map (λ c, dict_get c d) cols) rows |}.

(** [c not in df.columns] *)
Definition lacks (df : frame) (c : str) : bool :=
  negb (bool_decide (c ∈ columns df)).

(** [df[c] = v] for a column [c] the frame lacks. *)
Definition add_column (c v : str) (df : frame) : frame :=
  {| columns := columns df ++ [c];
     cells := map (λ r, r ++ [Some v]) (cells df) |}.

Fixpoint index_of (c : str) (cols : list str) : option nat :=
  match cols with
  | [] => None
  | c' :: r => if str_eqb c' c then Some O else S <$> index_of c r
  end.

(** [df[cols]] where every label of [cols] is a column of [df]. *)
Definition select (cols : list str) (df : frame) : frame :=
  {| columns := cols;
     cells := map (λ r, map (λ c, i ← index_of c (columns df); mjoin (r !! i)) cols)
                  (cells df) |}.

(** [len(df)] *)
Definition len (df : frame) : nat := length (cells df).

(** What [df.to_csv(path, index=False)] writes: the header, then one
    line per row, NaN as the empty field. *)
Definition to_csv (df : frame) : list (list str) :=
  columns df :: map (map (default [])) (cells df).

End Pandas.

(** ** all_books_data.py *)
Module all_books_data.
Section Script.
Context (L : extern).

Definition START_URL : str :=
  py "https://books.toscrape.com/catalogue/category/books_1/page-1.html".
Definition OUTPUT_DIR : str := py "books_csv".

(** The string ['£'] of the source: U+00A3. *)
Definition pound : str := [163].

(** The four variables the loop over the table rows assigns. *)
Record fields := {
  upc : str; price_incl_tax : str; price_excl_tax : str; availability : str;
}.

(** [cells = row.find_all(['th', 'td'])] and, when there are two cells or
    more, [key = cells[0].text.strip()], [value = cells[1].text.strip()]. *)
Definition key_value (r : row) : option (str * str) :=
  match r with
  | c0 :: c1 :: _ => Some (strip (text (c_texts c0)), strip (text (c_texts c1)))
  | _ => None
  end.

(** The body of [for row in table.find_all('tr')]. *)
Definition scan_row (f : fields) (r : row) : fields :=
  match key_value r with
  | Some (key, value) =>
      if str_eqb key (py "UPC") then
        {| upc := value; price_incl_tax := price_incl_tax f;
           price_excl_tax := price_excl_tax f; availability := availability f |}
      else if str_eqb key (py "Price (incl. tax)") then
        {| upc := upc f; price_incl_tax := replace pound [] value;
           price_excl_tax := price_excl_tax f; availability := availability f |}
      else if str_eqb key (py "Price (excl. tax)") then
        {| upc := upc f; price_incl_tax := price_incl_tax f;
           price_excl_tax := replace pound [] value; availability := availability f |}
      else if str_eqb key (py "Availability") then
        {| upc := upc f; price_incl_tax := price_incl_tax f;
           price_excl_tax := price_excl_tax f;
           availability :=
             if contains (py "(") value
             then nth 0 (split 32 (nth 1 (split 40 value) [])) []
             else py "0" |}
      else f
  | None => f
  end.

(** The four variables once the table, if there is one, is scanned. *)
Definition table_fields (p : soup) : fields :=
  let f0 := {| upc := []; price_incl_tax := []; price_excl_tax := [];
               availability := [] |} in
  match head (tables p) with
  | Some rows => foldl scan_row f0 rows
  | None => f0
  end.

(** [soup.select('ul.breadcrumb li a')], each with [get_text(strip=True)]. *)
Definition bc_links (p : soup) : list str :=
  omap (λ c, match c with
             | CrumbLink t => Some (get_text_strip t)
             | CrumbText _ => None
             end) (breadcrumb p).

(** The part of [scrape_book] after the page is fetched and parsed. *)
Definition book_of_soup (url : str) (p : soup) : dict str :=
  let title := match h1 p with Some t => text t | None => py "N/A" end in
  let f := table_fields p in
  let description :=
    match description p with
    | Some (Some next_p) => text next_p
    | Some None => py "Pas de description"
    | None => py "Pas de description"
    end in
  let links := bc_links p in
  let category :=
    if bool_decide (3 ≤ length links)%nat
    then default [] (last links) else py "Unknown" in
  [ (py "title", title); (py "upc", upc f);
    (py "price_with_tax", price_incl_tax f);
    (py "price_without_tax", price_excl_tax f);
    (py "availability", availability f);
    (py "description", description);
    (py "category", category);
    (py "product_url", url) ].

Definition scrape_book (url : str) : M (dict str) :=
  response <- http_get {| url := url; referer := None |};;
  ret (book_of_soup url (page response)).

(** The loop of [get_book_urls_from_page]; a pod without [h3] makes
    [book.find('h3').find('a')] fail, and [urljoin] may refuse a link. *)
Fixpoint collect_book_urls (list_url : str) (books : list pod)
    (book_urls : list str) : M (list str) :=
  match books with
  | [] => ret book_urls
  | book :: rest =>
      match pod_h3 book with
      | None => raise AttributeError
      | Some link_element =>
          match link_element with
          | Some a =>
              if truthy_opt (a_href a) then
                full_url <- join L list_url (default [] (a_href a));;
                collect_book_urls list_url rest (book_urls ++ [full_url])
              else collect_book_urls list_url rest book_urls
          | None => collect_book_urls list_url rest book_urls
          end
      end
  end.

Definition get_book_urls_from_page (list_url : str) : M (list str) :=
  response <- http_get {| url := list_url; referer := None |};;
  collect_book_urls list_url (pods (page response)) [].

Definition get_next_page_url (current_url : str) : M (option str) :=
  response <- http_get {| url := current_url; referer := None |};;
  match next_li (page response) with
  | Some (Some a) =>
      match a_href a with
      | Some next_url =>
          joined_url <- join L current_url next_url;;
          ret (Some joined_url)
      | None => raise (KeyError (py "href"))
      end
  | _ => ret None
  end.

(** [for i, book_url in enumerate(book_urls, 1)] of [scrape_all_books];
    [n] is [len(book_urls)] of the whole page. *)
Fixpoint visit_books (book_urls : list str) (i n : nat)
    (by_category : dict (list (dict str))) : M (dict (list (dict str))) :=
  match book_urls with
  | [] => ret by_category
  | book_url :: rest =>
      print (MsgItem i n None);;
      by_category' <-
        try_except
          (data <- scrape_book book_url;;
           let cat := or_else (default (py "Unknown") (dict_get (py "category") data))
                              (py "Unknown") in
           ret (setdefault_append cat data by_category))
          (λ e, print (MsgError book_url e);; ret by_category);;
      visit_books rest (S i) n by_category'
  end.

(** [max_pages is not None and page_number > max_pages] *)
Definition over_budget (max_pages : option Z) (page_number : Z) : bool :=
  match max_pages with
  | Some m => bool_decide (page_number > m)%Z
  | None => false
  end.

(** The [while current_url] loop of [scrape_all_books]; [fuel] bounds the
    number of times the loop condition is evaluated. *)
Fixpoint crawl (fuel : nat) (max_pages : option Z)
    (by_category : dict (list (dict str)))
    (current_url : option str) (page_number : Z)
    : M (dict (list (dict str))) :=
  match fuel with
  | O => out_of_fuel
  | S fuel' =>
      if truthy_opt current_url then
        let url := default [] current_url in
        if over_budget max_pages page_number then
          print (MsgStop (default 0%Z max_pages));;
          ret by_category
        else
          print (MsgPage page_number url);;
          book_urls <- get_book_urls_from_page url;;
          print (MsgFound (length book_urls));;
          by_category' <- visit_books book_urls 1 (length book_urls) by_category;;
          next_url <- get_next_page_url url;;
          (if truthy_opt next_url then print MsgNext else print MsgDone);;
          crawl fuel' max_pages by_category' next_url (page_number + 1)%Z
      else ret by_category
  end.

(** [delay] only feeds [time.sleep] and is not a parameter here. *)
Definition scrape_all_books (fuel : nat) (start_url : str)
    (max_pages : option Z) : M (dict (list (dict str))) :=
  crawl fuel max_pages [] (Some start_url) 1%Z.

(** [category_name.replace("/", "-").replace("\\", "-").strip() or "Unknown"] *)
Definition safe_name (category_name : str) : str :=
  or_else (strip (replace [92] [45] (replace [47] [45] category_name)))
          (py "Unknown").

(** The loop of the main block over [grouped.items()]. *)
Fixpoint save_categories (grouped : dict (list (dict str))) (total : nat)
    : M nat :=
  match grouped with
  | [] => ret total
  | (category_name, rows) :: rest =>
      let total := (total + length rows)%nat in
      let out_path := path_join OUTPUT_DIR (safe_name category_name ++ py ".csv") in
      let df := Pandas.DataFrame rows in
      write_csv L out_path (Pandas.to_csv df);;
      print (MsgSaved (length rows) out_path);;
      save_categories rest total
  end.

(** The main block: [max_pages=2]. *)
Definition main (fuel : nat) : M unit :=
  makedirs L OUTPUT_DIR;;
  print MsgStart;;
  grouped <- scrape_all_books fuel START_URL (Some 2%Z);;
  total <- save_categories grouped 0;;
  print (MsgFinished None total).

End Script.
End all_books_data.

(** ** Streams and paths shared by the image-saving variants *)
Module Assets.

(** [for chunk in r.iter_content(...): if chunk: f.write(chunk)] on the
    file at [path]; the result is the number of bytes written.  The
    connection may break after the last chunk received. *)
Fixpoint write_chunks (path : str) (cs : list (list N)) (total : nat) : M nat :=
  match cs with
  | [] => ret total
  | chunk :: rest =>
      if truthy chunk
      then (write path chunk;; write_chunks path rest (total + length chunk)%nat)
      else write_chunks path rest total
  end.

(** [with open(path, "wb") as f: for chunk in r.iter_content(...): ...] *)
Definition write_stream (L : extern) (path : str) (r : response) : M nat :=
  open_wb L path;;
  total <- write_chunks path (chunks r) 0;;
  match stream_exn r with
  | Some e => raise e
  | None => ret total
  end.

(** [try: m  except requests.HTTPError: h] *)
Definition try_except_HTTPError {A} (m : M A) (h : M A) : M A :=
  λ w, match m w with
       | (Raise (HTTPError _), w') => h w'
       | r => r
       end.

(** [image_url.split("?", 1)[0]] *)
Definition before_query (image_url : str) : str :=
  default [] (head (split 63 image_url)).

(** [os.path.basename] *)
Definition basename (p : str) : str := default [] (last (split 47 p)).

(** [os.path.splitext(b)[1]] for a name without slash: from the last dot
    on, unless only dots precede it. *)
Definition splitext_ext (b : str) : str :=
  let r := rev b in
  let tail_rev := take_while (λ c, negb (c =? 46)) r in
  if bool_decide (length tail_rev = length r) then []
  else
    let stem := rev (drop (S (length tail_rev)) r) in
    if forallb (λ c, c =? 46) stem then [] else 46 :: rev tail_rev.

End Assets.

(** ** images_book_data.py *)
Module images_book_data.
Import Assets.
Section Script.
Context (L : extern).

Definition START_URL : str :=
  py "https://books.toscrape.com/catalogue/category/books_1/page-1.html".
Definition OUTPUT_DIR : str := py "books_csv".
Definition IMAGES_DIR : str := py "books_images".
Definition MAX_PAGES : option Z := Some 2%Z.

(** The literal of [val.replace(..., "")] as the file holds it: the two
    code points U+00AC U+00A3. *)
Definition currency : str := [172; 163].

(** One GET of the image and the copy of its body to [dest_path]. *)
Definition fetch_to (rq : request) (dest_path : str) : M unit :=
  r <- http_get rq;;
  raise_for_status r;;
  write_stream L dest_path r;;
  ret tt.

(** The folder [save_image] makes before anything else. *)
Definition folder_of (category : str) : str :=
  path_join IMAGES_DIR (sanitize (Some (or_else category (py "Unknown")))).

(** The path [dest_path] that [save_image] computes. *)
Definition dest_path_of (image_url category upc title : str) : str :=
  let folder := folder_of category in
  let url_path := before_query image_url in
  let ext := lower L (splitext_ext (basename url_path)) in
  let ext :=
    if bool_decide (ext ∈ [py ".jpg"; py ".jpeg"; py ".png"; py ".gif"; py ".webp"])
    then ext else py ".jpg" in
  let base_name := sanitize (Some (or_else upc (or_else title (py "image")))) in
  path_join folder (base_name ++ ext).

Definition save_image (image_url category upc title : str)
    (referer_url : option str) : M str :=
  if negb (truthy image_url) then ret []
  else
    makedirs L (folder_of category);;
    let dest_path := dest_path_of image_url category upc title in
    present <- exists_ dest_path;;
    if present then ret dest_path
    else
      try_except_HTTPError
        (fetch_to {| url := image_url; referer := None |} dest_path;;
         ret dest_path)
        (fetch_to {| url := image_url;
                     referer := if truthy_opt referer_url then referer_url else None |}
                  dest_path;;
         ret dest_path).

Record fields := {
  upc : str; price_incl_tax : str; price_excl_tax : str; availability : str;
}.

(** [row.find(tag)] *)
Definition find_cell (tag : cell_tag) (r : row) : option cell :=
  head (filter (λ c, c_tag c = tag) r).

(** [re.search(r"(\d+)", val)]: the leftmost longest run of decimal
    digits, if any. *)
Definition search_digits (val : str) : option str :=
  match drop_while (λ c, negb (isdecimal L c)) val with
  | [] => None
  | rest => Some (take_while (isdecimal L) rest)
  end.

(** [th, td = row.find("th"), row.find("td")] and, when both exist,
    [key = th.get_text(strip=True)], [val = td.get_text(strip=True)]. *)
Definition key_value (r : row) : option (str * str) :=
  match find_cell Th r, find_cell Td r with
  | Some th, Some td =>
      Some (get_text_strip (c_texts th), get_text_strip (c_texts td))
  | _, _ => None
  end.

(** The body of [for row in table.find_all("tr")]. *)
Definition scan_row (f : fields) (r : row) : fields :=
  match key_value r with
  | Some (key, val) =>
      if str_eqb key (py "UPC") then
        {| upc := val; price_incl_tax := price_incl_tax f;
           price_excl_tax := price_excl_tax f; availability := availability f |}
      else if str_eqb key (py "Price (incl. tax)") then
        {| upc := upc f; price_incl_tax := replace currency [] val;
           price_excl_tax := price_excl_tax f; availability := availability f |}
      else if str_eqb key (py "Price (excl. tax)") then
        {| upc := upc f; price_incl_tax := price_incl_tax f;
           price_excl_tax := replace currency [] val; availability := availability f |}
      else if str_eqb key (py "Availability") then
        {| upc := upc f; price_incl_tax := price_incl_tax f;
           price_excl_tax := price_excl_tax f;
           availability := default (py "0") (search_digits val) |}
      else f
  | None => f
  end.

(** The four variables once the table, if there is one, is scanned. *)
Definition table_fields (p : soup) : fields :=
  let f0 := {| upc := []; price_incl_tax := []; price_excl_tax := [];
               availability := [] |} in
  match head (tables p) with
  | Some rows => foldl scan_row f0 rows
  | None => f0
  end.

Definition bc_links (p : soup) : list str :=
  omap (λ c, match c with
             | CrumbLink t => Some (get_text_strip t)
             | CrumbText _ => None
             end) (breadcrumb p).

Definition scrape_book (url : str) : M (dict str) :=
  r <- http_get {| url := url; referer := None |};;
  raise_for_status r;;
  let p := page r in
  let title := match h1 p with Some t => get_text_strip t | None => py "N/A" end in
  let f := table_fields p in
  let description :=
    match description p with
    | Some (Some next_p) => get_text_strip next_p
    | _ => []
    end in
  let links := bc_links p in
  let category :=
    if bool_decide (3 ≤ length links)%nat
    then default [] (last links) else py "Unknown" in
  let src := match gallery_img p with Some (Some s) => s | _ => [] end in
  img <-
    (if truthy src then
       image_url <- join L url src;;
       image_path <- try_except
                       (save_image image_url category (upc f) title (Some url))
                       (λ _, ret []);;
       ret (image_url, image_path)
     else ret ([], []));;
  ret [ (py "title", title); (py "upc", upc f);
        (py "price_incl_tax_gbp", price_incl_tax f);
        (py "price_excl_tax_gbp", price_excl_tax f);
        (py "availability", availability f);
        (py "description", description);
        (py "category", category);
        (py "product_page_url", url);
        (py "image_url", fst img);
        (py "image_path", snd img) ].

(** [for a in soup.select("article.product_pod h3 a")] *)
Definition pod_anchors (p : soup) : list anchor :=
  omap (λ b, mjoin (pod_h3 b)) (pods p).

(** The loop of [get_book_urls_from_page] over the anchors. *)
Fixpoint collect_urls (list_url : str) (anchors : list anchor) (urls : list str)
    : M (list str) :=
  match anchors with
  | [] => ret urls
  | a :: rest =>
      if truthy_opt (a_href a) then
        u <- join L list_url (default [] (a_href a));;
        collect_urls list_url rest (urls ++ [u])
      else collect_urls list_url rest urls
  end.

Definition get_book_urls_from_page (list_url : str) : M (list str) :=
  r <- http_get {| url := list_url; referer := None |};;
  raise_for_status r;;
  collect_urls list_url (pod_anchors (page r)) [].

Definition get_next_page_url (current_url : str) : M (option str) :=
  r <- http_get {| url := current_url; referer := None |};;
  raise_for_status r;;
  match mjoin (next_li (page r)) with
  | Some nxt =>
      if truthy_opt (a_href nxt)
      then (u <- join L current_url (default [] (a_href nxt));; ret (Some u))
      else ret None
  | None => ret None
  end.

Fixpoint visit_books (book_urls : list str) (i n : nat)
    (by_category : dict (list (dict str))) : M (dict (list (dict str))) :=
  match book_urls with
  | [] => ret by_category
  | book_url :: rest =>
      print (MsgItem i n (Some book_url));;
      by_category' <-
        try_except
          (data <- scrape_book book_url;;
           let cat := or_else (default [] (dict_get (py "category") data))
                              (py "Unknown") in
           ret (setdefault_append cat data by_category))
          (λ e, print (MsgError book_url e);; ret by_category);;
      visit_books rest (S i) n by_category'
  end.

(** [max_pages is not None and page_number >= max_pages] *)
Definition budget_reached (max_pages : option Z) (page_number : Z) : bool :=
  match max_pages with
  | Some m => bool_decide (page_number >= m)%Z
  | None => false
  end.

Fixpoint crawl (fuel : nat) (max_pages : option Z)
    (by_category : dict (list (dict str)))
    (current_url : option str) (page_number : Z)
    : M (dict (list (dict str))) :=
  match fuel with
  | O => out_of_fuel
  | S fuel' =>
      if truthy_opt current_url then
        let url := default [] current_url in
        print (MsgPage page_number url);;
        book_urls <- try_except (get_book_urls_from_page url)
                       (λ e, print (MsgListingFailed url e);; ret []);;
        print (MsgFound (length book_urls));;
        by_category' <- visit_books book_urls 1 (length book_urls) by_category;;
        if budget_reached max_pages page_number then
          print (MsgStop (default 0%Z max_pages));;
          ret by_category'
        else
          next_url <- try_except (get_next_page_url url)
                        (λ e, print (MsgNextFailed url e);; ret None);;
          if truthy_opt next_url then
            print MsgNext;;
            crawl fuel' max_pages by_category' next_url (page_number + 1)%Z
          else
            (* current_url = None: the loop ends *)
            print MsgDone;;
            ret by_category'
      else ret by_category
  end.

Definition scrape_all_books (fuel : nat) (start_url : str)
    (max_pages : option Z) : M (dict (list (dict str))) :=
  crawl fuel max_pages [] (Some start_url) 1%Z.

Definition wanted_cols : list str :=
  [ py "title"; py "upc"; py "price_incl_tax_gbp"; py "price_excl_tax_gbp";
    py "availability"; py "description"; py "category"; py "product_page_url";
    py "image_url"; py "image_path" ].

(** [for c in wanted_cols: if c not in df.columns: df[c] = ""] *)
Definition fill_columns (cols : list str) (df : Pandas.frame) : Pandas.frame :=
  foldl (λ df c, if Pandas.lacks df c then Pandas.add_column c [] df else df)
        df cols.

(** The loop of the main block over [grouped.items()]; the result is
    [(total, categories_written)]. *)
Fixpoint save_categories (grouped : dict (list (dict str)))
    (total categories_written : nat) : M (nat * nat) :=
  match grouped with
  | [] => ret (total, categories_written)
  | (category_name, rows) :: rest =>
      let total := (total + length rows)%nat in
      let out_path :=
        path_join OUTPUT_DIR (sanitize (Some category_name) ++ py ".csv") in
      let df := Pandas.select wanted_cols
                  (fill_columns wanted_cols (Pandas.DataFrame rows)) in
      write_csv L out_path (Pandas.to_csv df);;
      print (MsgSaved (length rows) out_path);;
      save_categories rest total (S categories_written)
  end.

Definition main (fuel : nat) : M unit :=
  makedirs L OUTPUT_DIR;;
  makedirs L IMAGES_DIR;;
  print MsgStart;;
  grouped <- scrape_all_books fuel START_URL MAX_PAGES;;
  r <- match grouped with
       | [] => print MsgNothing;; ret (O, O)
       | _ => save_categories grouped 0 0
       end;;
  print (MsgFinished (Some (snd r)) (fst r)).

End Script.
End images_book_data.

(** ** books_data_images.py *)
Module books_data_images.
Import Assets.
Section Script.
Context (L : extern).

Definition START_URL : str :=
  py "https://books.toscrape.com/catalogue/category/books_1/page-1.html".
Definition OUTPUT_DIR : str := py "books_csv".
Definition IMAGES_DIR : str := py "books_images".
Definition MAX_PAGES : option Z := Some 4%Z.

(** The string ["£"] of the source: U+00A3. *)
Definition pound : str := [163].

Definition get_soup (url : str) : M soup :=
  r <- http_get {| url := url; referer := None |};;
  raise_for_status r;;
  ret (page r).

(** [soup.select("article.product_pod h3 a")] *)
Definition pod_anchors (p : soup) : list anchor :=
  omap (λ b, mjoin (pod_h3 b)) (pods p).

(** The loop of [parse_listing_product_links] over the anchors. *)
Fixpoint collect_links (listing_url : str) (anchors : list anchor)
    (links : list str) : M (list str) :=
  match anchors with
  | [] => ret links
  | a :: rest =>
      let href := strip (default [] (a_href a)) in
      if truthy href then
        u <- join L listing_url href;;
        collect_links listing_url rest (links ++ [u])
      else collect_links listing_url rest links
  end.

Definition parse_listing_product_links (listing_url : str) : M (list str) :=
  soup <- get_soup listing_url;;
  collect_links listing_url (pod_anchors soup) [].

Definition get_next_page_url (listing_url : str) : M (option str) :=
  soup <- get_soup listing_url;;
  match mjoin (next_li soup) with
  | Some nxt =>
      if truthy_opt (a_href nxt)
      then (u <- join L listing_url (default [] (a_href nxt));; ret (Some u))
      else ret None
  | None => ret None
  end.

(** [li.get_text(strip=True)] for an entry of the breadcrumb. *)
Definition crumb_text (c : crumb) : str :=
  match c with CrumbLink t | CrumbText t => get_text_strip t end.

(** [th = tr.select_one("th")], [td = tr.select_one("td")] *)
Definition find_cell (tag : cell_tag) (r : row) : option cell :=
  head (filter (λ c, c_tag c = tag) r).

(** [th] and [td] of a row and, when both exist, their
    [get_text(strip=True)]. *)
Definition key_value (tr : row) : option (str * str) :=
  match find_cell Th tr, find_cell Td tr with
  | Some th, Some td =>
      Some (get_text_strip (c_texts th), get_text_strip (c_texts td))
  | _, _ => None
  end.

(** The body of [for tr in soup.select("table.table.table-striped tr")]. *)
Definition scan_row (specs : gmap (list N) (list N)) (tr : row)
    : gmap (list N) (list N) :=
  match key_value tr with
  | Some (k, v) => <[k := v]> specs
  | None => specs
  end.

(** The dict [specs] once every row is scanned. *)
Definition specs_of (soup : soup) : gmap (list N) (list N) :=
  foldl scan_row ∅ (concat (tables soup)).

Definition extract_book_data (product_url : str) : M (dict str) :=
  soup <- get_soup product_url;;
  (* (soup.select_one(...) or {}).get_text: a dict has no get_text *)
  title <- match main_h1 soup with
           | Some t => ret (get_text_strip t)
           | None => raise AttributeError
           end;;
  let crumbs := map crumb_text (breadcrumb soup) in
  let category :=
    if bool_decide (4 ≤ length crumbs)%nat
    then default [] (crumbs !! 2%nat) else py "Default" in
  let specs := specs_of soup in
  let upc := default [] (specs !! py "UPC") in
  let price_incl :=
    strip (replace pound [] (default [] (specs !! py "Price (incl. tax)"))) in
  let price_excl :=
    strip (replace pound [] (default [] (specs !! py "Price (excl. tax)"))) in
  let availability := default [] (specs !! py "Availability") in
  let description :=
    match description soup with
    | Some (Some desc_p) => get_text_strip desc_p
    | _ => []
    end in
  let img_src :=
    match gallery_img soup with
    | Some (Some src) => strip src
    | _ => []
    end in
  image_url <- (if truthy img_src then join L product_url img_src else ret []);;
  ret [ (py "title", title); (py "upc", upc);
        (py "price_incl_tax_gbp", price_incl);
        (py "price_excl_tax_gbp", price_excl);
        (py "availability", availability);
        (py "description", description);
        (py "category", category);
        (py "product_page_url", product_url);
        (py "image_url", image_url) ].

(** [os.path.exists(dest) and os.path.getsize(dest) > 0] *)
Definition present_nonempty (dest : str) : M bool :=
  e <- exists_ dest;;
  if e then (n <- getsize dest;; ret (bool_decide (0 < n)%nat)) else ret false.

(** The folder [download_image] makes before anything else. *)
Definition folder_of (category : str) : str :=
  path_join IMAGES_DIR (cleaner (Some category)).

(** The path [dest] that [download_image] computes. *)
Definition dest_of (category upc title : str) : str :=
  let folder := folder_of category in
  let name := cleaner (Some (or_else upc (or_else title (py "image"))))
              ++ py ".jpg" in
  path_join folder name.

Definition download_image (image_url category upc title referer_url : str)
    : M str :=
  if negb (truthy image_url) then ret []
  else
    makedirs L (folder_of category);;
    let dest := dest_of category upc title in
    cached <- present_nonempty dest;;
    if cached then ret dest
    else
      try_except
        (r <- http_get {| url := image_url; referer := Some referer_url |};;
         raise_for_status r;;
         let tmp := dest ++ py ".part" in
         write_stream L tmp r;;
         os_replace L tmp dest;;
         ret dest)
        (λ _, ret []).

(** [for i, url in enumerate(links, 1)] of [scrape_all]: no handler
    surrounds the body. *)
Fixpoint visit_links (links : list str) (i n : nat)
    (data_by_cat : dict (list (dict str))) : M (dict (list (dict str))) :=
  match links with
  | [] => ret data_by_cat
  | url :: rest =>
      print (MsgItem i n (Some url));;
      d <- extract_book_data url;;
      image_path <- download_image (item "image_url" d) (item "category" d)
                      (item "upc" d) (item "title" d) url;;
      let d := dict_set (py "image_path") image_path d in
      let cat := or_else (item "category" d) (py "Default") in
      visit_links rest (S i) n (setdefault_append cat d data_by_cat)
  end.

(** [max_pages is not None and page_no >= max_pages] *)
Definition budget_reached (max_pages : option Z) (page_no : Z) : bool :=
  match max_pages with
  | Some m => bool_decide (page_no >= m)%Z
  | None => false
  end.

Fixpoint crawl (fuel : nat) (max_pages : option Z)
    (data_by_cat : dict (list (dict str)))
    (page_url : option str) (page_no : Z) : M (dict (list (dict str))) :=
  match fuel with
  | O => out_of_fuel
  | S fuel' =>
      if truthy_opt page_url then
        let url := default [] page_url in
        print (MsgPage page_no url);;
        links <- parse_listing_product_links url;;
        print (MsgFound (length links));;
        data_by_cat' <- visit_links links 1 (length links) data_by_cat;;
        if budget_reached max_pages page_no then
          print (MsgStop (default 0%Z max_pages));;
          ret data_by_cat'
        else
          next_url <- get_next_page_url url;;
          if truthy_opt next_url
          then crawl fuel' max_pages data_by_cat' next_url (page_no + 1)%Z
          else ret data_by_cat' (* page_url = None: the loop ends *)
      else ret data_by_cat
  end.

Definition scrape_all (fuel : nat) (start_url : str) (max_pages : option Z)
    : M (dict (list (dict str))) :=
  crawl fuel max_pages [] (Some start_url) 1%Z.

Definition cols : list str :=
  [ py "title"; py "upc"; py "price_incl_tax_gbp"; py "price_excl_tax_gbp";
    py "availability"; py "description"; py "category"; py "product_page_url";
    py "image_url"; py "image_path" ].

(** [for c in cols: if c not in df.columns: df[c] = ""] *)
Definition fill_columns (cols : list str) (df : Pandas.frame) : Pandas.frame :=
  foldl (λ df c, if Pandas.lacks df c then Pandas.add_column c [] df else df)
        df cols.

(** The frame [write_csvs] hands to [to_csv] for the rows of a category. *)
Definition category_frame (rows : list (dict str)) : Pandas.frame :=
  Pandas.select cols (fill_columns cols (Pandas.DataFrame rows)).

(** Where [write_csvs] puts the file of a category. *)
Definition out_path (cat : str) : str :=
  path_join OUTPUT_DIR (cleaner (Some cat) ++ py ".csv").

(** The loop of [write_csvs] over [data_by_cat.items()]. *)
Fixpoint write_each (data_by_cat : dict (list (dict str))) (total : nat)
    : M nat :=
  match data_by_cat with
  | [] => ret total
  | (cat, rows) :: rest =>
      let df := category_frame rows in
      write_csv L (out_path cat) (Pandas.to_csv df);;
      print (MsgSaved (Pandas.len df) (out_path cat));;
      write_each rest (total + Pandas.len df)%nat
  end.

Definition write_csvs (data_by_cat : dict (list (dict str))) : M unit :=
  total <- write_each data_by_cat 0;;
  print (MsgFinished None total).

(** [ensure_dirs] *)
Definition ensure_dirs : M unit :=
  makedirs L OUTPUT_DIR;;
  makedirs L IMAGES_DIR.

Definition main (fuel : nat) : M unit :=
  ensure_dirs;;
  data <- scrape_all fuel START_URL MAX_PAGES;;
  match data with
  | [] => print MsgNothing
  | _ => write_csvs data
  end.

End Script.
End books_data_images.

(** ** test2_image.py: the asset fetcher with its download log *)
Module test2_image.
Import Assets.
Section Script.
Context (L : extern).

Definition IMAGES_DIR : str := py "books_images".

(** The [http_status] entry of a log record: [""], [str(r.status_code)]
    or ["cached"]. *)
Inductive http_status_entry := NoStatus | Status (code : N) | Cached.

(** One entry of [images_log]; [error] is the exception whose [str(e)]
    the script stores, if any. *)
Record log_record := {
  product_page_url : str;
  title : str;
  upc : str;
  category : str;
  image_url : str;
  image_path : str;
  downloaded : bool;
  http_status : http_status_entry;
  bytes : nat;
  error : option exn;
}.

Definition guess_ext_from_ct (content_type default_ext : str) : str :=
  if negb (truthy content_type) then default_ext
  else
    let ct := lower L (strip (default [] (head (split 59 content_type)))) in
    if str_eqb ct (py "image/jpeg") then py ".jpg"
    else if str_eqb ct (py "image/jpg") then py ".jpg"
    else if str_eqb ct (py "image/png") then py ".png"
    else if str_eqb ct (py "image/gif") then py ".gif"
    else if str_eqb ct (py "image/webp") then py ".webp"
    else if str_eqb ct (py "image/bmp") then py ".bmp"
    else if str_eqb ct (py "image/tiff") then py ".tif"
    else if str_eqb ct (py "image/svg+xml") then py ".svg"
    else default_ext.

(** The [with SESSION.get(...) as r:] block of [save_image], after the
    response arrived and its status was put in the record. *)
Definition store_response (r : response) (folder base_name ext : str)
    (record : log_record) : M log_record :=
  raise_for_status r;;
  let ctype := default [] (content_type r) in
  if negb (starts_with (py "image/") (lower L ctype))
  then raise (ValueError ctype)
  else
    let guessed_ext := guess_ext_from_ct ctype ext in
    let dest_path := path_join folder (base_name ++ guessed_ext) in
    let tmp_path := dest_path ++ py ".part" in
    total <- write_stream L tmp_path r;;
    os_replace L tmp_path dest_path;;
    print (MsgImgSaved dest_path total);;
    ret {| product_page_url := product_page_url record; title := title record;
           upc := upc record; category := category record;
           image_url := image_url record; image_path := dest_path;
           downloaded := true; http_status := http_status record;
           bytes := total; error := error record |}.

(** [record["error"] = str(e)] *)
Definition with_error (e : exn) (record : log_record) : log_record :=
  {| product_page_url := product_page_url record; title := title record;
     upc := upc record; category := category record;
     image_url := image_url record; image_path := image_path record;
     downloaded := downloaded record; http_status := http_status record;
     bytes := bytes record; error := Some e |}.

(** [record["http_status"] = str(r.status_code)] *)
Definition with_status (code : N) (record : log_record) : log_record :=
  {| product_page_url := product_page_url record; title := title record;
     upc := upc record; category := category record;
     image_url := image_url record; image_path := image_path record;
     downloaded := downloaded record; http_status := Status code;
     bytes := bytes record; error := error record |}.

(** [folder], [base_name] and [ext] as [save_image] computes them before
    it looks at the file system. *)
Definition folder_of (category : str) : str :=
  path_join IMAGES_DIR (cleaner (Some (or_else category (py "Unknown")))).
Definition base_name_of (upc title : str) : str :=
  cleaner (Some (or_else upc (or_else title (py "image")))).
Definition ext_of (image_url : str) : str :=
  or_else (lower L (splitext_ext (basename (before_query image_url)))) (py ".jpg").

(** [save_image]; the list [images_log] it appends to is passed in and
    handed back with the path. *)
Definition save_image (image_url category upc title referer_url : str)
    (images_log : list log_record) : M (str * list log_record) :=
  let record :=
    {| product_page_url := referer_url; title := title; upc := upc;
       category := category; image_url := image_url; image_path := [];
       downloaded := false; http_status := NoStatus; bytes := 0;
       error := None |} in
  if negb (truthy image_url) then ret ([], images_log ++ [record])
  else
    let folder := folder_of category in
    makedirs L folder;;
    let ext := ext_of image_url in
    let base_name := base_name_of upc title in
    let dest_path := path_join folder (base_name ++ ext) in
    present <- exists_ dest_path;;
    size <- getsize dest_path;;
    if present && bool_decide (0 < size)%nat then
      print (MsgImgCached dest_path);;
      ret (dest_path,
           images_log ++
           [{| product_page_url := referer_url; title := title; upc := upc;
               category := category; image_url := image_url;
               image_path := dest_path; downloaded := true;
               http_status := Cached; bytes := size; error := None |}])
    else
      let rq := {| url := image_url;
                   referer := if truthy referer_url then Some referer_url else None |} in
      got <- try_except (r <- http_get rq;; ret (inl r)) (λ e, ret (inr e));;
      record <-
        match got with
        | inr e =>
            print (MsgImgFail image_url e);;
            ret (with_error e record)
        | inl r =>
            let record := with_status (status r) record in
            try_except (store_response r folder base_name ext record)
              (λ e, print (MsgImgFail image_url e);; ret (with_error e record))
        end;;
      ret (image_path record, images_log ++ [record]).

(** The literal of [.replace(..., "")] as the file holds it: the two
    code points U+00AC U+00A3. *)
Definition currency : str := [172; 163].

Definition get_soup (url : str) : M soup :=
  r <- http_get {| url := url; referer := None |};;
  raise_for_status r;;
  ret (page r).

(** [soup.select("article.product_pod h3 a")] *)
Definition pod_anchors (p : soup) : list anchor :=
  omap (λ b, mjoin (pod_h3 b)) (pods p).

(** The loop of [parse_listing_product_links] over the anchors. *)
Fixpoint collect_links (listing_url : str) (anchors : list anchor)
    (links : list str) : M (list str) :=
  match anchors with
  | [] => ret links
  | a :: rest =>
      let href := strip (default [] (a_href a)) in
      if truthy href then
        u <- join L listing_url href;;
        collect_links listing_url rest (links ++ [u])
      else collect_links listing_url rest links
  end.

Definition parse_listing_product_links (listing_url : str) : M (list str) :=
  soup <- get_soup listing_url;;
  collect_links listing_url (pod_anchors soup) [].

(** [nxt.get("href", "")] goes to [urljoin] even when it is empty. *)
Definition get_next_page_url (current_url : str) : M (option str) :=
  soup <- get_soup current_url;;
  match mjoin (next_li soup) with
  | None => ret None
  | Some nxt =>
      u <- join L current_url (default [] (a_href nxt));;
      ret (Some u)
  end.

Definition extract_text (el : option (list (list N))) : str :=
  match el with
  | Some t => get_text_strip t
  | None => []
  end.

(** [row.select_one(tag)] *)
Definition find_cell (tag : cell_tag) (r : row) : option cell :=
  head (filter (λ c, c_tag c = tag) r).

(** The body of [for row in soup.select("table.table.table-striped tr")]:
    a row without [th] or [td] is stored too, under the texts it has. *)
Definition scan_row (data : gmap (list N) (list N)) (r : row)
    : gmap (list N) (list N) :=
  <[extract_text (c_texts <$> find_cell Th r)
    := extract_text (c_texts <$> find_cell Td r)]> data.

Definition extract_book_data (product_url : str) : M (dict str) :=
  soup <- get_soup product_url;;
  let title := extract_text (main_h1 soup) in
  let crumbs :=
    map (λ c, match c with CrumbLink t | CrumbText t => extract_text (Some t) end)
        (breadcrumb soup) in
  let category :=
    if bool_decide (4 ≤ length crumbs)%nat
    then default [] (crumbs !! 2%nat) else py "Default" in
  let data := foldl scan_row ∅ (concat (tables soup)) in
  let upc := default [] (data !! py "UPC") in
  let price_incl := default [] (data !! py "Price (incl. tax)") in
  let price_excl := default [] (data !! py "Price (excl. tax)") in
  let availability := default [] (data !! py "Availability") in
  let desc :=
    match description soup with
    | Some (Some desc_p) => extract_text (Some desc_p)
    | _ => []
    end in
  let img_src :=
    match gallery_img soup with
    | Some img => strip (default [] img)
    | None => []
    end in
  image_url <- (if truthy img_src then join L product_url img_src else ret []);;
  ret [ (py "title", title); (py "upc", upc);
        (py "price_incl_tax_gbp", strip (replace currency [] price_incl));
        (py "price_excl_tax_gbp", strip (replace currency [] price_excl));
        (py "availability", availability);
        (py "description", desc);
        (py "category", category);
        (py "product_page_url", product_url);
        (py "image_url", image_url) ].

(** [for idx, book_url in enumerate(product_links, 1)] of
    [scrape_all_books]; the state is [(by_category, images_log)]. *)
Fixpoint visit_products (product_links : list str) (idx n : nat)
    (by_category : dict (list (dict str))) (images_log : list log_record)
    : M (dict (list (dict str)) * list log_record) :=
  match product_links with
  | [] => ret (by_category, images_log)
  | book_url :: rest =>
      print (MsgItem idx n (Some book_url));;
      st <-
        try_except
          (data <- extract_book_data book_url;;
           saved <- save_image (item "image_url" data) (item "category" data)
                      (item "upc" data) (item "title" data) book_url images_log;;
           let data := dict_set (py "image_path") (fst saved) data in
           let cat := or_else (item "category" data) (py "Default") in
           ret (setdefault_append cat data by_category, snd saved))
          (λ e, print (MsgError book_url e);; ret (by_category, images_log));;
      visit_products rest (S idx) n (fst st) (snd st)
  end.

(** [max_pages is not None and page_number >= max_pages] *)
Definition budget_reached (max_pages : option Z) (page_number : Z) : bool :=
  match max_pages with
  | Some m => bool_decide (page_number >= m)%Z
  | None => false
  end.

(** The [while current_url] loop of [scrape_all_books]; a listing that
    cannot be read breaks out of it. *)
Fixpoint crawl (fuel : nat) (max_pages : option Z)
    (by_category : dict (list (dict str))) (images_log : list log_record)
    (current_url : option str) (page_number : Z)
    : M (dict (list (dict str)) * list log_record) :=
  match fuel with
  | O => out_of_fuel
  | S fuel' =>
      if truthy_opt current_url then
        let url := default [] current_url in
        print (MsgPage page_number url);;
        listing <- try_except
                     (links <- parse_listing_product_links url;; ret (Some links))
                     (λ e, print (MsgListingFailed url e);; ret None);;
        match listing with
        | None => ret (by_category, images_log)
        | Some product_links =>
            print (MsgFound (length product_links));;
            st <- visit_products product_links 1 (length product_links)
                    by_category images_log;;
            if budget_reached max_pages page_number then
              print (MsgStop (default 0%Z max_pages));;
              ret st
            else
              next_url <- try_except (get_next_page_url url)
                            (λ e, print (MsgNextFailed url e);; ret None);;
              if truthy_opt next_url then
                print MsgNext;;
                crawl fuel' max_pages (fst st) (snd st) next_url (page_number + 1)%Z
              else
                print MsgDone;;
                ret st
        end
      else ret (by_category, images_log)
  end.

Definition scrape_all_books (fuel : nat) (start_url : str)
    (max_pages : option Z) : M (dict (list (dict str)) * list log_record) :=
  crawl fuel max_pages [] [] (Some start_url) 1%Z.

End Script.
End test2_image.

(** ** Pages and worlds to run the scripts on *)
Module Fixtures.

(** A stand-in for what lies outside the repository, good for pages
    whose links are absolute and whose text is ASCII: [urljoin] returns
    the reference, [lower] and [\d] know the ASCII letters and digits. *)
Definition ascii_extern : extern :=
  {| urljoin := λ _ ref, Joined ref;
     lower := map (λ c, if (65 <=? c) && (c <=? 90) then c + 32 else c);
     isdecimal := λ c, (48 <=? c) && (c <=? 57);
     refuses := λ _, false |}.

(** The same, on a system that refuses a path with a component of more
    than 255 characters, and with a [urljoin] that cannot parse a
    reference with an opening bracket that is never closed. *)
Definition strict_extern : extern :=
  {| urljoin := λ _ ref,
       if bool_decide (91 ∈ ref) && negb (bool_decide (93 ∈ ref))
       then Unparsable (py "Invalid IPv6 URL") else Joined ref;
     lower := lower ascii_extern;
     isdecimal := isdecimal ascii_extern;
     refuses := λ p, existsb (λ name, 255 <? length name)%nat (split 47 p) |}.

Definition th (s : str) : cell := {| c_tag := Th; c_texts := [s] |}.
Definition td (s : str) : cell := {| c_tag := Td; c_texts := [s] |}.

(** ["£" + s] *)
Definition pounds (s : string) : str := 163 :: py s.

(** A product page of the catalogue; [avail] is the Availability row,
    if the table has one, and [trail] the breadcrumb. *)
Definition product_page (title : string) (avail : option str)
    (trail : list crumb) : soup :=
  {| h1 := Some [py title];
     main_h1 := Some [py title];
     tables :=
       [ [ [th (py "UPC"); td (py "a897fe39b1053632")];
           [th (py "Product Type"); td (py "Books")];
           [th (py "Price (excl. tax)"); td (pounds "51.77")];
           [th (py "Price (incl. tax)"); td (pounds "51.77")];
           [th (py "Tax"); td (pounds "0.00")] ]
         ++ match avail with
            | Some a => [[th (py "Availability"); td a]]
            | None => []
            end
         ++ [ [th (py "Number of reviews"); td (py "0")] ] ];
     description := Some (Some [py "A book of poems."]);
     breadcrumb := trail;
     gallery_img := None;
     pods := [];
     next_li := None |}.

(** [Home > Books > Poetry > title] *)
Definition poetry_trail (title : string) : list crumb :=
  [ CrumbLink [py "Home"]; CrumbLink [py "Books"]; CrumbLink [py "Poetry"];
    CrumbText [py title] ].

Definition attic : soup :=
  product_page "A Light in the Attic" (Some (py "In stock (19 available)"))
    (poetry_trail "A Light in the Attic").

Definition ok (p : soup) : reply :=
  Reply {| status := 200; content_type := Some (py "text/html");
           page := p; chunks := []; stream_exn := None |}.

Definition not_found : reply :=
  Reply {| status := 404; content_type := Some (py "text/html");
           page := empty_soup; chunks := []; stream_exn := None |}.

(** An image served in two chunks; with [broken], the connection drops
    after the first. *)
Definition image (broken : bool) : reply :=
  Reply {| status := 200; content_type := Some (py "image/jpeg");
           page := empty_soup;
           chunks := if broken then [[255; 216; 255]] else [[255; 216; 255]; [217]];
           stream_exn := if broken then Some ConnectionError else None |}.

(** An error page served with status 200 where an image is expected. *)
Definition html_for_image : reply :=
  Reply {| status := 200; content_type := Some (py "text/html");
           page := empty_soup; chunks := [py "<html>"]; stream_exn := None |}.

Definition server_error : reply :=
  Reply {| status := 500; content_type := Some (py "text/html");
           page := empty_soup; chunks := []; stream_exn := None |}.

(** A listing page with one product per link, and a next-page link if
    [next] is given. *)
Definition listing_page (links : list str) (next : option str) : soup :=
  {| h1 := Some [py "Books"]; main_h1 := None; tables := []; description := None;
     breadcrumb := []; gallery_img := None;
     pods := map (λ u, {| pod_h3 := Some (Some {| a_href := Some u; a_texts := [u] |}) |})
                 links;
     next_li := (λ u, Some {| a_href := Some u; a_texts := [py "next"] |}) <$> next |}.

(** A catalogue of two listing pages; the first one shows three
    products, the second of which answers as [second] says. *)
Definition catalogue (second : reply) : list (str * reply) :=
  [ (py "http://x/page-1",
     ok (listing_page [py "http://x/attic"; py "http://x/velvet"; py "http://x/soumission"]
           (Some (py "http://x/page-2"))));
    (py "http://x/attic", ok attic);
    (py "http://x/velvet", second);
    (py "http://x/soumission",
     ok (product_page "Soumission" (Some (py "In stock (20 available)"))
           [ CrumbLink [py "Home"]; CrumbLink [py "Books"]; CrumbLink [py "Fiction"];
             CrumbText [py "Soumission"] ]));
    (py "http://x/page-2", ok (listing_page [] None)) ].

(** A site given by the pages it serves; every other request gets 404.
    The Referer header is not looked at. *)
Fixpoint serve (site : list (str * reply)) (rq : request) : reply :=
  match site with
  | [] => not_found
  | (u, r) :: rest => if str_eqb u (url rq) then r else serve rest rq
  end.

Definition start_world (site : list (str * reply)) : world :=
  {| net := serve site; files := ∅; trace := [] |}.

(** The URLs requested so far, in order. *)
Definition requested (w : world) : list str :=
  omap (λ ev, match ev with Get rq => Some (url rq) | Print _ => None end)
       (trace w).

(** The listing pages announced so far ("Scraping listing page n: url"),
    in order. *)
Definition pages_visited (w : world) : list str :=
  omap (λ ev, match ev with Print (MsgPage _ u) => Some u | _ => None end)
       (trace w).

End Fixtures.

(** ** The vocabulary of the properties *)
Module Vocabulary.
Import Fixtures Pandas.

(** [m] never runs out of fuel: it returns or raises. *)
Definition terminates {A} (m : M A) : Prop := ∀ w, fst (m w) ≠ OutOfFuel.

(** [m] announces no listing page. *)
Definition quiet {A} (m : M A) : Prop :=
  ∀ w, pages_visited (snd (m w)) = pages_visited w.


(** [kv] reads [v] in the last Availability row of [rows]. *)
Definition availability_row (kv : row → option (str * str))
    (rows : list row) (v : str) : Prop :=
  ∃ before r after,
    rows = before ++ r :: after
    ∧ kv r = Some (py "Availability", v)
    ∧ Forall (λ r', fst <$> kv r' ≠ Some (py "Availability")) after.

(** [kv] finds no Availability row in [rows]. *)
Definition no_availability_row (kv : row → option (str * str))
    (rows : list row) : Prop :=
  Forall (λ r', fst <$> kv r' ≠ Some (py "Availability")) rows.

(** [l[-2]] *)
Definition second_to_last {A} (l : list A) : option A :=
  if bool_decide (2 ≤ length l)%nat then l !! (length l - 2)%nat else None.

(** [Home > Books > Fiction > Poetry > title]: five levels. *)
Definition deep_trail : list crumb :=
  [ CrumbLink [py "Home"]; CrumbLink [py "Books"]; CrumbLink [py "Fiction"];
    CrumbLink [py "Poetry"]; CrumbText [py "A Light in the Attic"] ].

(** The line of a record under the columns [cs]: its value in each
    column, the empty string where the record has none. *)
Definition csv_line (cs : list str) (d : dict str) : list str :=
  map (λ c, default [] (dict_get c d)) cs.

(** [df] holds the records [rows]: line by line their values, NaN or the
    empty string where a record has no value, and a column for every
    key. *)
Definition represents (rows : list (dict str)) (df : frame) : Prop :=
  map (map (default [])) (cells df) = map (csv_line (columns df)) rows
  ∧ ∀ d k, d ∈ rows → is_Some (dict_get k d) → k ∈ columns df.

(** The paths [write_csvs] writes to, in order. *)
Definition out_paths (data : dict (list (dict str))) : list str :=
  map (λ x, books_data_images.out_path (fst x)) data.

(** The last category of [data] that [write_csvs] writes to [path]. *)
Definition last_written (data : dict (list (dict str))) (path : str)
    : option (str * list (dict str)) :=
  last (filter (λ x, books_data_images.out_path (fst x) = path) data).

(** The ten columns the claim of C9 lists. *)
Definition claimed_columns : list str :=
  [ py "title"; py "upc"; py "price_incl_tax"; py "price_excl_tax";
    py "availability"; py "description"; py "category"; py "product_page_url";
    py "image_url"; py "image_path" ].

(** The keys of the dict that [scrape_book] of all_books_data.py builds. *)
Definition all_books_data_keys : list str :=
  [ py "title"; py "upc"; py "price_with_tax"; py "price_without_tax";
    py "availability"; py "description"; py "category"; py "product_url" ].

(** A non-empty file lies at [dest]. *)
Definition cached_at (w : world) (dest : str) : bool :=
  match files w !! dest with
  | Some c => bool_decide (0 < size_of c)%nat
  | None => false
  end.

(** The status lets [raise_for_status] pass. *)
Definition passes (r : response) : Prop := status r < 400 ∨ 600 ≤ status r.

(** The response passes the status check and its body arrives whole. *)
Definition arrives_whole (r : response) : bool :=
  bool_decide (passes r)
  && match stream_exn r with None => true | Some _ => false end.

(** The category under which [scrape_all_books] files a record. *)
Definition category_of (data : dict str) : str :=
  or_else (default (py "Unknown") (dict_get (py "category") data)) (py "Unknown").

(** The records of the products at [urls] that the site [site] serves,
    in order, as [scrape_book] of all_books_data.py reads them. *)
Definition records_of (site : request → reply) (urls : list str)
    : list (dict str) :=
  omap (λ u, match site {| url := u; referer := None |} with
             | Reply r => Some (all_books_data.book_of_soup u (page r))
             | NetFail _ => None
             end) urls.

(** Records filed by category, in order of discovery. *)
Definition grouped (by_category : dict (list (dict str)))
    (records : list (dict str)) : dict (list (dict str)) :=
  foldl (λ bc d, setdefault_append (category_of d) d bc) by_category records.

(** The number of records in all the groups together. *)
Definition row_count (by_category : dict (list (dict str))) : nat :=
  length (concat (map snd by_category)).

(** No group is empty and every record has the ten columns of
    books_data_images.py, in their order. *)
Definition ten_columns (data : dict (list (dict str))) : Prop :=
  Forall (λ g, snd g ≠ []) data
  ∧ Forall (λ g, Forall (λ d, map fst d = books_data_images.cols) (snd g)) data.

Section WithExtern.
Context (L : extern).

(** [a] is empty, ["0"], or a run of decimal digits: never free text. *)
Definition count_or_nothing (a : str) : Prop :=
  a = [] ∨ a = py "0" ∨ (a ≠ [] ∧ Forall (λ c, isdecimal L c = true) a).

(** [ctype.lower().startswith("image/")] *)
Definition image_type (r : response) : bool :=
  starts_with (py "image/") (lower L (default [] (content_type r))).

(** The path under which [save_image] of test2_image.py stores the body
    of [r]: the extension follows the Content-Type. *)
Definition final_path (image_url category upc title : str) (r : response) : str :=
  path_join (test2_image.folder_of category)
    (test2_image.base_name_of upc title
     ++ test2_image.guess_ext_from_ct L (default [] (content_type r))
          (test2_image.ext_of L image_url)).

(** The body of [r] arrives whole with the Content-Type of an image,
    and the system accepts the temporary path and the destination
    [final]. *)
Definition storable (r : response) (final : str) : bool :=
  arrives_whole r && image_type r
  && negb (refuses L (final ++ py ".part")) && negb (refuses L final).

(** The image source of the page, if it has one, can be joined to the
    address [u] of the page; images_book_data.py takes the source as it
    is. *)
Definition image_joins (u : str) (p : soup) : Prop :=
  ∀ src, gallery_img p = Some (Some src) → truthy src = true →
         ∃ j, urljoin L u src = Joined j.

(** The same for the source stripped of white space, as
    books_data_images.py and test2_image.py take it. *)
Definition stripped_image_joins (u : str) (p : soup) : Prop :=
  ∀ src, gallery_img p = Some (Some src) → truthy (strip src) = true →
         ∃ j, urljoin L u (strip src) = Joined j.

(** [get_book_urls_from_page] of all_books_data.py can read the pod: it
    has its [h3], and its link, if it has one, can be joined. *)
Definition pod_readable (list_url : str) (b : pod) : Prop :=
  match pod_h3 b with
  | None => False
  | Some None => True
  | Some (Some a) =>
      truthy_opt (a_href a) = true →
      ∃ u, urljoin L list_url (default [] (a_href a)) = Joined u
  end.

(** The links [get_book_urls_from_page] of all_books_data.py collects
    on a page whose pods it can read. *)
Definition pod_links (list_url : str) (books : list pod) : list str :=
  omap (λ b, match pod_h3 b with
             | Some (Some a) =>
                 if truthy_opt (a_href a)
                 then match urljoin L list_url (default [] (a_href a)) with
                      | Joined u => Some u
                      | Unparsable _ => None
                      end
                 else None
             | _ => None
             end) books.

(** The listing pages [pages], each with its address, follow one
    another on [site]: the next link of each leads to the one after it,
    the last has none, and every product pod of every page can be read. *)
Fixpoint listing_chain (site : request → reply) (pages : list (str * response))
    : Prop :=
  match pages with
  | [] => True
  | (u, r) :: rest =>
      site {| url := u; referer := None |} = Reply r
      ∧ truthy u = true
      ∧ Forall (pod_readable u) (pods (page r))
      ∧ match rest with
        | [] => next_li (page r) = None ∨ next_li (page r) = Some None
        | (u', _) :: _ =>
            ∃ a h, next_li (page r) = Some (Some a) ∧ a_href a = Some h
                   ∧ urljoin L u h = Joined u'
        end
      ∧ listing_chain site rest
  end.

(** The product links of the pages of a chain, in order. *)
Definition chain_links (pages : list (str * response)) : list str :=
  concat (map (λ p, pod_links (fst p) (pods (page (snd p)))) pages).

End WithExtern.

End Vocabulary.
Export Vocabulary.

(** * Properties *)

(** ** Running the monad *)
Section Running.
Import Fixtures.

Lemma bind_run {A B} (m : M A) (k : A → M B) (w : world) :
  bind m k w = match m w with
               | (Ret a, w') => k a w'
               | (Raise e, w') => (Raise e, w')
               | (OutOfFuel, w') => (OutOfFuel, w')
               end.
Proof. reflexivity. Qed.

Lemma bind_ret {A B} (a : A) (k : A → M B) (w : world) :
  bind (ret a) k w = k a w.
Proof. reflexivity. Qed.

Lemma try_except_run {A} (m : M A) (h : exn → M A) (w : world) :
  try_except m h w = match m w with
                     | (Raise e, w') => h e w'
                     | r => r
                     end.
Proof. reflexivity. Qed.

Lemma print_run (m : msg) (w : world) :
  print m w = (Ret tt, {| net := net w; files := files w;
                          trace := trace w ++ [Print m] |}).
Proof. reflexivity. Qed.

Lemma http_get_run (rq : request) (w : world) :
  http_get rq w
  = (match net w rq with NetFail e => Raise e | Reply r => Ret r end,
     {| net := net w; files := files w; trace := trace w ++ [Get rq] |}).
Proof. unfold http_get. by destruct (net w rq). Qed.

Lemma join_run (L : extern) (base ref : str) (w : world) :
  join L base ref w
  = (match urljoin L base ref with
     | Joined u => Ret u
     | Unparsable msg => Raise (ValueError msg)
     end, w).
Proof. unfold join. by destruct (urljoin L base ref). Qed.

Lemma makedirs_run (L : extern) (path : str) (w : world) :
  makedirs L path w
  = (if refuses L path then Raise (OSError path) else Ret tt, w).
Proof. unfold makedirs. by destruct (refuses L path). Qed.

Lemma raise_for_status_passes (r : response) (w : world) :
  passes r → raise_for_status r w = (Ret tt, w).
Proof.
  intros H. unfold raise_for_status.
  replace ((400 <=? status r) && (status r <? 600)) with false; [reflexivity|].
  symmetry. apply andb_false_iff. rewrite N.leb_gt, N.ltb_ge. destruct H; lia.
Qed.

Lemma raise_for_status_fails (r : response) (w : world) :
  ¬ passes r → raise_for_status r w = (Raise (HTTPError (status r)), w).
Proof.
  intros H. unfold raise_for_status.
  replace ((400 <=? status r) && (status r <? 600)) with true; [reflexivity|].
  symmetry. apply andb_true_iff. rewrite N.leb_le, N.ltb_lt.
  unfold passes in H. lia.
Qed.

Lemma passes_dec (r : response) : passes r ∨ ¬ passes r.
Proof. unfold passes. lia. Qed.

(** The page of a product as [get_soup] hands it over. *)
Lemma books_data_images_get_soup (u : str) (w : world) (r : response) :
  net w {| url := u; referer := None |} = Reply r → passes r →
  books_data_images.get_soup u w
  = (Ret (page r), {| net := net w; files := files w;
                      trace := trace w ++ [Get {| url := u; referer := None |}] |}).
Proof.
  intros Hnet Hp. unfold books_data_images.get_soup.
  rewrite bind_run, http_get_run, Hnet.
  by rewrite bind_run, raise_for_status_passes.
Qed.

Lemma test2_image_get_soup (u : str) (w : world) (r : response) :
  net w {| url := u; referer := None |} = Reply r → passes r →
  test2_image.get_soup u w
  = (Ret (page r), {| net := net w; files := files w;
                      trace := trace w ++ [Get {| url := u; referer := None |}] |}).
Proof. apply books_data_images_get_soup. Qed.

Lemma terminates_ret {A} (a : A) : terminates (ret a).
Proof. intros w. discriminate. Qed.

Lemma terminates_raise {A} (e : exn) : terminates (raise (A := A) e).
Proof. intros w. discriminate. Qed.

Lemma terminates_bind {A B} (m : M A) (k : A → M B) :
  terminates m → (∀ a, terminates (k a)) → terminates (bind m k).
Proof.
  intros Hm Hk w. rewrite bind_run. specialize (Hm w).
  destruct (m w) as [[a|e|] w1]; simpl in *; [apply Hk | discriminate | done].
Qed.

Lemma terminates_try_except {A} (m : M A) (h : exn → M A) :
  terminates m → (∀ e, terminates (h e)) → terminates (try_except m h).
Proof.
  intros Hm Hh w. rewrite try_except_run. specialize (Hm w).
  destruct (m w) as [[a|e|] w1]; simpl in *; [discriminate | apply Hh | done].
Qed.

Lemma terminates_http_get (rq : request) : terminates (http_get rq).
Proof. intros w. unfold http_get. destruct (net w rq); discriminate. Qed.

Lemma terminates_raise_for_status (r : response) : terminates (raise_for_status r).
Proof. intros w. unfold raise_for_status. destruct (_ && _); discriminate. Qed.

Lemma terminates_print (m : msg) : terminates (print m).
Proof. intros w. discriminate. Qed.

Lemma terminates_exists (path : str) : terminates (exists_ path).
Proof. intros w. discriminate. Qed.

Lemma terminates_getsize (path : str) : terminates (getsize path).
Proof. intros w. discriminate. Qed.

Lemma terminates_set_file (path : str) (c : content) : terminates (set_file path c).
Proof. intros w. discriminate. Qed.

Lemma terminates_write (path : str) (chunk : list N) : terminates (write path chunk).
Proof. intros w. discriminate. Qed.

Lemma terminates_os_replace (L : extern) (src dst : str) :
  terminates (os_replace L src dst).
Proof.
  intros w. unfold os_replace. destruct (refuses L dst); [discriminate|].
  destruct (files w !! src); discriminate.
Qed.

Lemma terminates_makedirs (L : extern) (path : str) : terminates (makedirs L path).
Proof. intros w. unfold makedirs. destruct (refuses L path); discriminate. Qed.

Lemma terminates_open_wb (L : extern) (path : str) : terminates (open_wb L path).
Proof. intros w. unfold open_wb. destruct (refuses L path); discriminate. Qed.

Lemma terminates_write_csv (L : extern) (path : str) (t : list (list str)) :
  terminates (write_csv L path t).
Proof. intros w. unfold write_csv. destruct (refuses L path); discriminate. Qed.

Lemma terminates_join (L : extern) (base ref : str) : terminates (join L base ref).
Proof. intros w. unfold join. destruct (urljoin L base ref); discriminate. Qed.

Lemma terminates_write_chunks (path : str) (cs : list (list N)) (total : nat) :
  terminates (Assets.write_chunks path cs total).
Proof.
  revert total. induction cs as [|c cs IH]; intros total; simpl.
  - apply terminates_ret.
  - destruct (truthy c); [|apply IH].
    apply terminates_bind; [apply terminates_write | intros; apply IH].
Qed.

Lemma terminates_write_stream (L : extern) (path : str) (r : response) :
  terminates (Assets.write_stream L path r).
Proof.
  unfold Assets.write_stream.
  apply terminates_bind; [apply terminates_open_wb | intros].
  apply terminates_bind; [apply terminates_write_chunks | intros].
  destruct (stream_exn r); [apply terminates_raise | apply terminates_ret].
Qed.

Lemma terminates_try_except_HTTPError {A} (m h : M A) :
  terminates m → terminates h → terminates (Assets.try_except_HTTPError m h).
Proof.
  intros Hm Hh w. unfold Assets.try_except_HTTPError. specialize (Hm w).
  destruct (m w) as [[a|e|] w1]; simpl in *; [discriminate| |done].
  destruct e; try discriminate. apply Hh.
Qed.

(** A computation wrapped in a handler that returns ends by returning. *)
Lemma try_except_returns {A} (m : M A) (h : exn → M A) (w : world) :
  terminates m → (∀ e w1, ∃ a w2, h e w1 = (Ret a, w2)) →
  ∃ a w', try_except m h w = (Ret a, w').
Proof.
  intros Hm Hh. rewrite try_except_run. specialize (Hm w).
  destruct (m w) as [[a|e|] w1]; simpl in *; [by eexists _, _ | apply Hh | done].
Qed.

Lemma requested_app (w : world) (evs : list event) :
  requested {| net := net w; files := files w; trace := trace w ++ evs |}
  = requested w
    ++ omap (λ ev, match ev with Get rq => Some (url rq) | Print _ => None end) evs.
Proof. unfold requested. simpl. by rewrite omap_app. Qed.

Lemma pages_visited_app (w : world) (evs : list event) :
  pages_visited {| net := net w; files := files w; trace := trace w ++ evs |}
  = pages_visited w
    ++ omap (λ ev, match ev with Print (MsgPage _ u) => Some u | _ => None end) evs.
Proof. unfold pages_visited. simpl. by rewrite omap_app. Qed.

Lemma quiet_ret {A} (a : A) : quiet (ret a).
Proof. by intros w. Qed.

Lemma quiet_raise {A} (e : exn) : quiet (raise (A := A) e).
Proof. by intros w. Qed.

Lemma quiet_bind {A B} (m : M A) (k : A → M B) :
  quiet m → (∀ a, quiet (k a)) → quiet (bind m k).
Proof.
  intros Hm Hk w. rewrite bind_run. specialize (Hm w).
  destruct (m w) as [[a|e|] w1]; simpl in *; [|done..].
  by rewrite Hk.
Qed.

Lemma quiet_try_except {A} (m : M A) (h : exn → M A) :
  quiet m → (∀ e, quiet (h e)) → quiet (try_except m h).
Proof.
  intros Hm Hh w. rewrite try_except_run. specialize (Hm w).
  destruct (m w) as [[a|e|] w1]; simpl in *; [done| |done].
  by rewrite Hh.
Qed.

Lemma quiet_try_except_HTTPError {A} (m h : M A) :
  quiet m → quiet h → quiet (Assets.try_except_HTTPError m h).
Proof.
  intros Hm Hh w. unfold Assets.try_except_HTTPError. specialize (Hm w).
  destruct (m w) as [[a|e|] w1]; simpl in *; [done| |done].
  destruct e; try done. by rewrite Hh.
Qed.

Lemma quiet_http_get (rq : request) : quiet (http_get rq).
Proof.
  intros w. unfold http_get.
  destruct (net w rq); simpl; rewrite pages_visited_app; simpl; apply app_nil_r.
Qed.

Lemma quiet_raise_for_status (r : response) : quiet (raise_for_status r).
Proof. intros w. unfold raise_for_status. by destruct (_ && _). Qed.

Lemma quiet_print (m : msg) :
  (∀ n u, m ≠ MsgPage n u) → quiet (print m).
Proof.
  intros Hm w. rewrite print_run. simpl. rewrite pages_visited_app. simpl.
  destruct m; try apply app_nil_r. by destruct (Hm n u).
Qed.

Lemma quiet_exists (path : str) : quiet (exists_ path).
Proof. by intros w. Qed.

Lemma quiet_getsize (path : str) : quiet (getsize path).
Proof. by intros w. Qed.

Lemma quiet_set_file (path : str) (c : content) : quiet (set_file path c).
Proof. by intros w. Qed.

Lemma quiet_write (path : str) (chunk : list N) : quiet (write path chunk).
Proof. by intros w. Qed.

Lemma quiet_os_replace (L : extern) (src dst : str) : quiet (os_replace L src dst).
Proof.
  intros w. unfold os_replace. destruct (refuses L dst); [done|].
  by destruct (files w !! src).
Qed.

Lemma quiet_makedirs (L : extern) (path : str) : quiet (makedirs L path).
Proof. intros w. unfold makedirs. by destruct (refuses L path). Qed.

Lemma quiet_open_wb (L : extern) (path : str) : quiet (open_wb L path).
Proof. intros w. unfold open_wb. by destruct (refuses L path). Qed.

Lemma quiet_write_csv (L : extern) (path : str) (t : list (list str)) :
  quiet (write_csv L path t).
Proof. intros w. unfold write_csv. by destruct (refuses L path). Qed.

Lemma quiet_join (L : extern) (base ref : str) : quiet (join L base ref).
Proof. intros w. unfold join. by destruct (urljoin L base ref). Qed.

Lemma quiet_write_chunks (path : str) (cs : list (list N)) (total : nat) :
  quiet (Assets.write_chunks path cs total).
Proof.
  revert total. induction cs as [|c cs IH]; intros total; simpl.
  - apply quiet_ret.
  - destruct (truthy c); [|apply IH].
    apply quiet_bind; [apply quiet_write | intros; apply IH].
Qed.

Lemma quiet_write_stream (L : extern) (path : str) (r : response) :
  quiet (Assets.write_stream L path r).
Proof.
  unfold Assets.write_stream.
  apply quiet_bind; [apply quiet_open_wb | intros].
  apply quiet_bind; [apply quiet_write_chunks | intros].
  destruct (stream_exn r); [apply quiet_raise | apply quiet_ret].
Qed.

End Running.

Create HintDb terminates.
#[export] Hint Resolve terminates_ret terminates_raise terminates_http_get
  terminates_raise_for_status terminates_print terminates_exists
  terminates_getsize terminates_set_file terminates_write
  terminates_os_replace terminates_write_chunks terminates_write_stream
  terminates_makedirs terminates_open_wb terminates_write_csv terminates_join
  : terminates.

Create HintDb quiet.
#[export] Hint Resolve quiet_ret quiet_raise quiet_http_get
  quiet_raise_for_status quiet_exists quiet_getsize quiet_set_file
  quiet_write quiet_os_replace quiet_write_chunks quiet_write_stream
  quiet_makedirs quiet_open_wb quiet_write_csv quiet_join
  : quiet.

(** Goes through binds, handlers and case distinctions. *)
Ltac step_quiet :=
  repeat match goal with
    | |- quiet (bind _ _) => apply quiet_bind; [|intros]
    | |- quiet (try_except _ _) => apply quiet_try_except; [|intros]
    | |- quiet (Assets.try_except_HTTPError _ _) =>
        apply quiet_try_except_HTTPError
    | |- quiet (print _) => apply quiet_print; intros; discriminate
    | |- quiet (if ?b then _ else _) => destruct b
    | |- quiet (match ?x with _ => _ end) => destruct x
    | |- quiet _ => solve [auto with quiet]
    end.

(** Goes through binds, handlers and case distinctions. *)
Ltac step_terminates :=
  repeat match goal with
    | |- terminates (bind _ _) => apply terminates_bind; [|intros]
    | |- terminates (try_except _ _) => apply terminates_try_except; [|intros]
    | |- terminates (Assets.try_except_HTTPError _ _) =>
        apply terminates_try_except_HTTPError
    | |- terminates (if ?b then _ else _) => destruct b
    | |- terminates (match ?x with _ => _ end) => destruct x
    | |- terminates _ => solve [auto with terminates]
    end.

(** ** The string and path helpers on the inputs of the scripts *)
Section Helpers.
Import Fixtures Assets.

Example split_in_stock :
  split 40 (py "In stock (19 available)") = [py "In stock "; py "19 available)"].
Proof. vm_compute. reflexivity. Qed.

Example split_empty : split 40 [] = [[]].
Proof. reflexivity. Qed.

Example strip_spaces :
  strip (9 :: 32 :: py "In stock" ++ [160; 10]) = py "In stock".
Proof. vm_compute. reflexivity. Qed.

Example replace_pound : replace [163] [] (pounds "51.77") = py "51.77".
Proof. vm_compute. reflexivity. Qed.

Example replace_not_overlapping :
  replace (py "aa") (py "b") (py "aaaa a") = py "bb a".
Proof. vm_compute. reflexivity. Qed.

Example get_text_strip_nodes :
  get_text_strip [py "  In stock "; py "   "; py "(19 available) "]
  = py "In stock(19 available)".
Proof. vm_compute. reflexivity. Qed.

Example basename_of_url :
  basename (before_query (py "http://x/media/cache/fe/72/cover.JPG?v=2"))
  = py "cover.JPG".
Proof. vm_compute. reflexivity. Qed.

Example splitext_cover : splitext_ext (py "cover.tar.JPG") = py ".JPG".
Proof. vm_compute. reflexivity. Qed.

Example splitext_hidden : splitext_ext (py ".hidden") = [].
Proof. vm_compute. reflexivity. Qed.

Example splitext_none : splitext_ext (py "cover") = [].
Proof. vm_compute. reflexivity. Qed.

Example search_digits_first_run :
  images_book_data.search_digits ascii_extern (py "In stock (19 available), 3 new")
  = Some (py "19").
Proof. vm_compute. reflexivity. Qed.

Example guess_ext_png :
  test2_image.guess_ext_from_ct ascii_extern (py "Image/PNG; charset=binary") (py ".jpg")
  = py ".png".
Proof. vm_compute. reflexivity. Qed.

Example dest_of_attic :
  books_data_images.dest_of (py "Sci-Fi & Fantasy") [] (py "A Light in the Attic")
  = py "books_images/Sci-Fi_Fantasy/A_Light_in_the_Attic.jpg".
Proof. vm_compute. reflexivity. Qed.

Example setdefault_append_order :
  setdefault_append (py "a") 3%nat
    (setdefault_append (py "b") 2%nat (setdefault_append (py "a") 1%nat []))
  = [(py "a", [1; 3]%nat); (py "b", [2]%nat)].
Proof. vm_compute. reflexivity. Qed.

End Helpers.

(** ** The filename sanitizer *)
Section Cleaner.

Lemma lstrip_by_Forall (P : char → Prop) p s :
  Forall P s → Forall P (lstrip_by p s).
Proof.
  induction 1 as [|c r Hc Hr IH]; simpl; [constructor|].
  destruct (p c); [exact IH | by constructor].
Qed.

Lemma strip_by_Forall (P : char → Prop) p s :
  Forall P s → Forall P (strip_by p s).
Proof.
  intros H. unfold strip_by, rstrip_by.
  rewrite <- (rev_involutive (lstrip_by p s)) in *.
  apply Forall_rev, lstrip_by_Forall, Forall_rev.
  rewrite rev_involutive.
  by apply lstrip_by_Forall.
Qed.

Lemma sub_unsafe_runs_safe b s :
  Forall (λ c, safe_char c = true) (sub_unsafe_runs b s).
Proof.
  revert b. induction s as [|c r IH]; intros b; simpl; [constructor|].
  destruct (safe_char c) eqn:Hc.
  - constructor; [exact Hc | apply IH].
  - destruct b; [apply IH|]. constructor; [reflexivity | apply IH].
Qed.

(** C10: whatever the argument ([None], the empty string or any string),
    the sanitizer returns a non-empty string of characters of
    [A-Za-z0-9_-]. *)
Theorem cleaner_nonempty_safe (s : option str) :
  cleaner s ≠ [] ∧ Forall (λ c, safe_char c = true) (cleaner s).
Proof.
  unfold cleaner, or_else.
  destruct (strip_chars _ _) as [|c r] eqn:E; simpl.
  - split; [discriminate|]. by repeat constructor.
  - split; [discriminate|]. rewrite <- E.
    apply strip_by_Forall, sub_unsafe_runs_safe.
Qed.

Example cleaner_none : cleaner None = py "file".
Proof. reflexivity. Qed.

Example cleaner_empty : cleaner (Some []) = py "file".
Proof. reflexivity. Qed.

Example cleaner_title :
  cleaner (Some (py "Sci-Fi & Fantasy!")) = py "Sci-Fi_Fantasy".
Proof. vm_compute. reflexivity. Qed.

End Cleaner.

(** ** Price fields *)
Section Prices.
Import Fixtures.

(** Removing a one-character string keeps every other character, in
    order. *)
Lemma replace_from_single (c : char) (s : str) (fuel : nat) :
  (length s ≤ fuel)%nat →
  replace_from fuel [c] [] s = filter (λ x, x ≠ c) s.
Proof.
  revert s. induction fuel as [|fuel IH]; intros [|x r] Hlen;
    try reflexivity; try (simpl in Hlen; lia).
  rewrite filter_cons. simpl in *. rewrite andb_true_r.
  destruct (N.eqb_spec c x) as [->|Hne].
  - case_decide; [done|]. unfold drop. apply IH. lia.
  - case_decide; [|congruence]. f_equal. apply IH. lia.
Qed.

Lemma replace_single (c : char) (s : str) :
  replace [c] [] s = filter (λ x, x ≠ c) s.
Proof. unfold replace. by apply replace_from_single. Qed.

(** A pattern whose first character does not occur is never found. *)
Lemma replace_from_absent (c : char) (old new s : str) (fuel : nat) :
  c ∉ s → replace_from fuel (c :: old) new s = s.
Proof.
  revert s. induction fuel as [|fuel IH]; intros [|x r] Hc; simpl; try reflexivity.
  apply not_elem_of_cons in Hc as [Hx Hr].
  destruct (N.eqb_spec c x) as [->|_]; [done|]. simpl.
  f_equal. by apply IH.
Qed.

(** all_books_data.py removes every U+00A3 from the value of a price row
    and keeps the rest. *)
Lemma all_books_data_price (f : all_books_data.fields) (r : row) (value : str) :
  all_books_data.key_value r = Some (py "Price (incl. tax)", value) →
  all_books_data.price_incl_tax (all_books_data.scan_row f r)
  = filter (λ x, x ≠ 163) value.
Proof.
  intros Hk. unfold all_books_data.scan_row. rewrite Hk.
  vm_compute (str_eqb _ _). simpl.
  apply replace_single.
Qed.

Example all_books_data_price_attic :
  match fst (all_books_data.scrape_book (py "http://x/attic")
               (start_world [(py "http://x/attic", ok attic)])) with
  | Ret d => item "price_with_tax" d = py "51.77"
  | _ => False
  end.
Proof. vm_compute. reflexivity. Qed.

(** images_book_data.py looks for the two code points U+00AC U+00A3: a
    value without U+00AC comes back whole. *)
Lemma images_book_data_price_kept (val : str) :
  172 ∉ val → replace images_book_data.currency [] val = val.
Proof. intros H. unfold replace; simpl. by apply replace_from_absent. Qed.

(** C3 at the input of the claim: the product page shows the price
    "£51.77"; [scrape_book] of images_book_data.py returns it with the
    currency glyph still in front, not "51.77". *)
Theorem images_book_data_price_not_stripped :
  match fst (images_book_data.scrape_book ascii_extern (py "http://x/attic")
               (start_world [(py "http://x/attic", ok attic)])) with
  | Ret d => item "price_incl_tax_gbp" d = pounds "51.77"
             ∧ item "price_excl_tax_gbp" d = pounds "51.77"
             ∧ pounds "51.77" ≠ py "51.77"
  | _ => False
  end.
Proof. vm_compute. repeat split; discriminate. Qed.

End Prices.

(** ** The availability field *)
Section Availability.
Import Fixtures.
Context (L : extern).

















Lemma books_data_images_other_rows (specs : gmap (list N) (list N))
    (rows : list row) :
  no_availability_row books_data_images.key_value rows →
  foldl books_data_images.scan_row specs rows !! py "Availability"
  = specs !! py "Availability".
Proof.
  intros H. revert specs.
  induction H as [|r rows Hr _ IH]; intros specs; simpl; [done|].
  rewrite IH. unfold books_data_images.scan_row.
  destruct (books_data_images.key_value r) as [[k v]|]; [|done].
  apply lookup_insert_ne. intros ->. by apply Hr.
Qed.

Lemma books_data_images_last_row (specs : gmap (list N) (list N))
    (rows : list row) (v : str) :
  availability_row books_data_images.key_value rows v →
  foldl books_data_images.scan_row specs rows !! py "Availability" = Some v.
Proof.
  intros (before & r & after & -> & Hr & Hafter).
  rewrite foldl_app. simpl. rewrite books_data_images_other_rows by done.
  unfold books_data_images.scan_row. rewrite Hr.
  apply lookup_insert_eq.
Qed.

Lemma terminates_save_image (image_url category upc title : str)
    (referer_url : option str) :
  terminates (images_book_data.save_image L image_url category upc title referer_url).
Proof.
  unfold images_book_data.save_image, images_book_data.fetch_to. step_terminates.
Qed.



(** It returns when the page passes the status check and the source of
    its image can be joined to its address. *)
Lemma images_book_data_scrape_book_returns (w : world) (u : str) (r : response) :
  net w {| url := u; referer := None |} = Reply r → passes r →
  image_joins L u (page r) →
  ∃ d w', images_book_data.scrape_book L u w = (Ret d, w').
Proof.
  intros Hnet Hp Hj. unfold images_book_data.scrape_book.
  rewrite bind_run, http_get_run, Hnet, bind_run, raise_for_status_passes by done.
  cbv zeta. rewrite bind_run.
  destruct (gallery_img (page r)) as [[src|]|] eqn:Hg;
    [destruct (truthy src) eqn:Hsrc|..]; try (eexists _, _; reflexivity).
  destruct (Hj src Hg Hsrc) as [j Hjoin].
  rewrite bind_run, join_run, Hjoin, bind_run.
  match goal with |- context [try_except ?m ?h ?w0] =>
    destruct (try_except_returns m h w0) as (a & w2 & ->) end.
  - apply terminates_save_image.
  - intros e w1. by eexists _, _.
  - eexists _, _. reflexivity.
Qed.



End Availability.


(** ** The category field *)
Section Category.
Import Fixtures.
Context (L : extern).

(** The claim of C5 fails on a breadcrumb of five entries:
    [extract_book_data] of books_data_images.py takes the third one
    ("Fiction"), not the one before the last ("Poetry"). *)
Lemma category_is_not_second_to_last :
  let p := product_page "A Light in the Attic" None deep_trail in
  ∃ d w',
    books_data_images.extract_book_data ascii_extern (py "http://x/attic")
      (start_world [(py "http://x/attic", ok p)]) = (Ret d, w')
    ∧ (4 ≤ length (breadcrumb p))%nat
    ∧ Some (item "category" d)
      ≠ second_to_last (map books_data_images.crumb_text (breadcrumb p)).
Proof.
  eexists _, _. split; [vm_compute; reflexivity|].
  split; [vm_compute; repeat constructor | vm_compute; discriminate].
Qed.

Lemma second_to_last_snoc {A} (xs : list A) (x : A) :
  second_to_last (xs ++ [x]) = last xs.
Proof.
  unfold second_to_last. rewrite length_app. simpl.
  destruct xs as [|y ys _] using rev_ind; [reflexivity|].
  rewrite bool_decide_eq_true_2 by (rewrite length_app; simpl; lia).
  rewrite lookup_app_l by (rewrite length_app; simpl; lia).
  rewrite last_snoc, length_app. simpl.
  rewrite lookup_app_r by lia.
  replace (length ys + 1 + 1 - 2 - length ys)%nat with 0%nat by lia.
  reflexivity.
Qed.

Lemma bc_links_linked (ts : list (list (list N))) (t : list (list N)) (p : soup) :
  breadcrumb p = map CrumbLink ts ++ [CrumbText t] →
  all_books_data.bc_links p = map get_text_strip ts
  ∧ map books_data_images.crumb_text (breadcrumb p)
    = map get_text_strip ts ++ [get_text_strip t].
Proof.
  intros H. unfold all_books_data.bc_links. rewrite H. split.
  - rewrite omap_app. simpl. rewrite app_nil_r.
    clear H. induction ts as [|x ts IH]; [done|]. csimpl. by f_equal.
  - rewrite map_app, map_map. reflexivity.
Qed.

(** C5, amended.  books_data_images.py, on a page that passes the status
    check, has its heading and whose image source can be joined to its
    address: with four entries or more the category is the third entry
    of the breadcrumb, which is the one before the last when there are
    exactly four; with fewer it is "Default".  all_books_data.py, on
    every page that is served: the category is the last linked entry
    when three entries or more are links, "Unknown" otherwise; on a
    trail whose entries are links except the last one, that is the entry
    before the last when the trail has four entries or more. *)
Theorem category_field (w : world) (u : str) (r : response) :
  net w {| url := u; referer := None |} = Reply r →
  let crumbs := map books_data_images.crumb_text (breadcrumb (page r)) in
  let links := all_books_data.bc_links (page r) in
  (passes r → is_Some (main_h1 (page r)) →
   stripped_image_joins L u (page r) →
   ∃ d w', books_data_images.extract_book_data L u w = (Ret d, w')
     ∧ item "category" d
       = (if bool_decide (4 ≤ length crumbs)%nat
          then default [] (crumbs !! 2%nat) else py "Default")
     ∧ (length crumbs = 4%nat → Some (item "category" d) = second_to_last crumbs))
  ∧ (∃ d w', all_books_data.scrape_book u w = (Ret d, w')
       ∧ item "category" d
         = (if bool_decide (3 ≤ length links)%nat
            then default [] (last links) else py "Unknown")
       ∧ (∀ ts t, breadcrumb (page r) = map CrumbLink ts ++ [CrumbText t] →
            if bool_decide (4 ≤ length crumbs)%nat
            then Some (item "category" d) = second_to_last crumbs
            else item "category" d = py "Unknown")).
Proof.
  intros Hnet crumbs links. split.
  - intros Hp [t Ht] Hj.
    assert (Hcat : ∀ d, item "category" d
                        = (if bool_decide (4 ≤ length crumbs)%nat
                           then default [] (crumbs !! 2%nat) else py "Default") →
              length crumbs = 4%nat → Some (item "category" d) = second_to_last crumbs).
    { intros d -> Hlen. unfold second_to_last. rewrite Hlen. simpl.
      destruct (crumbs !! 2%nat) eqn:E; [reflexivity|].
      apply lookup_ge_None in E. lia. }
    unfold books_data_images.extract_book_data.
    rewrite bind_run, (books_data_images_get_soup u w r) by done.
    cbv beta iota. rewrite Ht, bind_ret. cbv beta zeta. rewrite bind_run.
    destruct (gallery_img (page r)) as [[src|]|] eqn:Hg;
      [destruct (truthy (strip src)) eqn:Hsrc|..].
    + destruct (Hj src Hg Hsrc) as [j Hjoin]. rewrite join_run, Hjoin.
      eexists _, _. split; [reflexivity|]. split; [reflexivity|].
      by apply Hcat.
    + eexists _, _. split; [reflexivity|]. split; [reflexivity|]. by apply Hcat.
    + eexists _, _. split; [reflexivity|]. split; [reflexivity|]. by apply Hcat.
    + eexists _, _. split; [reflexivity|]. split; [reflexivity|]. by apply Hcat.
  - unfold all_books_data.scrape_book, bind, http_get. rewrite Hnet.
    unfold ret. eexists _, _. split; [reflexivity|].
    change (item "category" _) with
      (if bool_decide (3 ≤ length links)%nat
       then default [] (last links) else py "Unknown").
    split; [reflexivity|]. intros ts t' Hbc.
    destruct (bc_links_linked ts t' (page r) Hbc) as [Hl Hc].
    subst crumbs links. rewrite Hl, Hc.
    rewrite second_to_last_snoc, length_app, !length_map. simpl.
    destruct (decide (3 ≤ length ts)%nat) as [H3|H3].
    + rewrite !bool_decide_eq_true_2 by lia.
      destruct (last (map get_text_strip ts)) eqn:E; [reflexivity|].
      apply last_None in E. apply (f_equal length) in E.
      rewrite length_map in E. simpl in E. lia.
    + by rewrite !bool_decide_eq_false_2 by lia.
Qed.

End Category.

(** The page of the claim: [Home > Books > Poetry > title] gives
    "Poetry" in both scripts. *)
Lemma category_field_witness :
  (∃ d w', books_data_images.extract_book_data Fixtures.ascii_extern
             (py "http://x/attic")
             (Fixtures.start_world [(py "http://x/attic", Fixtures.ok Fixtures.attic)])
           = (Ret d, w')
     ∧ item "category" d = py "Poetry")
  ∧ (∃ d w', all_books_data.scrape_book (py "http://x/attic")
               (Fixtures.start_world [(py "http://x/attic", Fixtures.ok Fixtures.attic)])
             = (Ret d, w')
       ∧ item "category" d = py "Poetry").
Proof.
  destruct (category_field Fixtures.ascii_extern
              (Fixtures.start_world [(py "http://x/attic", Fixtures.ok Fixtures.attic)])
              (py "http://x/attic")
              {| status := 200; content_type := Some (py "text/html");
                 page := Fixtures.attic; chunks := []; stream_exn := None |}
              eq_refl)
    as [H1 (d2 & w2 & E2 & C2 & _)].
  destruct H1 as (d1 & w1 & E1 & C1 & _).
  - unfold passes. simpl. lia.
  - eexists. vm_compute. reflexivity.
  - intros src Hsrc. discriminate Hsrc.
  - split; [exists d1, w1 | exists d2, w2]; (split; [assumption|]).
    + rewrite C1. vm_compute. reflexivity.
    + rewrite C2. vm_compute. reflexivity.
Defined.

(** ** The exporter *)
Section Exporter.
Import Fixtures Pandas.
Context (L : extern).

Lemma add_keys_mono (cs : list str) (d : dict str) (k : str) :
  k ∈ cs → k ∈ add_keys cs d.
Proof.
  revert cs. induction d as [|[k' v] r IH]; intros cs Hk; simpl; [done|].
  apply IH. case_bool_decide; [done|]. apply elem_of_app. by left.
Qed.

Lemma add_keys_keys (cs : list str) (d : dict str) (k : str) :
  is_Some (dict_get k d) → k ∈ add_keys cs d.
Proof.
  revert cs. induction d as [|[k' v] r IH]; intros cs [x Hx]; simpl in *;
    [discriminate|].
  destruct (str_eqb k' k) eqn:E.
  - apply bool_decide_eq_true in E as ->. apply add_keys_mono.
    case_bool_decide; [done|]. apply elem_of_app. right. by left.
  - apply IH. by exists x.
Qed.

Lemma foldl_add_keys_mono (cs : list str) (rows : list (dict str)) (k : str) :
  k ∈ cs → k ∈ foldl add_keys cs rows.
Proof.
  revert cs. induction rows as [|d rows IH]; intros cs Hk; simpl; [done|].
  by apply IH, add_keys_mono.
Qed.

Lemma foldl_add_keys_keys (cs : list str) (rows : list (dict str))
    (d : dict str) (k : str) :
  d ∈ rows → is_Some (dict_get k d) → k ∈ foldl add_keys cs rows.
Proof.
  revert cs. induction rows as [|d' rows IH]; intros cs Hd Hk; simpl.
  - by apply elem_of_nil in Hd.
  - apply elem_of_cons in Hd as [->|Hd].
    + by apply foldl_add_keys_mono, add_keys_keys.
    + by apply IH.
Qed.

Lemma DataFrame_represents (rows : list (dict str)) :
  represents rows (DataFrame rows).
Proof.
  split; simpl.
  - rewrite map_map. apply map_ext. intros d. unfold csv_line.
    by rewrite map_map.
  - intros d k. apply foldl_add_keys_keys.
Qed.

Lemma add_column_represents (rows : list (dict str)) (df : frame) (c : str) :
  represents rows df → c ∉ columns df →
  represents rows (add_column c [] df).
Proof.
  intros [Hcells Hkeys] Hc. split; simpl.
  - rewrite map_map.
    rewrite (map_ext _ (λ r, map (default []) r ++ [[]]))
      by (intros r; by rewrite map_app).
    rewrite <- (map_map (map (default [])) (λ r, r ++ [[]])), Hcells, map_map.
    apply map_ext_in. intros d Hd. unfold csv_line. rewrite map_app. simpl.
    destruct (dict_get c d) eqn:E; [|done].
    exfalso. apply Hc, (Hkeys d); [by apply list_elem_of_In | by rewrite E].
  - intros d k Hd Hk. apply elem_of_app. left. by apply (Hkeys d).
Qed.

Lemma fill_columns_represents (rows : list (dict str)) (cs : list str)
    (df : frame) :
  represents rows df →
  represents rows (books_data_images.fill_columns cs df)
  ∧ ∀ c, c ∈ cs ∨ c ∈ columns df →
         c ∈ columns (books_data_images.fill_columns cs df).
Proof.
  unfold books_data_images.fill_columns.
  revert df. induction cs as [|c cs IH]; intros df Hdf; simpl.
  - split; [done|]. intros c [Hc|Hc]; [by apply elem_of_nil in Hc | done].
  - unfold lacks at 2 4. case_bool_decide as Hin; simpl.
    + destruct (IH df Hdf) as [H1 H2]. split; [done|].
      intros c' [Hc'|Hc']; [|by apply H2; right].
      apply elem_of_cons in Hc' as [->|Hc']; apply H2; auto.
    + destruct (IH (add_column c [] df)) as [H1 H2];
        [by apply add_column_represents|].
      split; [done|]. intros c' Hc'. apply H2. simpl.
      rewrite elem_of_app, list_elem_of_singleton.
      destruct Hc' as [Hc'|Hc']; [|by auto].
      apply elem_of_cons in Hc' as [->|Hc']; auto.
Qed.

Lemma index_of_elem (c : str) (cs : list str) :
  c ∈ cs → ∃ i, index_of c cs = Some i ∧ cs !! i = Some c.
Proof.
  induction cs as [|c' cs IH]; intros Hc; [by apply elem_of_nil in Hc|].
  simpl. destruct (str_eqb c' c) eqn:E.
  - apply bool_decide_eq_true in E as ->. by exists O.
  - apply elem_of_cons in Hc as [->|Hc].
    + apply bool_decide_eq_false in E. done.
    + destruct (IH Hc) as (i & -> & Hi). by exists (S i).
Qed.

Lemma select_to_csv (rows : list (dict str)) (cs : list str) (df : frame) :
  represents rows df → (∀ c, c ∈ cs → c ∈ columns df) →
  to_csv (select cs df) = cs :: map (csv_line cs) rows.
Proof.
  intros [Hcells _] Hcs. unfold to_csv, select. simpl. f_equal.
  rewrite map_map.
  rewrite (map_ext_in _
    (λ r, map (λ c, default [] (i ← index_of c (columns df);
                                map (default []) r !! i)) cs)).
  - rewrite <- (map_map (map (default []))
                 (λ r', map (λ c, default [] (i ← index_of c (columns df); r' !! i)) cs)).
    rewrite Hcells, map_map. apply map_ext. intros d.
    unfold csv_line at 2. apply map_ext_in. intros c Hc.
    apply list_elem_of_In, Hcs, index_of_elem in Hc as (i & -> & Hi). simpl.
    unfold csv_line. rewrite list_lookup_fmap, Hi. reflexivity.
  - intros r _. rewrite map_map. apply map_ext. intros c.
    destruct (index_of c (columns df)) as [i|]; simpl; [|done].
    rewrite list_lookup_fmap. by destruct (r !! i).
Qed.

(** What [write_csvs] writes for a category is the header [cols] and one
    line per record. *)
Lemma category_frame_to_csv (rows : list (dict str)) :
  to_csv (books_data_images.category_frame rows)
  = books_data_images.cols :: map (csv_line books_data_images.cols) rows.
Proof.
  unfold books_data_images.category_frame.
  destruct (fill_columns_represents rows books_data_images.cols
              (DataFrame rows) (DataFrame_represents rows)) as [H1 H2].
  apply select_to_csv; [done|]. intros c Hc. apply H2. by left.
Qed.

Lemma write_csv_run (path : str) (t : list (list str)) (w : world) :
  write_csv L path t w
  = if refuses L path then (Raise (OSError path), w)
    else (Ret tt, {| net := net w; files := <[path := Table t]> (files w);
                     trace := trace w |}).
Proof. unfold write_csv. by destruct (refuses L path). Qed.

Lemma last_written_cons (x : str * list (dict str))
    (data : dict (list (dict str))) (path : str) :
  last_written (x :: data) path
  = match last_written data path with
    | Some y => Some y
    | None => if decide (books_data_images.out_path (fst x) = path)
              then Some x else None
    end.
Proof.
  unfold last_written. rewrite filter_cons.
  destruct (decide (books_data_images.out_path (fst x) = path)).
  - apply last_cons.
  - by destruct (last _).
Qed.

Lemma last_written_elem (data : dict (list (dict str))) (path : str)
    (x : str * list (dict str)) :
  last_written data path = Some x →
  x ∈ data ∧ books_data_images.out_path (fst x) = path.
Proof.
  unfold last_written. intros H. apply last_Some_elem_of in H.
  by apply list_elem_of_filter in H as [? ?].
Qed.

Lemma last_written_None (data : dict (list (dict str))) (path : str) :
  last_written data path = None → path ∉ out_paths data.
Proof.
  unfold last_written, out_paths. intros H Hin. apply last_None in H.
  apply list_elem_of_In, in_map_iff in Hin as (x & Hx & Hin).
  apply list_elem_of_In in Hin.
  assert (x ∈ filter (λ x, books_data_images.out_path (fst x) = path) data)
    by by apply list_elem_of_filter.
  rewrite H in *. by eapply elem_of_nil.
Qed.

(** When no path is refused, the loop of [write_csvs] returns, and each
    path holds the table of the last category written to it. *)
Lemma write_each_run (data : dict (list (dict str))) (total : nat) (w : world) :
  Forall (λ p, refuses L p = false) (out_paths data) →
  ∃ n w',
    books_data_images.write_each L data total w = (Ret n, w')
    ∧ net w' = net w
    ∧ ∀ path,
        files w' !! path
        = match last_written data path with
          | Some x => Some (Table (to_csv (books_data_images.category_frame (snd x))))
          | None => files w !! path
          end.
Proof.
  revert total w. induction data as [|[cat0 rows0] rest IH]; intros total w Hok.
  - exists total, w. by repeat split.
  - apply Forall_cons in Hok as [Hok0 Hok]. simpl in Hok0.
    simpl. rewrite bind_run, write_csv_run, Hok0, bind_run, print_run.
    match goal with |- context [books_data_images.write_each L rest ?t ?w2] =>
      destruct (IH t w2 Hok) as (n & w' & Hrun & Hnet & Hfiles) end.
    exists n, w'. split; [exact Hrun|]. split; [exact Hnet|].
    intros path. rewrite Hfiles, last_written_cons.
    destruct (last_written rest path); [done|]. simpl.
    destruct (decide (books_data_images.out_path cat0 = path)) as [<-|Hne].
    + apply lookup_insert_eq.
    + by apply lookup_insert_ne.
Qed.

Lemma NoDup_map_eq {A B} (f : A → B) (l : list A) (x y : A) :
  NoDup (map f l) → x ∈ l → y ∈ l → f x = f y → x = y.
Proof.
  induction l as [|a l IH]; intros Hnd Hx Hy Hf; [by apply elem_of_nil in Hx|].
  simpl in Hnd. apply NoDup_cons in Hnd as [Hfresh Hnd].
  assert (Hmap : ∀ z, z ∈ l → f z ∈ map f l).
  { intros z Hz. apply list_elem_of_In, in_map. by apply list_elem_of_In. }
  apply elem_of_cons in Hx as [->|Hx]; apply elem_of_cons in Hy as [->|Hy].
  - done.
  - exfalso. apply Hfresh. rewrite Hf. by apply Hmap.
  - exfalso. apply Hfresh. rewrite <- Hf. by apply Hmap.
  - by apply IH.
Qed.

(** The claim of C9 fails on the names of the columns: the file that
    [write_csvs] writes for a category of one record starts with the
    header of the script, in which the two price columns end in _gbp. *)
Lemma header_is_not_the_claimed_one :
  ∃ w' t,
    books_data_images.write_csvs ascii_extern
      [(py "Poetry", [[(py "title", py "A Light in the Attic");
                       (py "category", py "Poetry")]])]
      (start_world []) = (Ret tt, w')
    ∧ files w' !! books_data_images.out_path (py "Poetry") = Some (Table t)
    ∧ head t ≠ Some claimed_columns.
Proof.
  eexists _, _. split; [vm_compute; reflexivity|].
  split; [vm_compute; reflexivity|]. vm_compute. discriminate.
Qed.

Lemma book_of_soup_keys (u : str) (p : soup) :
  map fst (all_books_data.book_of_soup u p) = all_books_data_keys.
Proof. reflexivity. Qed.

Lemma add_keys_all_books_data (cs : list str) (d : dict str) :
  cs = [] ∨ cs = all_books_data_keys →
  map fst d = all_books_data_keys →
  add_keys cs d = all_books_data_keys.
Proof.
  intros Hcs Hd.
  do 9 (destruct d as [|[? ?] d]; try discriminate Hd).
  injection Hd as -> -> -> -> -> -> -> ->.
  destruct Hcs as [-> | ->]; vm_compute; reflexivity.
Qed.

Lemma all_books_data_columns (rows : list (dict str)) :
  rows ≠ [] →
  Forall (λ d, map fst d = all_books_data_keys) rows →
  columns (DataFrame rows) = all_books_data_keys.
Proof.
  intros Hne H. simpl.
  assert (G : ∀ cs, cs = [] ∨ cs = all_books_data_keys →
                    rows ≠ [] → foldl add_keys cs rows = all_books_data_keys).
  { clear Hne. induction H as [|d rows Hd _ IH]; intros cs Hcs Hne; [done|].
    simpl. rewrite (add_keys_all_books_data cs d Hcs Hd).
    destruct rows as [|d' rows]; [reflexivity|].
    apply IH; [by right | done]. }
  apply G; [by left | done].
Qed.

(** The export of all_books_data.py has no list of columns: the file
    of a category starts with the eight keys of the records of
    [scrape_book], without the two image columns of its siblings. *)
Example all_books_data_export_has_no_image_column :
  ∃ w' t,
    all_books_data.save_categories ascii_extern
      [(py "Poetry", [all_books_data.book_of_soup (py "http://x/attic") attic])]
      0 (start_world [])
    = (Ret 1%nat, w')
    ∧ files w' !! py "books_csv/Poetry.csv" = Some (Table t)
    ∧ head t = Some all_books_data_keys.
Proof.
  eexists _, _. split; [vm_compute; reflexivity|].
  split; vm_compute; reflexivity.
Qed.

(** C9, amended.  When the system refuses none of the paths,
    [write_csvs] of books_data_images.py returns, and the file of every
    category is made of the header title, upc, price_incl_tax_gbp,
    price_excl_tax_gbp, availability, description, category,
    product_page_url, image_url, image_path, in that order, and of one
    line per record of the category written last under that file name,
    each line holding the value of the record in every column and the
    empty string where the record has none; that category is the
    category itself when no two categories share a file name. *)
Theorem exporter_columns (data : dict (list (dict str))) (w : world)
    (cat : str) (rows : list (dict str)) :
  (cat, rows) ∈ data →
  Forall (λ p, refuses L p = false) (out_paths data) →
  ∃ w' cat' rows',
    books_data_images.write_csvs L data w = (Ret tt, w')
    ∧ last_written data (books_data_images.out_path cat) = Some (cat', rows')
    ∧ files w' !! books_data_images.out_path cat
      = Some (Table (books_data_images.cols
                     :: map (csv_line books_data_images.cols) rows'))
    ∧ (NoDup (out_paths data) → (cat', rows') = (cat, rows)).
Proof.
  intros Hin Hok.
  destruct (write_each_run data 0 w Hok) as (n & w' & Hrun & _ & Hfiles).
  destruct (last_written data (books_data_images.out_path cat))
    as [[cat' rows']|] eqn:Hlast.
  - unfold books_data_images.write_csvs. rewrite bind_run, Hrun, print_run.
    eexists _, cat', rows'. split; [reflexivity|]. split; [reflexivity|].
    simpl. split.
    + by rewrite Hfiles, Hlast, category_frame_to_csv.
    + intros Hnd. apply last_written_elem in Hlast as [Hmem Hsame].
      by apply (NoDup_map_eq (λ x, books_data_images.out_path (fst x)) data).
  - apply last_written_None in Hlast. exfalso. apply Hlast.
    unfold out_paths. apply list_elem_of_In, in_map_iff.
    exists (cat, rows). split; [done | by apply list_elem_of_In].
Qed.

End Exporter.

(** A category whose only record has no image_path: the column is
    there, empty. *)
Lemma exporter_columns_witness :
  ∃ w', books_data_images.write_csvs Fixtures.ascii_extern
          [(py "Poetry", [[(py "title", py "A Light in the Attic");
                           (py "category", py "Poetry")]])]
          (Fixtures.start_world []) = (Ret tt, w')
    ∧ files w' !! books_data_images.out_path (py "Poetry")
      = Some (Table [ books_data_images.cols;
                      [py "A Light in the Attic"; []; []; []; []; [];
                       py "Poetry"; []; []; []] ]).
Proof.
  destruct (exporter_columns Fixtures.ascii_extern
              [(py "Poetry", [[(py "title", py "A Light in the Attic");
                               (py "category", py "Poetry")]])]
              (Fixtures.start_world []) (py "Poetry")
              [[(py "title", py "A Light in the Attic");
                (py "category", py "Poetry")]])
    as (w' & cat' & rows' & Hrun & _ & Hfile & Hsame).
  - by left.
  - repeat constructor.
  - exists w'. split; [exact Hrun|]. rewrite Hfile.
    assert (Hnd : NoDup (out_paths [(py "Poetry",
                           [[(py "title", py "A Light in the Attic");
                             (py "category", py "Poetry")]])])).
    { repeat constructor. vm_compute. intros H. by apply elem_of_nil in H. }
    apply Hsame in Hnd. injection Hnd as _ ->.
    vm_compute. reflexivity.
Defined.

(** ** The asset fetchers *)
Section Fetchers.
Import Fixtures Assets.
Context (L : extern).
Local Abbreviation image_type := (Vocabulary.image_type L).
Local Abbreviation final_path := (Vocabulary.final_path L).

Lemma write_chunks_spec (path : str) (cs : list (list N)) :
  ∀ (total : nat) (w : world) (old : list N),
    files w !! path = Some (Bytes old) →
    ∃ w', write_chunks path cs total w
          = (Ret (total + length (concat cs))%nat, w')
      ∧ net w' = net w ∧ trace w' = trace w
      ∧ files w' !! path = Some (Bytes (old ++ concat cs))
      ∧ ∀ q, q ≠ path → files w' !! q = files w !! q.
Proof.
  induction cs as [|chunk cs IH]; intros total w old Hold; simpl.
  - exists w. rewrite Nat.add_0_r, app_nil_r. by repeat split.
  - destruct chunk as [|b chunk]; simpl.
    { by apply IH. }
    unfold bind at 1, write at 1. rewrite Hold.
    match goal with |- context [write_chunks path cs ?t ?w1] =>
      destruct (IH t w1 (old ++ b :: chunk)) as (w' & Hrun & Hn & Ht & Hp & Hq);
        [apply lookup_insert_eq|] end.
    exists w'. simpl in *. rewrite Hrun, Hp. repeat split; try done.
    + do 2 f_equal. rewrite length_app. simpl. lia.
    + by rewrite <- app_assoc.
    + intros q Hne. rewrite Hq by done. by apply lookup_insert_ne.
Qed.

Lemma open_wb_run (path : str) (w : world) :
  open_wb L path w
  = if refuses L path then (Raise (OSError path), w)
    else (Ret tt, {| net := net w; files := <[path := Bytes []]> (files w);
                     trace := trace w |}).
Proof. unfold open_wb. by destruct (refuses L path). Qed.

Lemma os_replace_run (src dst : str) (w : world) :
  os_replace L src dst w
  = if refuses L dst then (Raise (OSError dst), w)
    else match files w !! src with
         | Some c => (Ret tt, {| net := net w;
                                 files := <[dst := c]> (delete src (files w));
                                 trace := trace w |})
         | None => (Ret tt, w)
         end.
Proof. unfold os_replace. by destruct (refuses L dst). Qed.

Lemma write_stream_refused (path : str) (r : response) (w : world) :
  refuses L path = true →
  write_stream L path r w = (Raise (OSError path), w).
Proof.
  intros H. unfold write_stream. by rewrite bind_run, open_wb_run, H.
Qed.

Lemma write_stream_spec (path : str) (r : response) (w : world) :
  refuses L path = false →
  ∃ w', write_stream L path r w
        = (match stream_exn r with
           | Some e => Raise e
           | None => Ret (length (concat (chunks r)))
           end, w')
    ∧ net w' = net w ∧ trace w' = trace w
    ∧ files w' !! path = Some (Bytes (concat (chunks r)))
    ∧ ∀ q, q ≠ path → files w' !! q = files w !! q.
Proof.
  intros Hok. unfold write_stream. rewrite bind_run, open_wb_run, Hok, bind_run.
  match goal with |- context [write_chunks path _ _ ?w1] =>
    destruct (write_chunks_spec path (chunks r) 0 w1 [])
      as (w' & Hrun & Hn & Ht & Hp & Hq); [apply lookup_insert_eq|] end.
  exists w'. rewrite Hrun. simpl in *. repeat split; try done.
  - by destruct (stream_exn r).
  - intros q Hne. rewrite Hq by done. by apply lookup_insert_ne.
Qed.

Lemma present_nonempty_run (dest : str) (w : world) :
  books_data_images.present_nonempty dest w = (Ret (cached_at w dest), w).
Proof.
  unfold books_data_images.present_nonempty, cached_at, bind, exists_, getsize, ret.
  destruct (files w !! dest) as [c|] eqn:E; simpl; rewrite ?E; reflexivity.
Qed.

Lemma part_is_another_path (dest : str) : dest ≠ dest ++ py ".part".
Proof.
  intros H. apply (f_equal length) in H. rewrite length_app in H.
  vm_compute (length (py ".part")) in H. lia.
Qed.

(** [download_image] of books_data_images.py makes the folder before
    anything else, outside its [try]. *)
Lemma download_image_refused (w : world)
    (image_url category upc title referer_url : str) :
  truthy image_url = true →
  refuses L (books_data_images.folder_of category) = true →
  books_data_images.download_image L image_url category upc title referer_url w
  = (Raise (OSError (books_data_images.folder_of category)), w).
Proof.
  intros Hurl Hno. unfold books_data_images.download_image.
  rewrite Hurl. change (negb true) with false. cbv beta iota.
  by rewrite bind_run, makedirs_run, Hno.
Qed.

(** What one call of [download_image] of books_data_images.py does once
    the folder is made, case by case. *)
Lemma download_image_cases (w : world)
    (image_url category upc title referer_url : str) :
  let dest := books_data_images.dest_of category upc title in
  let tmp := dest ++ py ".part" in
  let rq := {| url := image_url; referer := Some referer_url |} in
  truthy image_url = true →
  refuses L (books_data_images.folder_of category) = false →
  ∃ o w',
    books_data_images.download_image L image_url category upc title referer_url w
    = (Ret o, w')
    ∧ if cached_at w dest then o = dest ∧ w' = w
      else
        trace w' = trace w ++ [Get rq] ∧ net w' = net w
        ∧ (∀ q, q ≠ tmp → q ≠ dest → files w' !! q = files w !! q)
        ∧ match net w rq with
          | Reply r =>
              if bool_decide (passes r) && negb (refuses L tmp) then
                match stream_exn r with
                | None =>
                    if refuses L dest
                    then o = [] ∧ files w' !! dest = files w !! dest
                    else o = dest
                         ∧ files w' !! dest = Some (Bytes (concat (chunks r)))
                | Some _ => o = [] ∧ files w' !! dest = files w !! dest
                end
              else o = [] ∧ files w' = files w
          | NetFail _ => o = [] ∧ files w' = files w
          end.
Proof.
  intros dest tmp rq Hurl Hfolder. unfold books_data_images.download_image.
  rewrite Hurl. change (negb true) with false. cbv beta iota zeta. fold dest tmp.
  rewrite bind_run, makedirs_run, Hfolder, bind_run, present_nonempty_run.
  destruct (cached_at w dest); [by eexists _, _|].
  cbv beta iota. rewrite try_except_run, bind_run, http_get_run. fold rq.
  destruct (net w rq) as [e|r] eqn:Hnet.
  - eexists _, _. split; [reflexivity|]. by repeat split.
  - case_bool_decide as Hp.
    + rewrite bind_run, raise_for_status_passes by done.
      rewrite bind_run. destruct (refuses L tmp) eqn:Htmp.
      { rewrite write_stream_refused by done.
        eexists _, _. split; [reflexivity|]. by repeat split. }
      match goal with |- context [write_stream L tmp r ?w1] =>
        destruct (write_stream_spec tmp r w1 Htmp) as (w2 & Hrun & Hn & Ht & Hp2 & Hq)
      end.
      rewrite Hrun. simpl in Hn, Ht, Hq. simpl andb. cbv iota.
      destruct (stream_exn r) as [e|].
      * exists [], w2. split; [reflexivity|]. repeat split; try done.
        -- intros q Hq1 _. by apply Hq.
        -- apply Hq, part_is_another_path.
      * rewrite bind_run, os_replace_run. destruct (refuses L dest) eqn:Hdest.
        -- exists [], w2. split; [reflexivity|]. repeat split; try done.
           ++ intros q Hq1 _. by apply Hq.
           ++ apply Hq, part_is_another_path.
        -- rewrite Hp2.
           eexists _, _. split; [reflexivity|]. simpl. repeat split; try done.
           ++ intros q Hq1 Hq2. rewrite lookup_insert_ne, lookup_delete_ne by done.
              by apply Hq.
           ++ apply lookup_insert_eq.
    + rewrite bind_run, raise_for_status_fails by done.
      eexists _, _. split; [reflexivity|]. by repeat split.
Qed.

Lemma exists_run (path : str) (w : world) :
  exists_ path w = (Ret (bool_decide (is_Some (files w !! path))), w).
Proof. reflexivity. Qed.

Lemma try_except_HTTPError_run {A} (m h : M A) (w : world) :
  try_except_HTTPError m h w = match m w with
                               | (Raise (HTTPError _), w') => h w'
                               | r => r
                               end.
Proof. reflexivity. Qed.

(** [fetch_to] on a path the system accepts, case by case. *)
Lemma fetch_to_run (rq : request) (dest : str) (w : world) :
  refuses L dest = false →
  ∃ w', trace w' = trace w ++ [Get rq] ∧ net w' = net w
    ∧ match net w rq with
      | NetFail e => images_book_data.fetch_to L rq dest w = (Raise e, w')
                     ∧ files w' = files w
      | Reply r =>
          if bool_decide (passes r) then
            images_book_data.fetch_to L rq dest w
            = (match stream_exn r with Some e => Raise e | None => Ret tt end, w')
            ∧ files w' !! dest = Some (Bytes (concat (chunks r)))
          else
            images_book_data.fetch_to L rq dest w = (Raise (HTTPError (status r)), w')
            ∧ files w' = files w
      end.
Proof.
  intros Hok. unfold images_book_data.fetch_to.
  destruct (net w rq) as [e|r] eqn:Hnet.
  - exists {| net := net w; files := files w; trace := trace w ++ [Get rq] |}.
    rewrite bind_run, http_get_run, Hnet. by repeat split.
  - case_bool_decide as Hp.
    + destruct (write_stream_spec dest r
                  {| net := net w; files := files w; trace := trace w ++ [Get rq] |} Hok)
        as (w' & Hrun & Hn & Ht & Hf & _).
      exists w'. cbn [net trace] in *.
      split; [done|]. split; [done|]. split; [|done].
      rewrite bind_run, http_get_run, Hnet, bind_run, raise_for_status_passes by done.
      rewrite bind_run, Hrun. by destruct (stream_exn r).
    + exists {| net := net w; files := files w; trace := trace w ++ [Get rq] |}.
      rewrite bind_run, http_get_run, Hnet, bind_run, raise_for_status_fails by done.
      by repeat split.
Qed.

(** [save_image] of images_book_data.py up to its first request. *)
Lemma images_book_data_save_image_start (w : world)
    (image_url category upc title : str) (referer_url : option str) :
  let dest := images_book_data.dest_path_of L image_url category upc title in
  truthy image_url = true →
  refuses L (images_book_data.folder_of category) = false →
  images_book_data.save_image L image_url category upc title referer_url w
  = if bool_decide (is_Some (files w !! dest)) then (Ret dest, w)
    else
      try_except_HTTPError
        (images_book_data.fetch_to L {| url := image_url; referer := None |} dest;;
         ret dest)
        (images_book_data.fetch_to L
           {| url := image_url;
              referer := if truthy_opt referer_url then referer_url else None |}
           dest;;
         ret dest) w.
Proof.
  intros dest Hurl Hfolder. unfold images_book_data.save_image.
  rewrite Hurl. change (negb true) with false. cbv beta iota zeta. fold dest.
  rewrite bind_run, makedirs_run, Hfolder, bind_run, exists_run.
  by destruct (bool_decide (is_Some (files w !! dest))).
Qed.

(** [save_image] of images_book_data.py when the first GET succeeds and
    the body arrives whole. *)
Lemma save_image_fetches_once (w : world) (image_url category upc title : str)
    (referer_url : option str) (r : response) :
  let dest := images_book_data.dest_path_of L image_url category upc title in
  let rq := {| url := image_url; referer := None |} in
  truthy image_url = true →
  refuses L (images_book_data.folder_of category) = false →
  refuses L dest = false →
  files w !! dest = None →
  net w rq = Reply r → passes r → stream_exn r = None →
  ∃ w1, images_book_data.save_image L image_url category upc title referer_url w
        = (Ret dest, w1)
    ∧ trace w1 = trace w ++ [Get rq]
    ∧ files w1 !! dest = Some (Bytes (concat (chunks r))).
Proof.
  intros dest rq Hurl Hfolder Hdest Hnone Hnet Hp Hs. subst rq.
  rewrite images_book_data_save_image_start by done. fold dest.
  rewrite Hnone, bool_decide_eq_false_2 by (intros [? ?]; discriminate).
  rewrite try_except_HTTPError_run, bind_run.
  destruct (fetch_to_run {| url := image_url; referer := None |} dest w Hdest)
    as (w1 & Ht & _ & Hrun).
  rewrite Hnet, bool_decide_eq_true_2, Hs in Hrun by done.
  destruct Hrun as [-> Hfile]. by exists w1.
Qed.

(** The claim of C6 fails inside its own reading, a fetch that
    succeeds.  An image served with an empty body: [download_image] of
    books_data_images.py returns the destination, where it leaves an
    empty file, and the second call does not take that file for the
    image and fetches again.  A title of 300 letters on a system that
    refuses names of more than 255: the image is served whole, the
    temporary file cannot be opened, nothing is stored, and the second
    call fetches again. *)
Lemma two_calls_two_fetches :
  let empty_image :=
    Reply {| status := 200; content_type := Some (py "image/jpeg");
             page := empty_soup; chunks := []; stream_exn := None |} in
  let call := books_data_images.download_image ascii_extern (py "http://x/a.jpg")
                (py "Poetry") (py "a897fe39b1053632") (py "A Light in the Attic")
                (py "http://x/attic") in
  let w0 := start_world [(py "http://x/a.jpg", empty_image)] in
  let long_call := books_data_images.download_image strict_extern (py "http://x/a.jpg")
                     (py "Poetry") [] (repeat 97 300) (py "http://x/attic") in
  let w1 := start_world [(py "http://x/a.jpg", image false)] in
  (fst (call w0)
   = Ret (books_data_images.dest_of (py "Poetry") (py "a897fe39b1053632")
            (py "A Light in the Attic"))
   ∧ requested (snd (call (snd (call w0))))
     = [py "http://x/a.jpg"; py "http://x/a.jpg"])
  ∧ (fst (long_call w1) = Ret []
     ∧ files (snd (long_call w1)) = ∅
     ∧ requested (snd (long_call (snd (long_call w1))))
       = [py "http://x/a.jpg"; py "http://x/a.jpg"]).
Proof. vm_compute. repeat split. Qed.

(** C6, amended.  For a non-empty image URL, on a system that accepts
    the folder, the temporary path and the destination:
    [download_image] of books_data_images.py, finding a non-empty file
    at the destination, returns the destination and does nothing else;
    so does [save_image] of images_book_data.py for any file there.
    Two calls with the same arguments make exactly one request when the
    first one starts without such a file and its request succeeds with
    a whole body (a non-empty one for books_data_images.py): the second
    call changes nothing. *)
Theorem asset_fetch_idempotent (w : world)
    (image_url category upc title referer_url : str) :
  truthy image_url = true →
  let dest := books_data_images.dest_of category upc title in
  let rq := {| url := image_url; referer := Some referer_url |} in
  let call := books_data_images.download_image L
                image_url category upc title referer_url in
  let dest' := images_book_data.dest_path_of L image_url category upc title in
  let rq' := {| url := image_url; referer := None |} in
  let call' := images_book_data.save_image L
                 image_url category upc title (Some referer_url) in
  (refuses L (books_data_images.folder_of category) = false →
   (cached_at w dest = true → call w = (Ret dest, w))
   ∧ (∀ r, cached_at w dest = false →
        refuses L (dest ++ py ".part") = false → refuses L dest = false →
        net w rq = Reply r → passes r → stream_exn r = None →
        concat (chunks r) ≠ [] →
        ∃ w1, call w = (Ret dest, w1)
          ∧ trace w1 = trace w ++ [Get rq]
          ∧ call w1 = (Ret dest, w1)))
  ∧ (refuses L (images_book_data.folder_of category) = false →
     (is_Some (files w !! dest') → call' w = (Ret dest', w))
     ∧ (∀ r, files w !! dest' = None → refuses L dest' = false →
          net w rq' = Reply r → passes r → stream_exn r = None →
          ∃ w1, call' w = (Ret dest', w1)
            ∧ trace w1 = trace w ++ [Get rq']
            ∧ call' w1 = (Ret dest', w1))).
Proof.
  intros Hurl dest rq call dest' rq' call'. split.
  - intros Hfolder.
    assert (Hhit : ∀ w0, cached_at w0 dest = true → call w0 = (Ret dest, w0)).
    { intros w0 Hc.
      destruct (download_image_cases w0 image_url category upc title referer_url
                  Hurl Hfolder) as (o & w' & Hrun & Hcases).
      fold dest in Hcases. rewrite Hc in Hcases. destruct Hcases as [-> ->].
      exact Hrun. }
    split; [apply Hhit|].
    intros r Hc Htmp Hdest Hnet Hp Hs Hbody.
    destruct (download_image_cases w image_url category upc title referer_url
                Hurl Hfolder) as (o & w1 & Hrun & Hcases).
    fold dest rq in Hcases. rewrite Hc, Hnet in Hcases.
    rewrite bool_decide_eq_true_2, Htmp, Hs, Hdest in Hcases by done.
    destruct Hcases as (Ht & _ & _ & -> & Hfile).
    exists w1. split; [exact Hrun|]. split; [exact Ht|].
    apply Hhit. unfold cached_at. rewrite Hfile. apply bool_decide_eq_true. simpl.
    destruct (concat (chunks r)); [done | simpl; lia].
  - intros Hfolder.
    assert (Hhit' : ∀ w0, is_Some (files w0 !! dest') → call' w0 = (Ret dest', w0)).
    { intros w0 Hc. subst call'.
      rewrite images_book_data_save_image_start by done. fold dest'.
      by rewrite bool_decide_eq_true_2. }
    split; [apply Hhit'|].
    intros r Hnone Hdest Hnet Hp Hs.
    destruct (save_image_fetches_once w image_url category upc title
                (Some referer_url) r Hurl Hfolder Hdest Hnone Hnet Hp Hs)
      as (w1 & Hrun & Ht & Hfile).
    exists w1. split; [exact Hrun|]. split; [exact Ht|].
    apply Hhit'. fold dest' in Hfile. by rewrite Hfile.
Qed.

Lemma getsize_run (path : str) (w : world) :
  getsize path w = (Ret (from_option size_of 0%nat (files w !! path)), w).
Proof. reflexivity. Qed.

Lemma cached_at_alt (w : world) (d : str) :
  bool_decide (is_Some (files w !! d))
  && bool_decide (0 < from_option size_of 0 (files w !! d))%nat
  = cached_at w d.
Proof. unfold cached_at. by destruct (files w !! d). Qed.

Lemma store_response_cases (r : response) (folder base_name ext : str)
    (record : test2_image.log_record) (w : world) :
  let final := path_join folder
                 (base_name ++ test2_image.guess_ext_from_ct L
                                 (default [] (content_type r)) ext) in
  let tmp := final ++ py ".part" in
  ∃ o w', test2_image.store_response L r folder base_name ext record w = (o, w')
    ∧ net w' = net w
    ∧ (∀ q, q ≠ final → q ≠ tmp → files w' !! q = files w !! q)
    ∧ if arrives_whole r && image_type r
         && negb (refuses L tmp) && negb (refuses L final) then
        (∃ record', o = Ret record' ∧ test2_image.image_path record' = final)
        ∧ files w' !! final = Some (Bytes (concat (chunks r)))
      else
        (∃ e, o = Raise e) ∧ files w' !! final = files w !! final.
Proof.
  intros final tmp. unfold test2_image.store_response, arrives_whole.
  rewrite bind_run. destruct (passes_dec r) as [Hp|Hp].
  - rewrite raise_for_status_passes, bool_decide_eq_true_2 by done.
    fold (image_type r). destruct (image_type r);
      [change (negb true) with false | change (negb false) with true];
      cbv beta iota zeta.
    + fold final tmp. rewrite bind_run. destruct (refuses L tmp) eqn:Htmp.
      { rewrite write_stream_refused by done. rewrite andb_false_r.
        eexists _, _. split; [reflexivity|]. split; [done|]. split; [done|].
        split; [by eexists | done]. }
      destruct (write_stream_spec tmp r w Htmp)
        as (w2 & Hrun & Hn & Ht & Hp2 & Hq).
      rewrite Hrun. destruct (stream_exn r) as [e|]; simpl andb; cbv iota.
      * eexists _, w2. split; [reflexivity|]. split; [done|].
        split; [by intros q _ Hq2; apply Hq|]. split; [by eexists|].
        apply Hq, part_is_another_path.
      * rewrite bind_run, os_replace_run. destruct (refuses L final) eqn:Hfinal.
        -- eexists _, w2. split; [reflexivity|]. split; [done|].
           split; [by intros q _ Hq2; apply Hq|]. split; [by eexists|].
           apply Hq, part_is_another_path.
        -- rewrite Hp2. cbv beta iota.
           rewrite bind_run, print_run. eexists _, _. split; [reflexivity|]. simpl.
           split; [done|]. split.
           ++ intros q Hq1 Hq2. rewrite lookup_insert_ne, lookup_delete_ne by done.
              by apply Hq.
           ++ split; [by eexists | apply lookup_insert_eq].
    + rewrite andb_false_r. eexists _, _. split; [reflexivity|].
      split; [done|]. split; [done|]. split; [by eexists | done].
  - rewrite raise_for_status_fails, bool_decide_eq_false_2 by done. simpl.
    eexists _, _. split; [reflexivity|]. split; [done|]. split; [done|].
    split; [by eexists | done].
Qed.

(** [save_image] of test2_image.py makes the folder before its [try]:
    a folder that is refused ends the call before anything is logged. *)
Lemma test2_image_save_image_refused (w : world)
    (image_url category upc title referer_url : str)
    (images_log : list test2_image.log_record) :
  truthy image_url = true →
  refuses L (test2_image.folder_of category) = true →
  test2_image.save_image L image_url category upc title referer_url images_log w
  = (Raise (OSError (test2_image.folder_of category)), w).
Proof.
  intros Hurl Hno. unfold test2_image.save_image.
  rewrite Hurl. change (negb true) with false. cbv beta iota zeta.
  by rewrite bind_run, makedirs_run, Hno.
Qed.

(** What one call of [save_image] of test2_image.py does when it has to
    fetch. *)
Lemma save_image_cases (w : world)
    (image_url category upc title referer_url : str)
    (images_log : list test2_image.log_record) :
  let dest0 := path_join (test2_image.folder_of category)
                 (test2_image.base_name_of upc title ++ test2_image.ext_of L image_url) in
  let rq := {| url := image_url;
               referer := if truthy referer_url then Some referer_url else None |} in
  truthy image_url = true →
  refuses L (test2_image.folder_of category) = false →
  cached_at w dest0 = false →
  ∃ o record w',
    test2_image.save_image L image_url category upc title referer_url images_log w
    = (Ret (o, images_log ++ [record]), w')
    ∧ match net w rq with
      | NetFail _ => o = [] ∧ files w' = files w
      | Reply r =>
          let final := final_path image_url category upc title r in
          (∀ q, q ≠ final → q ≠ final ++ py ".part" → files w' !! q = files w !! q)
          ∧ if arrives_whole r && image_type r
               && negb (refuses L (final ++ py ".part")) && negb (refuses L final)
            then o = final ∧ files w' !! final = Some (Bytes (concat (chunks r)))
            else o = [] ∧ files w' !! final = files w !! final
      end.
Proof.
  intros dest0 rq Hurl Hfolder Hc. unfold test2_image.save_image.
  rewrite Hurl. change (negb true) with false. cbv beta iota zeta. fold dest0.
  rewrite bind_run, makedirs_run, Hfolder.
  rewrite bind_run, exists_run, bind_run, getsize_run, cached_at_alt, Hc.
  cbv beta iota. fold rq.
  rewrite bind_run, try_except_run, bind_run, http_get_run.
  destruct (net w rq) as [e|r] eqn:Hnet.
  - eexists _, _, _. split; [reflexivity|]. by split.
  - cbv beta iota. unfold ret at 1. cbv beta iota. rewrite bind_run, try_except_run.
    match goal with |- context [test2_image.store_response L r ?f ?b ?e ?rec ?w1] =>
      destruct (store_response_cases r f b e rec w1)
        as (o & w' & Hrun & Hn & Hq & Hcases)
    end.
    rewrite Hrun. unfold final_path.
    match type of Hcases with (if ?c then _ else _) => destruct c end.
    + destruct Hcases as ((record' & -> & Hpath) & Hfile).
      eexists _, _, _. split; [reflexivity|]. simpl. by rewrite Hpath.
    + destruct Hcases as ((e & ->) & Hfile).
      eexists _, _, _. split; [reflexivity|]. simpl. by split.
Qed.

(** The claim of C7 fails on what a failure leaves behind: when the
    connection drops after the first chunk, [save_image] of test2_image.py
    and [download_image] of books_data_images.py return the empty path
    and leave what arrived in the ".part" file. *)
Lemma partial_file_is_left_behind :
  let w0 := start_world [(py "http://x/a.jpg", image true)] in
  let part := py "books_images/Poetry/a897fe39b1053632.jpg.part" in
  (∃ record w',
     test2_image.save_image ascii_extern (py "http://x/a.jpg") (py "Poetry")
       (py "a897fe39b1053632") (py "A Light in the Attic") (py "http://x/attic")
       [] w0
     = (Ret ([], [record]), w')
     ∧ files w' !! part = Some (Bytes [255; 216; 255]))
  ∧ (∃ w',
       books_data_images.download_image ascii_extern (py "http://x/a.jpg")
         (py "Poetry") (py "a897fe39b1053632") (py "A Light in the Attic")
         (py "http://x/attic") w0
       = (Ret [], w')
       ∧ files w' !! part = Some (Bytes [255; 216; 255])).
Proof.
  split.
  - eexists _, _. split; vm_compute; reflexivity.
  - eexists. split; vm_compute; reflexivity.
Qed.

(** [download_image] of books_data_images.py does not look at the
    Content-Type: it stores the HTML body it got and returns the path
    of the file. *)
Example non_image_body_is_stored :
  let dest := books_data_images.dest_of (py "Poetry") (py "a897fe39b1053632")
                (py "A Light in the Attic") in
  ∃ w', books_data_images.download_image ascii_extern (py "http://x/a.jpg")
          (py "Poetry") (py "a897fe39b1053632") (py "A Light in the Attic")
          (py "http://x/attic")
          (start_world [(py "http://x/a.jpg", html_for_image)])
        = (Ret dest, w')
    ∧ dest ≠ []
    ∧ files w' !! dest = Some (Bytes (py "<html>")).
Proof.
  eexists. split; [vm_compute; reflexivity|].
  split; [vm_compute; discriminate | vm_compute; reflexivity].
Qed.

(** [save_image] of images_book_data.py has no temporary file: when the
    connection drops, what arrived stays at the destination, and the
    next call takes it for the image. *)
Example save_image_leaves_partial_file :
  let dest := images_book_data.dest_path_of ascii_extern (py "http://x/a.jpg")
                (py "Poetry") (py "a897fe39b1053632") (py "A Light in the Attic") in
  let call := images_book_data.save_image ascii_extern (py "http://x/a.jpg")
                (py "Poetry") (py "a897fe39b1053632") (py "A Light in the Attic")
                (Some (py "http://x/attic")) in
  let w0 := start_world [(py "http://x/a.jpg", image true)] in
  fst (call w0) = Raise ConnectionError
  ∧ files (snd (call w0)) !! dest = Some (Bytes [255; 216; 255])
  ∧ fst (call (snd (call w0))) = Ret dest.
Proof. vm_compute. repeat split. Qed.

(** C7, amended.  For a non-empty image URL and a folder the system
    accepts, when they have to fetch: [download_image] of
    books_data_images.py and [save_image] of test2_image.py write the
    body to the destination with ".part" appended and rename that file
    once the body is whole, so that the destination is either as before
    or holds the whole body, and every file but these two is as before.
    If the request fails, the status is an error, the connection drops
    after any number of chunks (for test2_image.py also if the
    Content-Type is not an image) or the system refuses the ".part"
    path or the destination, they return the empty path and the
    destination is as before; what arrived may stay in the ".part"
    file.  If the body arrives whole with the Content-Type of an image
    and the two paths are accepted, they return the destination, which
    holds the whole body.  [save_image] of images_book_data.py, when
    the request fails or the status is an error at each attempt, writes
    nothing and raises the exception instead of returning the empty
    path. *)
Theorem asset_fetch_atomic (w : world)
    (image_url category upc title referer_url : str)
    (images_log : list test2_image.log_record) :
  truthy image_url = true →
  let dest := books_data_images.dest_of category upc title in
  let rq := {| url := image_url; referer := Some referer_url |} in
  let dest0 := path_join (test2_image.folder_of category)
                 (test2_image.base_name_of upc title ++ test2_image.ext_of L image_url) in
  let rq0 := {| url := image_url;
                referer := if truthy referer_url then Some referer_url else None |} in
  let dest1 := images_book_data.dest_path_of L image_url category upc title in
  let rq1 := {| url := image_url; referer := None |} in
  (refuses L (books_data_images.folder_of category) = false →
   cached_at w dest = false →
   ∃ o w',
     books_data_images.download_image L image_url category upc title referer_url w
     = (Ret o, w')
     ∧ (∀ q, q ≠ dest ++ py ".part" → q ≠ dest → files w' !! q = files w !! q)
     ∧ match net w rq with
       | Reply r =>
           (o = [] ∧ files w' !! dest = files w !! dest
            ∨ o = dest ∧ arrives_whole r = true
              ∧ files w' !! dest = Some (Bytes (concat (chunks r))))
           ∧ (arrives_whole r = false ∨ refuses L (dest ++ py ".part") = true
              ∨ refuses L dest = true → o = [])
           ∧ (arrives_whole r = true → image_type r = true →
              refuses L (dest ++ py ".part") = false → refuses L dest = false →
              o = dest)
       | NetFail _ => o = [] ∧ files w' !! dest = files w !! dest
       end)
  ∧ (refuses L (test2_image.folder_of category) = false →
     cached_at w dest0 = false →
     ∃ o record w',
       test2_image.save_image L image_url category upc title referer_url images_log w
       = (Ret (o, images_log ++ [record]), w')
       ∧ match net w rq0 with
         | NetFail _ => o = [] ∧ files w' = files w
         | Reply r =>
             let final := final_path image_url category upc title r in
             (∀ q, q ≠ final → q ≠ final ++ py ".part" →
                   files w' !! q = files w !! q)
             ∧ if arrives_whole r && image_type r
                  && negb (refuses L (final ++ py ".part"))
                  && negb (refuses L final)
               then o = final
                    ∧ files w' !! final = Some (Bytes (concat (chunks r)))
               else o = [] ∧ files w' !! final = files w !! final
         end)
  ∧ (refuses L (images_book_data.folder_of category) = false →
     refuses L dest1 = false →
     files w !! dest1 = None →
     ∃ o w',
       images_book_data.save_image L image_url category upc title
         (Some referer_url) w = (o, w')
       ∧ match net w rq1 with
         | NetFail e => (∀ s, e ≠ HTTPError s) → o = Raise e ∧ files w' = files w
         | Reply r =>
             if bool_decide (passes r) then
               stream_exn r = None →
               o = Ret dest1
               ∧ files w' !! dest1 = Some (Bytes (concat (chunks r)))
             else
               match net w rq0 with
               | NetFail e => o = Raise e ∧ files w' = files w
               | Reply r' =>
                   ¬ passes r' →
                   o = Raise (HTTPError (status r')) ∧ files w' = files w
               end
         end).
Proof.
  intros Hurl dest rq dest0 rq0 dest1 rq1. split; [|split].
  - intros Hfolder Hc.
    destruct (download_image_cases w image_url category upc title referer_url
                Hurl Hfolder) as (o & w' & Hrun & Hcases).
    fold dest rq in Hcases. rewrite Hc in Hcases.
    destruct Hcases as (_ & _ & Hq & Hcases).
    exists o, w'. split; [exact Hrun|]. split; [exact Hq|].
    unfold arrives_whole. destruct (net w rq) as [e|r].
    + destruct Hcases as [-> ->]. done.
    + change (books_data_images.dest_of category upc title) with dest in Hcases.
      destruct (bool_decide (passes r)); cbn [andb] in *.
      * destruct (refuses L (dest ++ py ".part")) eqn:Htmp; cbn [negb] in Hcases.
        { destruct Hcases as [-> ->]. split; [by left|]. split; [done|].
          by intros _ _ ?. }
        destruct (stream_exn r).
        { destruct Hcases as [-> ?]. split; [by left|]. split; [done|].
          by intros ?. }
        destruct (refuses L dest) eqn:Hdest.
        { destruct Hcases as [-> ?]. split; [by left|]. split; [done|].
          by intros _ _ _ ?. }
        destruct Hcases as [-> ?]. split; [by right|]. split; [|done].
        intros [?|[?|?]]; discriminate.
      * destruct Hcases as [-> ->]. split; [by left|]. split; [done|].
        by intros ?.
  - intros Hfolder Hc. by apply save_image_cases.
  - intros Hfolder Hdest Hnone.
    rewrite images_book_data_save_image_start by done. fold dest1.
    rewrite Hnone, bool_decide_eq_false_2 by (intros [? ?]; discriminate).
    rewrite try_except_HTTPError_run, bind_run.
    destruct (fetch_to_run rq1 dest1 w Hdest) as (w1 & Ht1 & Hn1 & H1).
    fold rq1. destruct (net w rq1) as [e|r] eqn:Hnet1; rewrite ?Hnet1 in H1.
    + destruct H1 as [-> Hf].
      destruct e as [| |s| | | |];
        try (eexists _, _; split; [reflexivity|]; by intros _).
      eexists (fst _), (snd _). split; [apply surjective_pairing|].
      intros He. by destruct (He s).
    + case_bool_decide as Hp.
      * destruct H1 as [-> Hf]. destruct (stream_exn r) as [e|].
        -- eexists (fst _), (snd _). split; [apply surjective_pairing | done].
        -- eexists _, _. split; [reflexivity|]. by intros _.
      * destruct H1 as [-> Hf]. rewrite bind_run.
        assert (Hrq : {| url := image_url;
                         referer := if truthy_opt (Some referer_url)
                                    then Some referer_url else None |} = rq0)
          by reflexivity.
        rewrite Hrq.
        destruct (fetch_to_run rq0 dest1 w1 Hdest) as (w2 & Ht2 & Hn2 & H2).
        rewrite Hn1 in H2. destruct (net w rq0) as [e|r'] eqn:Hnet0;
          rewrite ?Hnet0 in H2.
        -- destruct H2 as [-> Hf2]. eexists _, _. split; [reflexivity|].
           split; [done | congruence].
        -- destruct (passes_dec r') as [Hp'|Hp'].
           { eexists (fst _), (snd _). split; [apply surjective_pairing | done]. }
           rewrite bool_decide_eq_false_2 in H2 by done.
           destruct H2 as [-> Hf2]. eexists _, _. split; [reflexivity|].
           intros _. split; [done | congruence].
Qed.

End Fetchers.

(** An image fetched once: the second call finds it. *)
Lemma asset_fetch_idempotent_witness :
  let call := books_data_images.download_image Fixtures.ascii_extern
                (py "http://x/a.jpg") (py "Poetry")
                (py "a897fe39b1053632") (py "A Light in the Attic")
                (py "http://x/attic") in
  let dest := books_data_images.dest_of (py "Poetry") (py "a897fe39b1053632")
                (py "A Light in the Attic") in
  let w0 := Fixtures.start_world [(py "http://x/a.jpg", Fixtures.image false)] in
  ∃ w1, call w0 = (Ret dest, w1)
    ∧ trace w1 = [Get {| url := py "http://x/a.jpg";
                         referer := Some (py "http://x/attic") |}]
    ∧ call w1 = (Ret dest, w1).
Proof.
  refine (proj2 (proj1 (asset_fetch_idempotent Fixtures.ascii_extern
            (Fixtures.start_world [(py "http://x/a.jpg", Fixtures.image false)])
            (py "http://x/a.jpg") (py "Poetry") (py "a897fe39b1053632")
            (py "A Light in the Attic") (py "http://x/attic") _) _)
          {| status := 200; content_type := Some (py "image/jpeg");
             page := empty_soup; chunks := [[255; 216; 255]; [217]];
             stream_exn := None |} _ _ _ _ _ _ _).
  - reflexivity.
  - reflexivity.
  - vm_compute. reflexivity.
  - reflexivity.
  - reflexivity.
  - vm_compute. reflexivity.
  - left. vm_compute. reflexivity.
  - reflexivity.
  - vm_compute. discriminate.
Defined.

(** A connection that drops: the empty path, and nothing at the
    destination. *)
Lemma asset_fetch_atomic_witness :
  let dest := books_data_images.dest_of (py "Poetry") (py "a897fe39b1053632")
                (py "A Light in the Attic") in
  ∃ w', books_data_images.download_image Fixtures.ascii_extern
          (py "http://x/a.jpg") (py "Poetry")
          (py "a897fe39b1053632") (py "A Light in the Attic") (py "http://x/attic")
          (Fixtures.start_world [(py "http://x/a.jpg", Fixtures.image true)])
        = (Ret [], w')
    ∧ files w' !! dest = None.
Proof.
  destruct (proj1 (asset_fetch_atomic Fixtures.ascii_extern
              (Fixtures.start_world [(py "http://x/a.jpg", Fixtures.image true)])
              (py "http://x/a.jpg") (py "Poetry") (py "a897fe39b1053632")
              (py "A Light in the Attic") (py "http://x/attic") [] eq_refl)
            eq_refl eq_refl)
    as (o & w' & Hrun & _ & Hcases).
  vm_compute in Hcases. destruct Hcases as (Hor & Hfail & _).
  rewrite (Hfail (or_introl eq_refl)) in *.
  exists w'. split; [exact Hrun|].
  destruct Hor as [[_ Hfile]|[_ [Hw _]]]; [exact Hfile | discriminate Hw].
Defined.

(** ** The crawlers *)
Section Crawlers.
Import Fixtures.
Context (L : extern).
Local Abbreviation pod_links := (Vocabulary.pod_links L).

(** One product in [scrape_all_books] of all_books_data.py: a failure
    of [scrape_book] is printed and the loop goes on with the same
    records. *)
Lemma all_books_data_visit_books (urls : list str) :
  ∀ (i n : nat) (bc : dict (list (dict str))) (w : world),
    ∃ w', all_books_data.visit_books urls i n bc w
          = (Ret (grouped bc (records_of (net w) urls)), w')
      ∧ net w' = net w ∧ files w' = files w
      ∧ requested w' = requested w ++ urls
      ∧ pages_visited w' = pages_visited w.
Proof.
  induction urls as [|u urls IH]; intros i n bc w.
  - exists w. rewrite !app_nil_r. by repeat split.
  - cbn [all_books_data.visit_books].
    rewrite bind_run, print_run, bind_run, try_except_run, bind_run.
    unfold all_books_data.scrape_book at 1.
    rewrite bind_run. unfold http_get at 1. cbn [net files trace].
    unfold records_of. cbn [omap list_omap].
    destruct (net w {| url := u; referer := None |}) as [e|r];
      cbv beta iota; [rewrite bind_run, print_run; unfold ret at 1|unfold ret at 1 2];
      cbv beta iota;
      match goal with |- context [all_books_data.visit_books urls ?i' n ?bc' ?w1] =>
        destruct (IH i' n bc' w1) as (w' & Hrun & Hn & Hf & Hr & Hp) end;
      exists w'; rewrite Hrun; cbn [net files trace] in *;
      (split; [reflexivity|]); (split; [done|]); (split; [done|]);
      rewrite Hr, Hp; unfold requested, pages_visited; cbn [trace];
      rewrite !omap_app; cbn [omap list_omap]; rewrite ?app_nil_r, <- ?app_assoc;
      by split.
Qed.

Lemma collect_book_urls_run (list_url : str) (books : list pod) :
  Forall (pod_readable L list_url) books →
  ∀ acc w, all_books_data.collect_book_urls L list_url books acc w
           = (Ret (acc ++ pod_links list_url books), w).
Proof.
  induction 1 as [|b books Hb _ IH]; intros acc w.
  - simpl. by rewrite app_nil_r.
  - cbn [all_books_data.collect_book_urls]. unfold pod_readable in Hb.
    unfold Vocabulary.pod_links. cbn [omap list_omap].
    destruct (pod_h3 b) as [[a|]|]; [| |done].
    + destruct (truthy_opt (a_href a)) eqn:Ht.
      * destruct (Hb eq_refl) as [u Hu]. rewrite bind_run, join_run, Hu.
        cbv beta iota. rewrite IH. by rewrite <- app_assoc.
      * apply IH.
    + apply IH.
Qed.

Lemma all_books_data_crawl_S (fuel : nat) (max_pages : option Z)
    (bc : dict (list (dict str))) (u : str) (n : Z) :
  all_books_data.crawl L (S fuel) max_pages bc (Some u) n
  = if truthy u then
      if all_books_data.over_budget max_pages n then
        (print (MsgStop (default 0%Z max_pages));; ret bc)
      else
        (print (MsgPage n u);;
         book_urls <- all_books_data.get_book_urls_from_page L u;;
         print (MsgFound (length book_urls));;
         bc' <- all_books_data.visit_books book_urls 1 (length book_urls) bc;;
         next_url <- all_books_data.get_next_page_url L u;;
         (if truthy_opt next_url then print MsgNext else print MsgDone);;
         all_books_data.crawl L fuel max_pages bc' next_url (n + 1)%Z)
    else ret bc.
Proof. reflexivity. Qed.

(** all_books_data.py with a budget of one page. *)
Lemma all_books_data_budget_one (w : world) (start : str) (r : response)
    (a : anchor) (h next : str) (fuel : nat) :
  truthy start = true →
  net w {| url := start; referer := None |} = Reply r →
  Forall (pod_readable L start) (pods (page r)) →
  next_li (page r) = Some (Some a) → a_href a = Some h →
  urljoin L start h = Joined next →
  let links := pod_links start (pods (page r)) in
  ∃ w', all_books_data.scrape_all_books L (S (S fuel)) start (Some 1%Z) w
        = (Ret (grouped [] (records_of (net w) links)), w')
    ∧ requested w' = requested w ++ [start] ++ links ++ [start]
    ∧ pages_visited w' = pages_visited w ++ [start].
Proof.
  intros Hstart Hnet Hpods Hnext Hhref Hjoin links.
  unfold all_books_data.scrape_all_books.
  rewrite all_books_data_crawl_S, Hstart.
  unfold all_books_data.over_budget at 1.
  rewrite bool_decide_eq_false_2 by lia.
  rewrite bind_run, print_run, bind_run.
  unfold all_books_data.get_book_urls_from_page at 1.
  rewrite bind_run. unfold http_get at 1. cbn [net files trace]. rewrite Hnet.
  rewrite collect_book_urls_run by done. cbn [app]. fold links.
  rewrite bind_run, print_run, bind_run.
  match goal with |- context [all_books_data.visit_books links ?i ?n ?bc ?w1] =>
    destruct (all_books_data_visit_books links i n bc w1)
      as (w2 & Hrun & Hn & Hf & Hr & Hp) end.
  rewrite Hrun. cbn [net files trace] in *.
  rewrite bind_run. unfold all_books_data.get_next_page_url at 1.
  rewrite bind_run. unfold http_get at 1. rewrite Hn, Hnet, Hnext, Hhref.
  rewrite bind_run, join_run, Hjoin.
  unfold ret at 1. cbv beta iota. rewrite bind_run.
  assert (Hreq : ∀ evs,
            requested {| net := net w; files := files w2;
                         trace := (trace w2 ++ [Get {| url := start; referer := None |}])
                                  ++ evs |}
            = requested w ++ [start] ++ links ++ [start]
              ++ omap (λ ev, match ev with Get rq => Some (url rq) | Print _ => None end)
                      evs).
  { intros evs. unfold requested in *. cbn [trace]. rewrite !omap_app, Hr.
    cbn [trace]. rewrite !omap_app. cbn [omap list_omap url].
    by rewrite ?app_nil_r, <- ?app_assoc. }
  assert (Hpag : ∀ evs,
            pages_visited {| net := net w; files := files w2;
                             trace := (trace w2 ++ [Get {| url := start; referer := None |}])
                                      ++ evs |}
            = pages_visited w ++ [start]
              ++ omap (λ ev, match ev with Print (MsgPage _ u) => Some u | _ => None end)
                      evs).
  { intros evs. unfold pages_visited in *. cbn [trace]. rewrite !omap_app, Hp.
    cbn [trace]. rewrite !omap_app. cbn [omap list_omap].
    by rewrite ?app_nil_r, <- ?app_assoc. }
  rewrite all_books_data_crawl_S.
  cbn [truthy_opt]. destruct (truthy next) eqn:Hnxt.
  - rewrite print_run. unfold all_books_data.over_budget.
    rewrite bool_decide_eq_true_2 by lia.
    rewrite bind_run, print_run. unfold ret. cbn [net files trace].
    eexists. split; [reflexivity|].
    rewrite <- (app_assoc _ [Print MsgNext]). rewrite Hreq, Hpag.
    cbn [app omap list_omap]. by rewrite ?app_nil_r.
  - rewrite print_run. unfold ret. cbn [net files trace].
    eexists. split; [reflexivity|].
    rewrite Hreq, Hpag. cbn [omap list_omap]. by rewrite ?app_nil_r.
Qed.

Lemma terminates_collect_urls (list_url : str) (anchors : list anchor) :
  ∀ urls, terminates (images_book_data.collect_urls L list_url anchors urls).
Proof.
  induction anchors as [|a rest IH]; intros urls;
    cbn [images_book_data.collect_urls]; step_terminates; apply IH.
Qed.

Lemma quiet_collect_urls (list_url : str) (anchors : list anchor) :
  ∀ urls, quiet (images_book_data.collect_urls L list_url anchors urls).
Proof.
  induction anchors as [|a rest IH]; intros urls;
    cbn [images_book_data.collect_urls]; step_quiet; apply IH.
Qed.

Lemma terminates_get_book_urls_from_page (u : str) :
  terminates (images_book_data.get_book_urls_from_page L u).
Proof.
  unfold images_book_data.get_book_urls_from_page. step_terminates.
  apply terminates_collect_urls.
Qed.

Lemma quiet_get_book_urls_from_page (u : str) :
  quiet (images_book_data.get_book_urls_from_page L u).
Proof.
  unfold images_book_data.get_book_urls_from_page. step_quiet.
  apply quiet_collect_urls.
Qed.

Lemma terminates_scrape_book (u : str) :
  terminates (images_book_data.scrape_book L u).
Proof.
  unfold images_book_data.scrape_book. step_terminates.
  apply terminates_save_image.
Qed.

(** Whatever [scrape_book] of images_book_data.py returns holds the
    variables of the table scan. *)
Lemma images_book_data_scrape_book_fields (w w' : world) (u : str)
    (r : response) (d : dict str) :
  net w {| url := u; referer := None |} = Reply r →
  images_book_data.scrape_book L u w = (Ret d, w') →
  item "availability" d
  = images_book_data.availability (images_book_data.table_fields L (page r))
  ∧ item "price_incl_tax_gbp" d
    = images_book_data.price_incl_tax (images_book_data.table_fields L (page r))
  ∧ item "price_excl_tax_gbp" d
    = images_book_data.price_excl_tax (images_book_data.table_fields L (page r)).
Proof.
  intros Hnet. unfold images_book_data.scrape_book.
  rewrite bind_run, http_get_run, Hnet, bind_run.
  destruct (raise_for_status r _) as [[[]|e|] w1]; [|discriminate..].
  cbv zeta. rewrite bind_run.
  match goal with |- context [(if ?c then ?a else ?b) w1] =>
    destruct ((if c then a else b) w1) as [[img|e|] w2] end; [|discriminate..].
  intros [= <- <-]. by repeat split.
Qed.

(** The loop over the products of images_book_data.py always comes to
    its end and returns. *)
Lemma images_book_data_visit_books_returns (urls : list str) :
  ∀ (i n : nat) (bc : dict (list (dict str))) (w : world),
    ∃ bc' w', images_book_data.visit_books L urls i n bc w = (Ret bc', w').
Proof.
  induction urls as [|u urls IH]; intros i n bc w.
  - by eexists _, _.
  - cbn [images_book_data.visit_books]. rewrite bind_run, print_run, bind_run.
    match goal with |- context [try_except ?m ?h ?w1] =>
      destruct (try_except_returns m h w1) as (bc1 & w2 & Hrun) end.
    + step_terminates. apply terminates_scrape_book.
    + intros e w1. by eexists _, _.
    + rewrite Hrun. apply IH.
Qed.

Lemma images_book_data_crawl_S (fuel : nat) (max_pages : option Z)
    (bc : dict (list (dict str))) (u : str) (n : Z) :
  images_book_data.crawl L (S fuel) max_pages bc (Some u) n
  = if truthy u then
      (print (MsgPage n u);;
       book_urls <- try_except (images_book_data.get_book_urls_from_page L u)
                      (λ e, print (MsgListingFailed u e);; ret []);;
       print (MsgFound (length book_urls));;
       bc' <- images_book_data.visit_books L book_urls 1 (length book_urls) bc;;
       if images_book_data.budget_reached max_pages n then
         print (MsgStop (default 0%Z max_pages));;
         ret bc'
       else
         next_url <- try_except (images_book_data.get_next_page_url L u)
                       (λ e, print (MsgNextFailed u e);; ret None);;
         if truthy_opt next_url then
           print MsgNext;;
           images_book_data.crawl L fuel max_pages bc' next_url (n + 1)%Z
         else
           print MsgDone;;
           ret bc')
    else ret bc.
Proof. reflexivity. Qed.

Lemma quiet_scrape_book (u : str) : quiet (images_book_data.scrape_book L u).
Proof.
  unfold images_book_data.scrape_book, images_book_data.save_image,
    images_book_data.fetch_to.
  step_quiet.
Qed.

Lemma quiet_visit_books (urls : list str) :
  ∀ (i n : nat) (bc : dict (list (dict str))),
    quiet (images_book_data.visit_books L urls i n bc).
Proof.
  induction urls as [|u urls IH]; intros i n bc.
  - apply quiet_ret.
  - cbn [images_book_data.visit_books]. step_quiet. apply quiet_scrape_book.
Qed.


(** In [scrape_all] of books_data_images.py a product whose extraction
    raises ends the loop over the products: the exception goes up and
    the products after it are not visited. *)
Lemma visit_links_stops_at_failure (u : str) (rest : list str) (i n : nat)
    (bc : dict (list (dict str))) (w w1 : world) (e : exn) :
  books_data_images.extract_book_data L u
    {| net := net w; files := files w;
       trace := trace w ++ [Print (MsgItem i n (Some u))] |}
  = (Raise e, w1) →
  books_data_images.visit_links L (u :: rest) i n bc w = (Raise e, w1).
Proof.
  intros H. cbn [books_data_images.visit_links].
  by rewrite bind_run, print_run, bind_run, H.
Qed.

(** C1 at a failing product: the second of the three products of the
    first page cannot be fetched.  [scrape_all] of books_data_images.py
    has no handler around the product: the failure ends the crawl, the
    third product is never asked for and no records come back. *)
Theorem scrape_all_aborts_on_product_failure :
  let w0 := start_world (catalogue (NetFail Timeout)) in
  let run := books_data_images.scrape_all ascii_extern 5 (py "http://x/page-1") None w0 in
  fst run = Raise Timeout
  ∧ requested (snd run) = [py "http://x/page-1"; py "http://x/attic"; py "http://x/velvet"].
Proof. vm_compute. by split. Qed.

(** On the same site all_books_data.py and images_book_data.py print the
    failure and go on: the first and the third product come back. *)
Example siblings_skip_the_failing_product :
  let w0 := start_world (catalogue (NetFail Timeout)) in
  let run1 := all_books_data.scrape_all_books ascii_extern 5 (py "http://x/page-1") None w0 in
  let run2 := images_book_data.scrape_all_books ascii_extern 5 (py "http://x/page-1") None w0 in
  match fst run1, fst run2 with
  | Ret bc1, Ret bc2 =>
      map (λ x, (fst x, map (item "title") (snd x))) bc1
      = [(py "Poetry", [py "A Light in the Attic"]); (py "Fiction", [py "Soumission"])]
      ∧ map (λ x, (fst x, map (item "title") (snd x))) bc2
        = [(py "Poetry", [py "A Light in the Attic"]); (py "Fiction", [py "Soumission"])]
      ∧ Print (MsgError (py "http://x/velvet") Timeout) ∈ trace (snd run1)
      ∧ Print (MsgError (py "http://x/velvet") Timeout) ∈ trace (snd run2)
  | _, _ => False
  end.
Proof.
  vm_compute. repeat split; apply list_elem_of_In; vm_compute; tauto.
Qed.

(** [get_book_urls_from_page] of all_books_data.py never looks at the
    status of the response. *)
Lemma all_books_data_listing_ignores_status (w : world) (u : str) (r : response) :
  net w {| url := u; referer := None |} = Reply r →
  Forall (pod_readable L u) (pods (page r)) →
  all_books_data.get_book_urls_from_page L u w
  = (Ret (pod_links u (pods (page r))),
     {| net := net w; files := files w;
        trace := trace w ++ [Get {| url := u; referer := None |}] |}).
Proof.
  intros Hnet Hpods. unfold all_books_data.get_book_urls_from_page.
  rewrite bind_run. unfold http_get at 1. rewrite Hnet.
  by rewrite collect_book_urls_run.
Qed.

(** C8 at a failing listing: the listing page answers with status 500
    and an error page.  [get_book_urls_from_page] of all_books_data.py
    returns an empty list of products, and the crawl ends as if the
    catalogue were empty. *)
Theorem listing_http_error_is_absorbed :
  let w0 := start_world [(py "http://x/page-1", server_error)] in
  fst (all_books_data.get_book_urls_from_page ascii_extern (py "http://x/page-1") w0)
  = Ret []
  ∧ fst (all_books_data.scrape_all_books ascii_extern 5 (py "http://x/page-1") None w0)
    = Ret [].
Proof. vm_compute. by split. Qed.

(** A page without next-page entry gives [None] in all_books_data.py
    too; an entry whose link has no href makes [next_link.find('a')['href']]
    fail there. *)
Example all_books_data_next_page_control :
  let page1 := py "http://x/page-1" in
  let broken := {| h1 := None; main_h1 := None; tables := []; description := None;
                   breadcrumb := []; gallery_img := None; pods := [];
                   next_li := Some (Some {| a_href := None; a_texts := [py "next"] |}) |} in
  fst (all_books_data.get_next_page_url ascii_extern page1
         (start_world [(page1, ok (listing_page [] None))])) = Ret None
  ∧ fst (all_books_data.get_next_page_url ascii_extern page1
           (start_world [(page1, ok broken)])) = Raise (KeyError (py "href")).
Proof. vm_compute. by split. Qed.

(** The listers that go through [get_soup] (books_data_images.py) pass
    both kinds of failure on; a page without next-page link is no
    failure. *)
Lemma books_data_images_listing_propagates (w : world) (u : str) :
  let rq := {| url := u; referer := None |} in
  let w1 := {| net := net w; files := files w; trace := trace w ++ [Get rq] |} in
  match net w rq with
  | NetFail e =>
      books_data_images.parse_listing_product_links L u w = (Raise e, w1)
  | Reply r =>
      (¬ passes r →
       books_data_images.parse_listing_product_links L u w
       = (Raise (HTTPError (status r)), w1))
      ∧ (passes r → next_li (page r) = None →
         books_data_images.get_next_page_url L u w = (Ret None, w1))
  end.
Proof.
  intros rq w1.
  unfold books_data_images.parse_listing_product_links,
    books_data_images.get_next_page_url, books_data_images.get_soup.
  rewrite !bind_run. unfold http_get. fold rq.
  destruct (net w rq) as [e|r]; [reflexivity|]. split.
  - intros Hp. by rewrite bind_run, raise_for_status_fails.
  - intros Hp Hnone. rewrite bind_run, raise_for_status_passes by done.
    cbv beta iota. unfold ret at 1. cbv beta iota. by rewrite Hnone.
Qed.

End Crawlers.

(** * Further properties of the scripts *)

Import Fixtures Pandas Assets.

(** ** Names of files and folders *)
Section Names.

(** What [lstrip_by] leaves does not start with a stripped character. *)
Lemma lstrip_by_head (p : char → bool) (s : str) (c : char) :
  head (lstrip_by p s) = Some c → p c = false.
Proof.
  induction s as [|x s IH]; simpl; [discriminate|].
  destruct (p x) eqn:E; [exact IH|]. simpl. intros [= <-]. exact E.
Qed.

Lemma lstrip_by_suffix (p : char → bool) (s : str) :
  ∃ pre, s = pre ++ lstrip_by p s.
Proof.
  induction s as [|x s [pre IH]]; simpl; [by exists []|].
  destruct (p x); [exists (x :: pre); simpl; by rewrite <- IH | by exists []].
Qed.

Lemma lstrip_by_id (p : char → bool) (s : str) :
  (∀ c, head s = Some c → p c = false) → lstrip_by p s = s.
Proof.
  destruct s as [|x s]; simpl; [done|]. intros H. by rewrite (H x eq_refl).
Qed.

Lemma head_rev (s : str) : head (rev s) = last s.
Proof.
  induction s as [|x s IH] using rev_ind; [done|].
  by rewrite rev_app_distr, last_snoc.
Qed.

Lemma rstrip_by_last (p : char → bool) (s : str) (c : char) :
  last (rstrip_by p s) = Some c → p c = false.
Proof.
  unfold rstrip_by. rewrite <- head_rev, rev_involutive. apply lstrip_by_head.
Qed.

Lemma rstrip_by_prefix (p : char → bool) (s : str) :
  ∃ post, s = rstrip_by p s ++ post.
Proof.
  unfold rstrip_by. destruct (lstrip_by_suffix p (rev s)) as [pre H].
  exists (rev pre). rewrite <- rev_app_distr, <- H. by rewrite rev_involutive.
Qed.

Lemma rstrip_by_id (p : char → bool) (s : str) :
  (∀ c, last s = Some c → p c = false) → rstrip_by p s = s.
Proof.
  intros H. unfold rstrip_by. rewrite lstrip_by_id; [apply rev_involutive|].
  intros c. rewrite head_rev. apply H.
Qed.

Lemma strip_by_ends (p : char → bool) (s : str) (c : char) :
  head (strip_by p s) = Some c ∨ last (strip_by p s) = Some c → p c = false.
Proof.
  unfold strip_by. intros [H|H]; [|by apply rstrip_by_last in H].
  destruct (rstrip_by_prefix p (lstrip_by p s)) as [post E].
  apply (lstrip_by_head p s). rewrite E.
  destruct (rstrip_by p (lstrip_by p s)); [discriminate|exact H].
Qed.

Lemma strip_by_id (p : char → bool) (s : str) :
  (∀ c, head s = Some c ∨ last s = Some c → p c = false) → strip_by p s = s.
Proof.
  intros H. unfold strip_by. rewrite lstrip_by_id by (intros; apply H; by left).
  apply rstrip_by_id. intros; apply H; by right.
Qed.

Lemma sub_unsafe_runs_id (b : bool) (s : str) :
  Forall (λ c, safe_char c = true) s → sub_unsafe_runs b s = s.
Proof.
  intros H. revert b. induction H as [|c s Hc _ IH]; intros b; simpl; [done|].
  by rewrite Hc, IH.
Qed.

(** X1: [cleaner] (and [sanitize]) applied to its own result changes
    nothing, and its result neither starts nor ends with an underscore:
    a name made once stays the same when it is made again from itself. *)
Theorem cleaner_idempotent (s : option str) :
  cleaner (Some (cleaner s)) = cleaner s
  ∧ head (cleaner s) ≠ Some 95 ∧ last (cleaner s) ≠ Some 95.
Proof.
  assert (E : ∀ c, head (cleaner s) = Some c ∨ last (cleaner s) = Some c
                   → bool_decide (c ∈ py "_") = false).
  { intros c. unfold cleaner, or_else.
    destruct (truthy _) eqn:T.
    - apply strip_by_ends.
    - intros [H|H]; vm_compute in H; injection H as <-; reflexivity. }
  split; [|split; intros H].
  2: { specialize (E 95 (or_introl H)). vm_compute in E. discriminate. }
  2: { specialize (E 95 (or_intror H)). vm_compute in E. discriminate. }
  unfold cleaner at 1. simpl default.
  rewrite sub_unsafe_runs_id.
  - unfold strip_chars. rewrite strip_by_id by exact E.
    unfold or_else. destruct (truthy (cleaner s)) eqn:T; [done|].
    unfold cleaner, or_else in T. destruct (truthy (strip_chars _ _)) eqn:T'; [congruence|discriminate].
  - unfold cleaner, or_else. destruct (truthy _).
    + apply strip_by_Forall, sub_unsafe_runs_safe.
    + by repeat constructor.
Qed.

(** Replacing one character by another is a map over the string. *)
Lemma replace_from_single_map (c d : char) (s : str) (fuel : nat) :
  (length s ≤ fuel)%nat →
  replace_from fuel [c] [d] s = map (λ x, if x =? c then d else x) s.
Proof.
  revert s. induction fuel as [|fuel IH]; intros [|x s] Hl; simpl in *; try done; [lia|].
  rewrite andb_true_r. rewrite (N.eqb_sym c x). destruct (x =? c).
  - simpl. rewrite drop_0. f_equal. apply IH. lia.
  - f_equal. apply IH. lia.
Qed.

(** X2: the file name that all_books_data.py derives from a category is
    never empty and holds neither a slash nor a backslash, whatever the
    category text is. *)
Theorem safe_name_no_separator (category_name : str) :
  all_books_data.safe_name category_name ≠ []
  ∧ (47 ∉ all_books_data.safe_name category_name)
  ∧ (92 ∉ all_books_data.safe_name category_name).
Proof.
  unfold all_books_data.safe_name, or_else.
  destruct (truthy _) eqn:T.
  - split; [destruct (strip _); done|].
    assert (F : Forall (λ x, x ≠ 47 ∧ x ≠ 92)
                  (strip (replace [92] [45] (replace [47] [45] category_name)))).
    { apply strip_by_Forall. unfold replace.
      rewrite !replace_from_single_map by lia.
      rewrite Forall_map, Forall_map. apply Forall_true. intros x. simpl.
      destruct (x =? 47) eqn:E1; simpl; [split; discriminate|].
      destruct (x =? 92) eqn:E2; [split; discriminate|].
      apply N.eqb_neq in E1, E2. done. }
    rewrite Forall_forall in F. split; intros H; apply F in H; destruct H; congruence.
  - split; [discriminate|]. split; intros H; vm_compute in H;
      by repeat (apply elem_of_cons in H as [H|H]; [discriminate|]); apply elem_of_nil in H.
Qed.

End Names.

(** ** Grouping by category, and the Content-Type *)
Section Grouping.

(** [d.setdefault(k, []).append(x)] seen through [d.get(c)]. *)
Lemma dict_get_setdefault_append {V} (k c : str) (x : V) (d : dict (list V)) :
  dict_get c (setdefault_append k x d)
  = if bool_decide (k = c) then Some (default [] (dict_get c d) ++ [x])
    else dict_get c d.
Proof.
  induction d as [|[k' xs] d IH]; simpl.
  - unfold str_eqb. by case_bool_decide.
  - unfold str_eqb in *. destruct (bool_decide (k' = k)) eqn:E1; simpl; unfold str_eqb.
    + apply bool_decide_eq_true in E1 as ->.
      case_bool_decide; [done|done].
    + apply bool_decide_eq_false in E1.
      destruct (bool_decide (k' = c)) eqn:E2.
      * apply bool_decide_eq_true in E2 as ->. by rewrite bool_decide_false by congruence.
      * exact IH.
Qed.

(** A new key goes to the end; a known one keeps its place. *)
Lemma keys_setdefault_append {V} (k : str) (x : V) (d : dict (list V)) :
  map fst (setdefault_append k x d)
  = if bool_decide (k ∈ map fst d) then map fst d else map fst d ++ [k].
Proof.
  induction d as [|[k' xs] d IH]; simpl; [done|].
  unfold str_eqb. destruct (bool_decide (k' = k)) eqn:E1; simpl.
  - apply bool_decide_eq_true in E1 as ->. rewrite bool_decide_true; [done|by left].
  - apply bool_decide_eq_false in E1. rewrite IH.
    destruct (bool_decide (k ∈ map fst d)) eqn:E2.
    + apply bool_decide_eq_true in E2. rewrite bool_decide_true; [done|by right].
    + apply bool_decide_eq_false in E2. rewrite bool_decide_false; [done|].
      intros [?|?]%elem_of_cons; congruence.
Qed.

Lemma setdefault_append_NoDup {V} (k : str) (x : V) (d : dict (list V)) :
  NoDup (map fst d) → NoDup (map fst (setdefault_append k x d)).
Proof.
  intros H. rewrite keys_setdefault_append. case_bool_decide; [done|].
  apply NoDup_app. split; [done|]. split; [|apply NoDup_singleton].
  intros y Hy ->%list_elem_of_singleton. done.
Qed.

Lemma setdefault_append_groups {V} (k : str) (x : V) (d : dict (list V)) :
  Forall (λ g, snd g ≠ []) d → Forall (λ g, snd g ≠ []) (setdefault_append k x d).
Proof.
  induction 1 as [|[k' xs] d H Hd IH]; simpl.
  - repeat constructor. done.
  - destruct (str_eqb k' k); constructor; simpl; try done.
    intros E. by apply app_eq_nil in E as [_ ?].
Qed.

(** The group of a category is the records of that category, in the
    order in which they came. *)
Lemma grouped_lookup (records : list (dict str)) :
  ∀ (bc : dict (list (dict str))) (c : str),
    default [] (dict_get c (grouped bc records))
    = default [] (dict_get c bc) ++ filter (λ d, category_of d = c) records.
Proof.
  induction records as [|d records IH]; intros bc c; simpl.
  - by rewrite app_nil_r.
  - unfold grouped in *. simpl. rewrite IH, dict_get_setdefault_append.
    rewrite filter_cons. case_bool_decide as E.
    + rewrite decide_True by done. simpl. by rewrite <- app_assoc.
    + by rewrite decide_False by done.
Qed.

Lemma grouped_keys (records : list (dict str)) :
  ∀ (bc : dict (list (dict str))),
    NoDup (map fst bc) → Forall (λ g, snd g ≠ []) bc →
    NoDup (map fst (grouped bc records))
    ∧ Forall (λ g, snd g ≠ []) (grouped bc records)
    ∧ ∀ c, c ∈ map fst (grouped bc records)
           ↔ c ∈ map fst bc ∨ c ∈ map category_of records.
Proof.
  induction records as [|d records IH]; intros bc Hn Hg; simpl.
  - split; [done|]. split; [done|]. intros c. rewrite elem_of_nil. tauto.
  - unfold grouped in *. simpl.
    destruct (IH (setdefault_append (category_of d) d bc)) as (H1 & H2 & H3).
    { by apply setdefault_append_NoDup. }
    { by apply setdefault_append_groups. }
    split; [done|]. split; [done|]. intros c. rewrite H3, keys_setdefault_append.
    rewrite elem_of_cons. case_bool_decide as E.
    + split; [tauto|]. intros [?|[->|?]]; tauto.
    + rewrite elem_of_app, list_elem_of_singleton. split; [tauto|]. intros [?|[->|?]]; tauto.
Qed.

Lemma category_of_nonempty (d : dict str) : category_of d ≠ [].
Proof.
  unfold category_of, or_else. destruct (truthy _) eqn:E; [|discriminate].
  by destruct (default _ _).
Qed.

(** X3: the loop over the products of a page in all_books_data.py,
    started with no groups, always returns; no category appears twice,
    no group and no category name is empty, and the group of each
    category is exactly the records of that category among the products
    the site served, in the order of the page.  A product that cannot
    be fetched is left out and the loop goes on. *)
Theorem visit_books_groups_by_category (urls : list str) (i n : nat) (w : world) :
  ∃ bc w',
    all_books_data.visit_books urls i n [] w = (Ret bc, w')
    ∧ NoDup (map fst bc)
    ∧ Forall (λ g, fst g ≠ [] ∧ snd g ≠ []) bc
    ∧ ∀ c, default [] (dict_get c bc)
           = filter (λ d, category_of d = c) (records_of (net w) urls).
Proof.
  destruct (all_books_data_visit_books urls i n [] w) as (w' & Hrun & _).
  eexists _, w'. split; [exact Hrun|].
  destruct (grouped_keys (records_of (net w) urls) []) as (H1 & H2 & H3);
    [constructor|constructor|].
  split; [exact H1|]. split.
  - rewrite Forall_forall in H2 |- *. intros [c rows] Hin. split; [|by apply H2].
    assert (Hc : c ∈ map fst (grouped [] (records_of (net w) urls))).
    { apply list_elem_of_fmap. by exists (c, rows). }
    apply H3 in Hc as [Hc|Hc]; [by apply elem_of_nil in Hc|].
    apply list_elem_of_fmap in Hc as (d & -> & _). apply category_of_nonempty.
  - intros c. by rewrite grouped_lookup.
Qed.

(** [s.split(c)] of a string without [c]. *)
Lemma split_no_separator (c : char) (s : str) : c ∉ s → split c s = [s].
Proof.
  induction s as [|x s IH]; [done|]. intros H. apply not_elem_of_cons in H as [H1 H2].
  simpl. rewrite (proj2 (N.eqb_neq x c)) by congruence. by rewrite IH.
Qed.

Lemma split_at_separator (c : char) (pre rest : str) :
  c ∉ pre → split c (pre ++ c :: rest) = pre :: split c rest.
Proof.
  induction pre as [|x pre IH]; intros H; simpl.
  - by rewrite N.eqb_refl.
  - apply not_elem_of_cons in H as [H1 H2].
    rewrite (proj2 (N.eqb_neq x c)) by congruence. by rewrite IH.
Qed.

End Grouping.

Section ContentType.
Context (L : extern).

(** X4: [guess_ext_from_ct] of test2_image.py looks only at what comes
    before the first semicolon of the Content-Type: parameters such as
    a charset do not change the extension. *)
Theorem guess_ext_ignores_parameters (ct params default_ext : str) :
  ct ≠ [] → 59 ∉ ct →
  test2_image.guess_ext_from_ct L (ct ++ 59 :: params) default_ext
  = test2_image.guess_ext_from_ct L ct default_ext.
Proof.
  intros Hne Hsep. unfold test2_image.guess_ext_from_ct.
  rewrite split_at_separator, (split_no_separator 59 ct) by done.
  by destruct ct.
Qed.

End ContentType.

(** [image/png; charset=binary] gives what [image/png] gives. *)
Lemma guess_ext_ignores_parameters_witness :
  test2_image.guess_ext_from_ct ascii_extern
    (py "image/png; charset=binary") (py ".jpg")
  = test2_image.guess_ext_from_ct ascii_extern (py "image/png") (py ".jpg").
Proof.
  apply (guess_ext_ignores_parameters ascii_extern (py "image/png")
           (py " charset=binary") (py ".jpg")); [discriminate|].
  apply (bool_decide_unpack (59 ∉ py "image/png")). vm_compute. exact I.
Defined.

(** ** Pagination in all_books_data.py *)
Section Pagination.
Context (L : extern).
Local Abbreviation pod_links := (Vocabulary.pod_links L).
Local Abbreviation listing_chain := (Vocabulary.listing_chain L).
Local Abbreviation chain_links := (Vocabulary.chain_links L).

Lemma grouped_app (bc : dict (list (dict str))) (xs ys : list (dict str)) :
  grouped (grouped bc xs) ys = grouped bc (xs ++ ys).
Proof. unfold grouped. by rewrite foldl_app. Qed.

Lemma records_of_app (site : request → reply) (xs ys : list str) :
  records_of site (xs ++ ys) = records_of site xs ++ records_of site ys.
Proof. unfold records_of. by rewrite omap_app. Qed.

(** One turn of the loop of all_books_data.py without a budget, on a
    listing page that is served. *)
Lemma all_books_data_page (fuel : nat) (bc : dict (list (dict str)))
    (u : str) (n : Z) (w : world) (r : response) (nxt : option str) :
  truthy u = true →
  net w {| url := u; referer := None |} = Reply r →
  Forall (pod_readable L u) (pods (page r)) →
  match next_li (page r) with
  | Some (Some a) =>
      ∃ h u', a_href a = Some h ∧ urljoin L u h = Joined u' ∧ nxt = Some u'
  | _ => nxt = None
  end →
  ∃ w1,
    all_books_data.crawl L (S fuel) None bc (Some u) n w
    = all_books_data.crawl L fuel None
        (grouped bc (records_of (net w) (pod_links u (pods (page r)))))
        nxt (n + 1)%Z w1
    ∧ net w1 = net w ∧ files w1 = files w
    ∧ pages_visited w1 = pages_visited w ++ [u].
Proof.
  intros Hu Hnet Hpods Hnext.
  rewrite all_books_data_crawl_S, Hu. cbn [all_books_data.over_budget].
  rewrite bind_run, print_run, bind_run.
  unfold all_books_data.get_book_urls_from_page at 1.
  rewrite bind_run. unfold http_get at 1. cbn [net files trace]. rewrite Hnet.
  rewrite collect_book_urls_run by done. cbn [app].
  rewrite bind_run, print_run, bind_run.
  match goal with |- context [all_books_data.visit_books ?ls ?i ?k ?b ?w1] =>
    destruct (all_books_data_visit_books ls i k b w1)
      as (w2 & Hrun & Hn & Hf & Hr & Hp) end.
  rewrite Hrun. cbn [net files trace] in *.
  rewrite bind_run. unfold all_books_data.get_next_page_url at 1.
  rewrite bind_run. unfold http_get at 1. rewrite Hn, Hnet.
  assert (Hpag : ∀ evs,
            pages_visited {| net := net w; files := files w2;
                             trace := (trace w2 ++ [Get {| url := u; referer := None |}])
                                      ++ evs |}
            = pages_visited w ++ [u]
              ++ omap (λ ev, match ev with Print (MsgPage _ u) => Some u | _ => None end)
                      evs).
  { intros evs. unfold pages_visited in *. cbn [trace]. rewrite !omap_app, Hp.
    cbn [trace]. rewrite !omap_app. cbn [omap list_omap].
    by rewrite ?app_nil_r, <- ?app_assoc. }
  destruct (next_li (page r)) as [[a|]|].
  - destruct Hnext as (h & u' & -> & Hj & ->). rewrite bind_run, join_run, Hj.
    unfold ret at 1. cbv beta iota. rewrite bind_run.
    destruct (truthy_opt (Some u')); rewrite print_run;
      eexists; (split; [reflexivity|]); cbn [net files trace];
      rewrite Hpag; cbn [omap list_omap]; by rewrite ?app_nil_r.
  - subst nxt. unfold ret at 1. cbv beta iota. rewrite bind_run.
    cbn [truthy_opt]. rewrite print_run.
    eexists; (split; [reflexivity|]); cbn [net files trace];
      rewrite Hpag; cbn [omap list_omap]; by rewrite ?app_nil_r.
  - subst nxt. unfold ret at 1. cbv beta iota. rewrite bind_run.
    cbn [truthy_opt]. rewrite print_run.
    eexists; (split; [reflexivity|]); cbn [net files trace];
      rewrite Hpag; cbn [omap list_omap]; by rewrite ?app_nil_r.
Qed.

(** The loop of all_books_data.py along a chain of listing pages. *)
Lemma all_books_data_crawl_chain (pages : list (str * response)) :
  ∀ (fuel : nat) (bc : dict (list (dict str))) (n : Z) (w : world),
    pages ≠ [] → listing_chain (net w) pages → (length pages < fuel)%nat →
    ∃ w', all_books_data.crawl L fuel None bc (fst <$> head pages) n w
          = (Ret (grouped bc (records_of (net w) (chain_links pages))), w')
      ∧ pages_visited w' = pages_visited w ++ map fst pages.
Proof.
  induction pages as [|[u r] rest IH]; intros fuel bc n w Hne Hch Hfuel; [done|].
  destruct fuel as [|fuel]; [simpl in Hfuel; lia|].
  destruct Hch as (Hnet & Hu & Hpods & Hnext & Hrest).
  cbn [head fmap option_fmap option_map fst].
  destruct rest as [|[u' r'] rest].
  - destruct (all_books_data_page fuel bc u n w r None Hu Hnet Hpods)
      as (w1 & Hrun & Hn & _ & Hp).
    { by destruct Hnext as [-> | ->]. }
    rewrite Hrun. destruct fuel as [|fuel]; [simpl in Hfuel; lia|].
    exists w1. split; [|exact Hp].
    unfold Vocabulary.chain_links. cbn [map concat fst snd]. by rewrite app_nil_r.
  - destruct Hnext as (a & h & Ha & Hh & Hj).
    destruct (all_books_data_page fuel bc u n w r (Some u') Hu Hnet Hpods)
      as (w1 & Hrun & Hn & _ & Hp).
    { rewrite Ha. by exists h, u'. }
    rewrite Hrun.
    destruct (IH fuel (grouped bc (records_of (net w) (pod_links u (pods (page r)))))
                (n + 1)%Z w1) as (w' & Hrun' & Hp'); [done| by rewrite Hn | simpl in *; lia |].
    cbn [head fmap option_fmap option_map fst] in Hrun'. rewrite Hrun'.
    exists w'. split.
    + rewrite Hn, grouped_app, <- records_of_app. reflexivity.
    + rewrite Hp', Hp. cbn [map fst]. by rewrite <- app_assoc.
Qed.

(** X5: without a page budget, [scrape_all_books] of all_books_data.py
    follows the next links from the start page to the last page of the
    chain and returns: the pages announced are those of the chain, in
    order, and the result is the records of the products of all these
    pages, grouped by category.  One unit of fuel per page and one more
    are enough. *)
Theorem crawl_follows_the_chain (start : str) (r : response)
    (rest : list (str * response)) (fuel : nat) (w : world) :
  let pages := (start, r) :: rest in
  listing_chain (net w) pages → (length pages < fuel)%nat →
  ∃ w', all_books_data.scrape_all_books L fuel start None w
        = (Ret (grouped [] (records_of (net w) (chain_links pages))), w')
    ∧ pages_visited w' = pages_visited w ++ map fst pages.
Proof.
  intros pages Hch Hfuel.
  exact (all_books_data_crawl_chain pages fuel [] 1%Z w ltac:(done) Hch Hfuel).
Qed.


(** X6: nothing in all_books_data.py remembers the pages already
    seen.  On a served listing page whose product pods can all be read
    (each has its h3 and a link that can be joined) and whose next link
    leads back to the page itself, and without a page budget, the loop
    of [scrape_all_books] does not end: whatever the fuel, the run uses
    it up. *)
Theorem crawl_without_budget_loops (start : str) (r : response) (a : anchor)
    (h : str) (w : world) (fuel : nat) :
  truthy start = true →
  net w {| url := start; referer := None |} = Reply r →
  Forall (pod_readable L start) (pods (page r)) →
  next_li (page r) = Some (Some a) → a_href a = Some h →
  urljoin L start h = Joined start →
  fst (all_books_data.scrape_all_books L fuel start None w) = OutOfFuel.
Proof.
  intros Hu Hnet Hpods Ha Hh Hj. unfold all_books_data.scrape_all_books.
  generalize (@nil (list N * list (dict str))) as bc. generalize 1%Z as n.
  revert w Hnet. induction fuel as [|fuel IH]; intros w Hnet n bc; [reflexivity|].
  destruct (all_books_data_page fuel bc start n w r (Some start) Hu Hnet Hpods)
    as (w1 & Hrun & Hn & _ & _).
  { rewrite Ha. by exists h, start. }
  rewrite Hrun. apply IH. by rewrite Hn.
Qed.


End Pagination.

(** The two listing pages of the catalogue. *)
Lemma crawl_follows_the_chain_witness :
  ∃ w', all_books_data.scrape_all_books ascii_extern 3 (py "http://x/page-1") None
          (start_world (catalogue server_error))
        = (Ret (grouped []
                  (records_of (serve (catalogue server_error))
                     [py "http://x/attic"; py "http://x/velvet"; py "http://x/soumission"])),
           w')
    ∧ pages_visited w' = [py "http://x/page-1"; py "http://x/page-2"].
Proof.
  apply (crawl_follows_the_chain ascii_extern (py "http://x/page-1")
           {| status := 200; content_type := Some (py "text/html");
              page := listing_page [py "http://x/attic"; py "http://x/velvet";
                                    py "http://x/soumission"] (Some (py "http://x/page-2"));
              chunks := []; stream_exn := None |}
           [(py "http://x/page-2",
             {| status := 200; content_type := Some (py "text/html");
                page := listing_page [] None; chunks := []; stream_exn := None |})]
           3 (start_world (catalogue server_error))).
  - simpl. repeat split; try reflexivity.
    + repeat constructor; intros _; eexists; reflexivity.
    + eexists _, _. repeat split; reflexivity.
    + constructor.
    + by left.
  - simpl. lia.
Defined.

(** A page of two products that names itself as the next one. *)
Lemma crawl_without_budget_loops_witness :
  fst (all_books_data.scrape_all_books ascii_extern 1000 (py "http://x/page-1") None
         (start_world [(py "http://x/page-1",
                        ok (listing_page [py "http://x/attic"; py "http://x/velvet"]
                              (Some (py "http://x/page-1"))));
                       (py "http://x/attic", ok attic)]))
  = OutOfFuel.
Proof.
  eapply (crawl_without_budget_loops ascii_extern); try reflexivity.
  repeat constructor; intros _; eexists; reflexivity.
Defined.

(** ** The page budget *)
Section Budget.
Context (L : extern).

(** One turn of the loop of images_book_data.py: it ends the crawl with
    a result, or goes on to a next page with the budget not yet
    reached; either way one more listing page has been announced. *)
Lemma images_book_data_page (fuel : nat) (max_pages : option Z)
    (bc : dict (list (dict str))) (u : str) (n : Z) (w : world) :
  truthy u = true →
  ∃ bc1 w1,
    pages_visited w1 = pages_visited w ++ [u]
    ∧ (images_book_data.crawl L (S fuel) max_pages bc (Some u) n w = (Ret bc1, w1)
       ∨ (images_book_data.budget_reached max_pages n = false
          ∧ ∃ nxt, images_book_data.crawl L (S fuel) max_pages bc (Some u) n w
                   = images_book_data.crawl L fuel max_pages bc1 (Some nxt) (n + 1)%Z w1)).
Proof.
  intros Hu. rewrite images_book_data_crawl_S, Hu.
  rewrite bind_run, print_run, bind_run.
  match goal with |- context [try_except ?m ?h ?w0] =>
    destruct (try_except_returns m h w0) as (urls & w1 & Hlist);
      [| |assert (Hq1 : quiet (try_except m h))] end.
  { apply terminates_get_book_urls_from_page. }
  { intros e w1. by eexists _, _. }
  { step_quiet. apply quiet_get_book_urls_from_page. }
  rewrite Hlist, bind_run, print_run, bind_run.
  match goal with |- context [images_book_data.visit_books L urls ?i ?k ?b ?w0] =>
    destruct (images_book_data_visit_books_returns L urls i k b w0)
      as (bc1 & w2 & Hvisit);
    pose proof (quiet_visit_books L urls i k b w0) as Hq2 end.
  rewrite Hvisit in Hq2 |- *. cbn [snd] in Hq2.
  rewrite pages_visited_app in Hq2. cbn [omap list_omap] in Hq2.
  rewrite app_nil_r in Hq2.
  match type of Hlist with _ ?w0 = _ => specialize (Hq1 w0) end.
  rewrite Hlist in Hq1. cbn [snd] in Hq1. rewrite pages_visited_app in Hq1.
  cbn [omap list_omap] in Hq1. rewrite Hq1 in Hq2. clear Hq1.
  destruct (images_book_data.budget_reached max_pages n) eqn:Hb.
  - rewrite bind_run, print_run. eexists _, _. split; [|left; reflexivity].
    by rewrite pages_visited_app, Hq2, app_nil_r.
  - rewrite bind_run.
    match goal with |- context [try_except ?m ?h ?w0] =>
      destruct (try_except_returns m h w0) as (nxt & w3 & Hnext);
        [| |assert (Hq3 : quiet (try_except m h))] end.
    { unfold images_book_data.get_next_page_url. step_terminates. }
    { intros e w3. by eexists _, _. }
    { unfold images_book_data.get_next_page_url. step_quiet. }
    rewrite Hnext. specialize (Hq3 w2). rewrite Hnext in Hq3. cbn [snd] in Hq3.
    destruct nxt as [nxt|]; cbn [truthy_opt]; [destruct (truthy nxt)|];
      rewrite bind_run, print_run; eexists _, _.
    + split; [|right; split; [done|exists nxt; reflexivity]].
      by rewrite pages_visited_app, Hq3, Hq2, app_nil_r.
    + split; [|left; reflexivity].
      by rewrite pages_visited_app, Hq3, Hq2, app_nil_r.
    + split; [|left; reflexivity].
      by rewrite pages_visited_app, Hq3, Hq2, app_nil_r.
Qed.

(** With a budget [m], [k] turns are enough once [m - n < k]. *)
Lemma images_book_data_crawl_bounded (m : Z) (k : nat) :
  ∀ (fuel : nat) (bc : dict (list (dict str))) (cur : option str) (n : Z) (w : world),
    (1 ≤ k ≤ fuel)%nat → (m - n < Z.of_nat k)%Z →
    ∃ bc' w', images_book_data.crawl L fuel (Some m) bc cur n w = (Ret bc', w')
      ∧ (length (pages_visited w') ≤ length (pages_visited w) + k)%nat.
Proof.
  induction k as [|k IH]; intros fuel bc cur n w Hk Hm; [lia|].
  destruct fuel as [|fuel]; [lia|].
  destruct (truthy_opt cur) eqn:Hcur.
  2: { cbn [images_book_data.crawl]. rewrite Hcur. eexists _, _. split; [reflexivity|lia]. }
  destruct cur as [u|]; [|discriminate]. cbn [truthy_opt] in Hcur.
  destruct (images_book_data_page fuel (Some m) bc u n w Hcur)
    as (bc1 & w1 & Hp & [Hrun | (Hb & nxt & Hrun)]); rewrite Hrun.
  - eexists _, _. split; [reflexivity|]. rewrite Hp, length_app. simpl. lia.
  - unfold images_book_data.budget_reached in Hb.
    apply bool_decide_eq_false in Hb.
    destruct (IH fuel bc1 (Some nxt) (n + 1)%Z w1) as (bc' & w' & Hrun' & Hlen);
      [lia|lia|].
    eexists _, _. split; [exact Hrun'|]. rewrite Hp, length_app in Hlen. simpl in Hlen. lia.
Qed.

(** No exception leaves the loop of images_book_data.py. *)
Lemma images_book_data_crawl_no_exception (fuel : nat) :
  ∀ (max_pages : option Z) (bc : dict (list (dict str))) (cur : option str) (n : Z)
    (w : world) (e : exn),
    fst (images_book_data.crawl L fuel max_pages bc cur n w) ≠ Raise e.
Proof.
  induction fuel as [|fuel IH]; intros mp bc cur n w e; [discriminate|].
  destruct (truthy_opt cur) eqn:Hcur.
  2: { cbn [images_book_data.crawl]. rewrite Hcur. discriminate. }
  destruct cur as [u|]; [|discriminate]. cbn [truthy_opt] in Hcur.
  destruct (images_book_data_page fuel mp bc u n w Hcur)
    as (bc1 & w1 & Hp & [Hrun | (Hb & nxt & Hrun)]); rewrite Hrun;
    [discriminate|apply IH].
Qed.

(** X7: [scrape_all_books] of images_book_data.py never raises,
    whatever the site answers and whatever the budget; and with a page
    budget [m] it returns after at most [max 1 m] listing pages: that
    much fuel is enough, and no more pages than that are announced. *)
Theorem images_book_data_crawl_is_bounded (start : str) (w : world) :
  (∀ fuel max_pages e,
     fst (images_book_data.scrape_all_books L fuel start max_pages w) ≠ Raise e)
  ∧ (∀ m : Z,
       let pages := Z.to_nat (Z.max 1 m) in
       ∃ bc w', images_book_data.scrape_all_books L pages start (Some m) w
                = (Ret bc, w')
         ∧ (length (pages_visited w') ≤ length (pages_visited w) + pages)%nat).
Proof.
  split.
  - intros fuel mp e. apply images_book_data_crawl_no_exception.
  - intros m pages. apply images_book_data_crawl_bounded; subst pages; lia.
Qed.


End Budget.


(** ** Fetching an image in images_book_data.py *)
Section Retry.
Context (L : extern).

(** X9: the retry of [save_image] in images_book_data.py, on a system
    that accepts the folder and the destination.  When the file is not
    there yet and the first request, sent without Referer, is answered
    with an error status, a second request is sent, with the Referer if
    one is given, and its outcome is the outcome of the call: the path
    and the body in the file when it succeeds, its exception otherwise.
    A failure of the transport on the first request is not retried: the
    exception leaves the function after one request and the files are
    untouched. *)
Theorem save_image_retries_on_http_error (w : world)
    (image_url category upc title : str) (referer_url : option str) :
  let dest := images_book_data.dest_path_of L image_url category upc title in
  let call := images_book_data.save_image L image_url category upc title referer_url in
  let rq0 := {| url := image_url; referer := None |} in
  let rq1 := {| url := image_url;
                referer := if truthy_opt referer_url then referer_url else None |} in
  truthy image_url = true → files w !! dest = None →
  refuses L (images_book_data.folder_of category) = false →
  refuses L dest = false →
  (∀ r0, net w rq0 = Reply r0 → ¬ passes r0 →
     ∃ w', trace w' = trace w ++ [Get rq0; Get rq1]
       ∧ match net w rq1 with
         | NetFail e => call w = (Raise e, w') ∧ files w' = files w
         | Reply r1 =>
             if bool_decide (passes r1) then
               call w = (match stream_exn r1 with
                         | Some e => Raise e
                         | None => Ret dest
                         end, w')
               ∧ files w' !! dest = Some (Bytes (concat (chunks r1)))
             else
               call w = (Raise (HTTPError (status r1)), w') ∧ files w' = files w
         end)
  ∧ (∀ e, net w rq0 = NetFail e → (∀ s, e ≠ HTTPError s) →
       ∃ w', call w = (Raise e, w') ∧ trace w' = trace w ++ [Get rq0]
         ∧ files w' = files w).
Proof.
  intros dest call rq0 rq1 Hu Hd Hfolder Hdest. subst call rq0.
  rewrite images_book_data_save_image_start by done. fold dest.
  rewrite Hd, bool_decide_eq_false_2 by (intros [? ?]; discriminate).
  rewrite try_except_HTTPError_run, bind_run.
  destruct (fetch_to_run L {| url := image_url; referer := None |} dest w Hdest)
    as (w1 & Ht1 & Hn1 & H1).
  split.
  - intros r0 Hnet Hp.
    rewrite Hnet, bool_decide_eq_false_2 in H1 by done.
    destruct H1 as [Hrun1 Hf1]. rewrite Hrun1, bind_run.
    destruct (fetch_to_run L rq1 dest w1 Hdest) as (w2 & Ht2 & Hn2 & H2).
    exists w2. split; [by rewrite Ht2, Ht1, <- app_assoc|].
    rewrite Hn1 in H2. fold rq1. destruct (net w rq1) as [e|r1].
    + destruct H2 as [-> ->]. done.
    + case_bool_decide.
      * destruct H2 as [-> ->]. split; [|done]. by destruct (stream_exn r1).
      * destruct H2 as [-> ->]. done.
  - intros e Hnet He.
    rewrite Hnet in H1. destruct H1 as [Hrun1 Hf1]. rewrite Hrun1.
    exists w1. split; [|done].
    destruct e as [| |s| | | |]; try reflexivity. by destruct (He s).
Qed.

End Retry.

(** A server that answers 500 twice. *)
Lemma save_image_retries_on_http_error_witness :
  let dest := py "books_images/Poetry/a897fe39b1053632.jpg" in
  let rq := {| url := py "http://x/a.jpg"; referer := None |} in
  ∃ w', images_book_data.save_image ascii_extern (py "http://x/a.jpg") (py "Poetry")
          (py "a897fe39b1053632") (py "A Light in the Attic") None
          (start_world [(py "http://x/a.jpg", server_error)])
        = (Raise (HTTPError 500), w')
    ∧ trace w' = [Get rq; Get rq].
Proof.
  intros dest rq.
  destruct (save_image_retries_on_http_error ascii_extern
              (start_world [(py "http://x/a.jpg", server_error)])
              (py "http://x/a.jpg") (py "Poetry") (py "a897fe39b1053632")
              (py "A Light in the Attic") None eq_refl eq_refl eq_refl eq_refl)
    as [H _].
  destruct (H {| status := 500; content_type := Some (py "text/html");
                 page := empty_soup; chunks := []; stream_exn := None |} eq_refl)
    as (w' & Ht & Hm).
  { unfold passes. simpl. lia. }
  exists w'. split; [exact (proj1 Hm)|exact Ht].
Defined.

(** ** The image log of test2_image.py *)
Section ImageLog.
Context (L : extern).
Local Abbreviation image_type := (Vocabulary.image_type L).
Local Abbreviation final_path := (Vocabulary.final_path L).
Local Abbreviation storable := (Vocabulary.storable L).

Lemma truthy_path_join (a b : str) : truthy (path_join a b) = true.
Proof. unfold path_join. by destruct a. Qed.

Lemma requested_trace (w w' : world) (evs : list event) :
  trace w' = trace w ++ evs →
  requested w'
  = requested w
    ++ omap (λ ev, match ev with Get rq => Some (url rq) | Print _ => None end) evs.
Proof. unfold requested. intros ->. by rewrite omap_app. Qed.

Lemma requested_same (w w' : world) :
  trace w' = trace w → requested w' = requested w.
Proof. unfold requested. by intros ->. Qed.

(** [store_response] with what it puts in the record. *)
Lemma store_response_record (r : response) (folder base_name ext : str)
    (record : test2_image.log_record) (w : world) :
  let final := path_join folder
                 (base_name ++ test2_image.guess_ext_from_ct L
                                 (default [] (content_type r)) ext) in
  ∃ o w', test2_image.store_response L r folder base_name ext record w = (o, w')
    ∧ net w' = net w ∧ requested w' = requested w
    ∧ (∀ q, q ≠ final → q ≠ final ++ py ".part" → files w' !! q = files w !! q)
    ∧ match o with
      | Ret record' =>
          storable r final = true
          ∧ test2_image.image_path record' = final
          ∧ test2_image.downloaded record' = true
          ∧ test2_image.image_url record' = test2_image.image_url record
          ∧ test2_image.product_page_url record'
            = test2_image.product_page_url record
          ∧ test2_image.bytes record' = length (concat (chunks r))
          ∧ files w' !! final = Some (Bytes (concat (chunks r)))
      | Raise _ =>
          storable r final = false
          ∧ files w' !! final = files w !! final
      | OutOfFuel => False
      end.
Proof.
  intros final. unfold test2_image.store_response, Vocabulary.storable, arrives_whole.
  rewrite bind_run. destruct (passes_dec r) as [Hp|Hp].
  - rewrite raise_for_status_passes, bool_decide_eq_true_2 by done.
    fold (image_type r). destruct (image_type r);
      [change (negb true) with false | change (negb false) with true];
      cbv beta iota zeta.
    + fold final. rewrite bind_run.
      destruct (refuses L (final ++ py ".part")) eqn:Htmp.
      { rewrite (write_stream_refused L) by done. rewrite andb_false_r.
        eexists _, _. split; [reflexivity|]. by repeat split. }
      destruct (write_stream_spec L (final ++ py ".part") r w Htmp)
        as (w2 & Hrun & Hn & Ht & Hp2 & Hq).
      rewrite Hrun. destruct (stream_exn r) as [e|]; simpl andb; cbv iota.
      * eexists _, w2. split; [reflexivity|]. split; [done|].
        split; [by apply requested_same|].
        split; [by intros q _ ?; apply Hq|]. split; [done|].
        apply Hq, part_is_another_path.
      * rewrite bind_run, os_replace_run.
        destruct (refuses L final) eqn:Hfinal; cbn [negb].
        -- eexists _, w2. split; [reflexivity|]. split; [done|].
           split; [by apply requested_same|].
           split; [by intros q _ ?; apply Hq|]. split; [done|].
           apply Hq, part_is_another_path.
        -- rewrite Hp2. cbv beta iota.
           rewrite bind_run, print_run. eexists _, _. split; [reflexivity|].
           cbn [net files trace]. split; [done|].
           split; [unfold requested; cbn [trace]; rewrite Ht, omap_app;
                   cbn [omap list_omap]; by rewrite app_nil_r|].
           cbn [test2_image.image_path test2_image.downloaded test2_image.image_url
                test2_image.product_page_url test2_image.bytes].
           split.
           ++ intros q Hq1 Hq2. rewrite lookup_insert_ne, lookup_delete_ne by done.
              by apply Hq.
           ++ repeat split; try done. apply lookup_insert_eq.
    + rewrite !andb_false_r. eexists _, _. split; [reflexivity|]. by repeat split.
  - rewrite raise_for_status_fails, bool_decide_eq_false_2 by done. simpl.
    eexists _, _. split; [reflexivity|]. by repeat split.
Qed.

(** [save_image] of test2_image.py when it has to fetch: one request,
    one record, and the files as [store_response] leaves them. *)
Lemma save_image_fetch (w : world)
    (image_url category upc title referer_url : str)
    (images_log : list test2_image.log_record) :
  let dest0 := path_join (test2_image.folder_of category)
                 (test2_image.base_name_of upc title ++ test2_image.ext_of L image_url) in
  let rq := {| url := image_url;
               referer := if truthy referer_url then Some referer_url else None |} in
  truthy image_url = true →
  refuses L (test2_image.folder_of category) = false →
  cached_at w dest0 = false →
  ∃ o record w',
    test2_image.save_image L image_url category upc title referer_url images_log w
    = (Ret (o, images_log ++ [record]), w')
    ∧ net w' = net w ∧ requested w' = requested w ++ [image_url]
    ∧ test2_image.image_path record = o
    ∧ test2_image.downloaded record = truthy o
    ∧ test2_image.image_url record = image_url
    ∧ test2_image.product_page_url record = referer_url
    ∧ match net w rq with
      | NetFail _ => o = [] ∧ files w' = files w
      | Reply r =>
          let final := final_path image_url category upc title r in
          (∀ q, q ≠ final → q ≠ final ++ py ".part" → files w' !! q = files w !! q)
          ∧ if storable r final
            then o = final ∧ files w' !! final = Some (Bytes (concat (chunks r)))
            else o = [] ∧ files w' !! final = files w !! final
      end.
Proof.
  intros dest0 rq Hurl Hfolder Hc. unfold test2_image.save_image.
  rewrite Hurl. change (negb true) with false. cbv beta iota zeta. fold dest0.
  rewrite bind_run, makedirs_run, Hfolder.
  rewrite bind_run, exists_run, bind_run, getsize_run, cached_at_alt, Hc.
  cbv beta iota. fold rq.
  rewrite bind_run, try_except_run, bind_run, http_get_run.
  destruct (net w rq) as [e|r] eqn:Hnet.
  - cbv beta iota. unfold ret at 1. cbv beta iota.
    rewrite bind_run, bind_run, print_run.
    eexists _, _, _. split; [reflexivity|]. cbn [net files trace].
    rewrite <- app_assoc, requested_app. by repeat split.
  - cbv beta iota. unfold ret at 1. cbv beta iota. rewrite bind_run, try_except_run.
    match goal with |- context [test2_image.store_response L r ?f ?b ?e ?rec ?w1] =>
      destruct (store_response_record r f b e rec w1)
        as (o & w' & Hrun & Hn & Hr & Hq & Hcases)
    end.
    rewrite Hrun. unfold final_path. rewrite requested_app in Hr.
    cbn [omap list_omap url app] in Hr.
    destruct o as [record'|e|]; [| |done].
    + destruct Hcases as (-> & Hpath & Hd & Hu & Hpp & _ & Hfile).
      eexists _, _, _. split; [reflexivity|]. cbn [net files trace fst snd].
      rewrite Hpath, Hd, Hu, Hpp, truthy_path_join. by repeat split.
    + destruct Hcases as (-> & Hfile). rewrite bind_run, print_run.
      eexists _, _, _. split; [reflexivity|]. cbn [net files trace].
      rewrite requested_app, Hr. cbn [omap list_omap]. rewrite app_nil_r.
      by repeat split.
Qed.

(** [save_image] of test2_image.py returns whenever the folder can be
    made or the image URL is empty, with one record more in the log. *)
Lemma test2_image_save_image_logs (w : world)
    (image_url category upc title referer_url : str)
    (images_log : list test2_image.log_record) :
  truthy image_url = false ∨ refuses L (test2_image.folder_of category) = false →
  ∃ o record w',
    test2_image.save_image L image_url category upc title referer_url images_log w
    = (Ret (o, images_log ++ [record]), w')
    ∧ test2_image.image_path record = o
    ∧ test2_image.downloaded record = truthy o
    ∧ test2_image.image_url record = image_url
    ∧ test2_image.product_page_url record = referer_url
    ∧ net w' = net w
    ∧ (requested w' = requested w ∨ requested w' = requested w ++ [image_url]).
Proof.
  intros Hok. destruct (truthy image_url) eqn:Hurl.
  2: { unfold test2_image.save_image. rewrite Hurl. eexists _, _, _.
       split; [reflexivity|]. repeat split; by left. }
  destruct Hok as [?|Hfolder]; [done|].
  set (dest0 := path_join (test2_image.folder_of category)
                  (test2_image.base_name_of upc title ++ test2_image.ext_of L image_url)).
  destruct (cached_at w dest0) eqn:Hc.
  - unfold test2_image.save_image.
    rewrite Hurl. change (negb true) with false. cbv beta iota zeta. fold dest0.
    rewrite bind_run, makedirs_run, Hfolder.
    rewrite bind_run, exists_run, bind_run, getsize_run, cached_at_alt, Hc.
    cbv beta iota. rewrite bind_run, print_run.
    eexists _, _, _. split; [reflexivity|]. cbn [net files trace fst snd].
    cbn [test2_image.image_path test2_image.downloaded test2_image.image_url
         test2_image.product_page_url].
    assert (Hd : truthy dest0 = true) by apply truthy_path_join.
    rewrite Hd, requested_app. cbn [omap list_omap].
    rewrite app_nil_r. repeat split; by left.
  - destruct (save_image_fetch w image_url category upc title referer_url images_log
                Hurl Hfolder Hc)
      as (o & record & w' & Hrun & Hn & Hr & H1 & H2 & H3 & H4 & _).
    exists o, record, w'. repeat split; try done. by right.
Qed.

(** X10: [save_image] of test2_image.py makes the folder of the
    category before its [try].  With a non-empty image URL and a folder
    the system refuses, the call raises OSError and nothing is logged.
    In every other case it does not raise and appends exactly one record
    to [images_log]: the record holds the image URL and the product page
    it was called with, its path is the path returned, and it is marked
    as downloaded exactly when that path is not empty; a call makes one
    request at most. *)
Theorem save_image_logs_every_call (w : world)
    (image_url category upc title referer_url : str)
    (images_log : list test2_image.log_record) :
  let call := test2_image.save_image L image_url category upc title referer_url
                images_log in
  if truthy image_url && refuses L (test2_image.folder_of category) then
    call w = (Raise (OSError (test2_image.folder_of category)), w)
  else
    ∃ o record w',
      call w = (Ret (o, images_log ++ [record]), w')
      ∧ test2_image.image_path record = o
      ∧ test2_image.downloaded record = truthy o
      ∧ test2_image.image_url record = image_url
      ∧ test2_image.product_page_url record = referer_url
      ∧ net w' = net w
      ∧ (requested w' = requested w ∨ requested w' = requested w ++ [image_url]).
Proof.
  intros call.
  destruct (truthy image_url) eqn:Hurl;
    [destruct (refuses L (test2_image.folder_of category)) eqn:Hfolder|];
    cbn [andb].
  - by apply test2_image_save_image_refused.
  - apply test2_image_save_image_logs. by right.
  - apply test2_image_save_image_logs. by left.
Qed.

(** X11: the cache test of [save_image] in test2_image.py looks for
    the file under the extension of the URL, but the file is stored
    under the extension of the Content-Type.  When the two differ, a
    call that stores the image (the folder, the temporary path and the
    destination being accepted) leaves nothing at the path the next
    call looks at, so the next call fetches the image again. *)
Theorem save_image_fetches_again_under_another_extension (w : world)
    (image_url category upc title referer_url : str)
    (images_log : list test2_image.log_record) (r : response) :
  let ext := test2_image.ext_of L image_url in
  let guessed_ext := test2_image.guess_ext_from_ct L (default [] (content_type r)) ext in
  let dest0 := path_join (test2_image.folder_of category)
                 (test2_image.base_name_of upc title ++ ext) in
  let final := final_path image_url category upc title r in
  let rq := {| url := image_url;
               referer := if truthy referer_url then Some referer_url else None |} in
  let call := test2_image.save_image L image_url category upc title referer_url in
  truthy image_url = true →
  refuses L (test2_image.folder_of category) = false →
  cached_at w dest0 = false →
  net w rq = Reply r → storable r final = true →
  guessed_ext ≠ ext → ext ≠ guessed_ext ++ py ".part" →
  ∃ record1 w1 record2 w2,
    call images_log w = (Ret (final, images_log ++ [record1]), w1)
    ∧ files w1 !! final = Some (Bytes (concat (chunks r)))
    ∧ call (images_log ++ [record1]) w1
      = (Ret (final, images_log ++ [record1; record2]), w2)
    ∧ requested w2 = requested w ++ [image_url; image_url].
Proof.
  intros ext guessed_ext dest0 final rq call Hurl Hfolder Hc Hnet Hok Hext Hpart.
  assert (Hne1 : dest0 ≠ final).
  { unfold dest0, final, Vocabulary.final_path, path_join.
    intros E. apply app_inv_head in E. injection E as E.
    apply app_inv_head in E. by apply Hext. }
  assert (Hne2 : dest0 ≠ final ++ py ".part").
  { unfold dest0, final, Vocabulary.final_path, path_join.
    rewrite <- app_assoc. cbn [app]. rewrite <- app_assoc.
    intros E. apply app_inv_head in E. injection E as E.
    apply app_inv_head in E. by apply Hpart. }
  destruct (save_image_fetch w image_url category upc title referer_url images_log
              Hurl Hfolder Hc)
    as (o1 & record1 & w1 & Hrun1 & Hn1 & Hr1 & _ & _ & _ & _ & H1).
  fold rq in H1. rewrite Hnet in H1. cbv zeta in H1. fold final in H1.
  rewrite Hok in H1.
  destruct H1 as (Hq & -> & Hfile).
  assert (Hc1 : cached_at w1 dest0 = false).
  { unfold cached_at in *. by rewrite Hq. }
  destruct (save_image_fetch w1 image_url category upc title referer_url
              (images_log ++ [record1]) Hurl Hfolder Hc1)
    as (o2 & record2 & w2 & Hrun2 & Hn2 & Hr2 & _ & _ & _ & _ & H2).
  fold rq in H2. rewrite Hn1, Hnet in H2. cbv zeta in H2. fold final in H2.
  rewrite Hok in H2.
  destruct H2 as (_ & -> & _).
  exists record1, w1, record2, w2. subst call.
  rewrite Hrun1, Hrun2, Hr2, Hr1, <- !app_assoc. done.
Qed.

End ImageLog.

(** A category of 300 letters on a system that refuses names of more
    than 255: the folder cannot be made, and the call raises before
    anything is logged. *)
Lemma save_image_logs_every_call_witness :
  test2_image.save_image strict_extern (py "http://x/a.jpg") (repeat 97 300)
    (py "a897fe39b1053632") (py "A Light in the Attic") (py "http://x/attic") []
    (start_world [(py "http://x/a.jpg", image false)])
  = (Raise (OSError (test2_image.folder_of (repeat 97 300))),
     start_world [(py "http://x/a.jpg", image false)]).
Proof.
  exact (save_image_logs_every_call strict_extern
           (start_world [(py "http://x/a.jpg", image false)])
           (py "http://x/a.jpg") (repeat 97 300) (py "a897fe39b1053632")
           (py "A Light in the Attic") (py "http://x/attic") []).
Defined.

(** A JPEG served at an address that ends in [.png]. *)
Lemma save_image_fetches_again_under_another_extension_witness :
  let call := test2_image.save_image ascii_extern (py "http://x/a.png") (py "Poetry")
                (py "a897fe39b1053632") (py "A Light in the Attic")
                (py "http://x/attic") in
  let final := py "books_images/Poetry/a897fe39b1053632.jpg" in
  ∃ record1 w1 record2 w2,
    call [] (start_world [(py "http://x/a.png", image false)])
    = (Ret (final, [record1]), w1)
    ∧ files w1 !! final = Some (Bytes [255; 216; 255; 217])
    ∧ call [record1] w1 = (Ret (final, [record1; record2]), w2)
    ∧ requested w2 = [py "http://x/a.png"; py "http://x/a.png"].
Proof.
  apply (save_image_fetches_again_under_another_extension ascii_extern
           (start_world [(py "http://x/a.png", image false)])
           (py "http://x/a.png") (py "Poetry") (py "a897fe39b1053632")
           (py "A Light in the Attic") (py "http://x/attic") []
           {| status := 200; content_type := Some (py "image/jpeg");
              page := empty_soup; chunks := [[255; 216; 255]; [217]];
              stream_exn := None |});
    try reflexivity; vm_compute; discriminate.
Defined.

(** ** Fetchers and extractors side by side *)
Section Extractors.
Context (L : extern).

(** X12: [download_image] of books_data_images.py makes the folder of
    the category before its [try].  With a non-empty image URL and a
    folder the system refuses, the call raises OSError.  In every other
    case it does not raise: it returns the empty path or the
    destination path, and when it returns the destination a file exists
    there; it makes one request at most. *)
Theorem download_image_raises_only_on_the_folder (w : world)
    (image_url category upc title referer_url : str) :
  let dest := books_data_images.dest_of category upc title in
  let call := books_data_images.download_image L image_url category upc title
                referer_url in
  if truthy image_url && refuses L (books_data_images.folder_of category) then
    call w = (Raise (OSError (books_data_images.folder_of category)), w)
  else
    ∃ o w',
      call w = (Ret o, w')
      ∧ net w' = net w
      ∧ (requested w' = requested w ∨ requested w' = requested w ++ [image_url])
      ∧ (o = [] ∨ o = dest ∧ dest ≠ [] ∧ is_Some (files w' !! dest)).
Proof.
  intros dest call. destruct (truthy image_url) eqn:Hurl; cbn [andb].
  2: { subst call. unfold books_data_images.download_image. rewrite Hurl.
       eexists _, _. split; [reflexivity|]. repeat split; by left. }
  destruct (refuses L (books_data_images.folder_of category)) eqn:Hfolder.
  { by apply download_image_refused. }
  destruct (download_image_cases L w image_url category upc title referer_url
              Hurl Hfolder) as (o & w' & Hrun & H). fold dest in H.
  assert (Hd : dest ≠ []).
  { intros E. pose proof (truthy_path_join
      (path_join books_data_images.IMAGES_DIR (cleaner (Some category)))
      (cleaner (Some (or_else upc (or_else title (py "image")))) ++ py ".jpg")) as T.
    unfold dest, books_data_images.dest_of, books_data_images.folder_of in E.
    by rewrite E in T. }
  exists o, w'. split; [exact Hrun|].
  destruct (cached_at w dest) eqn:Hc.
  - destruct H as [-> ->]. split; [done|]. split; [by left|]. right.
    split; [done|]. split; [done|]. unfold cached_at in Hc.
    destruct (files w !! dest); [by eexists|done].
  - destruct H as (Ht & Hn & _ & H). split; [done|].
    split; [right; by rewrite (requested_trace w w' _ Ht)|].
    destruct (net w _) as [e|r]; [left; apply H|].
    destruct (bool_decide (passes r) && negb (refuses L (dest ++ py ".part")));
      [|left; apply H].
    destruct (stream_exn r); [left; apply H|].
    destruct (refuses L dest); [left; apply H|].
    destruct H as [-> H]. right. split; [done|]. split; [done|]. by eexists.
Qed.

(** The image source as the two extractors read it. *)
Lemma img_src_agree (p : soup) :
  match gallery_img p with
  | Some img => strip (default [] img)
  | None => []
  end
  = match gallery_img p with
    | Some (Some src) => strip src
    | _ => []
    end.
Proof. by destruct (gallery_img p) as [[?|]|]. Qed.

(** The join of the image source, when it can be joined. *)
Lemma image_url_run (u : str) (p : soup) (w : world) :
  stripped_image_joins L u p →
  let src := match gallery_img p with
             | Some (Some src) => strip src
             | _ => []
             end in
  ∃ j, (if truthy src then join L u src else ret []) w = (Ret j, w).
Proof.
  intros Hj src. subst src.
  destruct (gallery_img p) as [[src|]|] eqn:Hg;
    [destruct (truthy (strip src)) eqn:Hsrc|..]; try by eexists.
  destruct (Hj src Hg Hsrc) as [j Hjoin].
  exists j. by rewrite join_run, Hjoin.
Qed.

(** X13: a product page that is served but has no heading under
    [div.product_main], and whose image source, if it has one, can be
    joined to its address.  [extract_book_data] of test2_image.py
    returns a record with an empty title and the nine keys of the
    export (all but [image_path]); [extract_book_data] of
    books_data_images.py raises AttributeError on the same page. *)
Theorem extract_book_data_without_heading (w : world) (u : str) (r : response) :
  net w {| url := u; referer := None |} = Reply r → passes r →
  main_h1 (page r) = None →
  stripped_image_joins L u (page r) →
  (∃ d w', test2_image.extract_book_data L u w = (Ret d, w')
     ∧ item "title" d = []
     ∧ map fst d ++ [py "image_path"] = books_data_images.cols)
  ∧ (∃ w', books_data_images.extract_book_data L u w = (Raise AttributeError, w')).
Proof.
  intros Hnet Hp Hh Hj. split.
  - unfold test2_image.extract_book_data.
    rewrite bind_run, test2_image_get_soup with (r := r) by done.
    cbv beta iota zeta. rewrite Hh, img_src_agree, bind_run.
    match goal with |- context [(if ?c then ?a else ?b) ?w1] =>
      destruct (image_url_run u (page r) w1 Hj) as [j ->] end.
    eexists _, _. split; [reflexivity|]. by split.
  - unfold books_data_images.extract_book_data.
    rewrite bind_run, books_data_images_get_soup with (r := r) by done.
    cbv beta iota. rewrite bind_run, Hh. by eexists.
Qed.

(** On rows that have both cells the two table scans do the same. *)
Lemma scan_rows_agree (rows : list row) (specs : gmap (list N) (list N)) :
  Forall (λ tr, is_Some (books_data_images.find_cell Th tr)
                ∧ is_Some (books_data_images.find_cell Td tr)) rows →
  foldl test2_image.scan_row specs rows = foldl books_data_images.scan_row specs rows.
Proof.
  intros H. revert specs. induction H as [|tr rows [[th Hth] [td Htd]] _ IH];
    intros specs; [done|].
  cbn [foldl]. rewrite IH. f_equal.
  unfold test2_image.scan_row, books_data_images.scan_row, books_data_images.key_value.
  unfold test2_image.find_cell. unfold books_data_images.find_cell in Hth, Htd |- *.
  by rewrite Hth, Htd.
Qed.

(** X14: on a product page that is served, has its heading, whose
    table rows all have a header cell and a data cell, and whose image
    source, if it has one, can be joined to its address,
    [extract_book_data] of test2_image.py and of books_data_images.py
    return records with the same keys that agree on every field but
    the two prices (whose currency literals differ). *)
Theorem extractors_agree_on_whole_rows (w : world) (u : str) (r : response) :
  net w {| url := u; referer := None |} = Reply r → passes r →
  is_Some (main_h1 (page r)) →
  Forall (λ tr, is_Some (books_data_images.find_cell Th tr)
                ∧ is_Some (books_data_images.find_cell Td tr))
         (concat (tables (page r))) →
  stripped_image_joins L u (page r) →
  ∃ d1 d2 w',
    test2_image.extract_book_data L u w = (Ret d1, w')
    ∧ books_data_images.extract_book_data L u w = (Ret d2, w')
    ∧ map fst d1 = map fst d2
    ∧ ∀ k, k ≠ py "price_incl_tax_gbp" → k ≠ py "price_excl_tax_gbp" →
           dict_get k d1 = dict_get k d2.
Proof.
  intros Hnet Hp [t Ht] Hrows Hj.
  unfold test2_image.extract_book_data, books_data_images.extract_book_data.
  rewrite !bind_run, test2_image_get_soup with (r := r) by done.
  rewrite books_data_images_get_soup with (r := r) by done.
  cbv beta iota zeta. rewrite Ht, bind_ret, img_src_agree, !bind_run.
  match goal with |- context [(if ?c then ?a else ?b) ?w1] =>
    destruct (image_url_run u (page r) w1 Hj) as [j ->] end.
  eexists _, _, _. split; [reflexivity|]. split; [reflexivity|]. split; [reflexivity|].
  intros k Hk1 Hk2. unfold books_data_images.specs_of.
  rewrite scan_rows_agree by done.
  cbn [dict_get]. unfold str_eqb.
  repeat (case_bool_decide; [try done|]); try done.
  all: cbn [test2_image.extract_text]; try done.
  all: try (destruct (description (page r)) as [[?|]|]; done).
Qed.

End Extractors.

(** A category of 300 letters on a system that refuses names of more
    than 255: the folder cannot be made, and the call raises. *)
Lemma download_image_raises_only_on_the_folder_witness :
  books_data_images.download_image strict_extern (py "http://x/a.jpg")
    (repeat 97 300) (py "a897fe39b1053632") (py "A Light in the Attic")
    (py "http://x/attic") (start_world [(py "http://x/a.jpg", image false)])
  = (Raise (OSError (books_data_images.folder_of (repeat 97 300))),
     start_world [(py "http://x/a.jpg", image false)]).
Proof.
  exact (download_image_raises_only_on_the_folder strict_extern
           (start_world [(py "http://x/a.jpg", image false)])
           (py "http://x/a.jpg") (repeat 97 300) (py "a897fe39b1053632")
           (py "A Light in the Attic") (py "http://x/attic")).
Defined.

(** A listing page has no product heading. *)
Lemma extract_book_data_without_heading_witness :
  (∃ d w', test2_image.extract_book_data ascii_extern (py "http://x/page-1")
             (start_world [(py "http://x/page-1", ok (listing_page [] None))])
           = (Ret d, w')
     ∧ item "title" d = []
     ∧ map fst d ++ [py "image_path"] = books_data_images.cols)
  ∧ (∃ w', books_data_images.extract_book_data ascii_extern (py "http://x/page-1")
             (start_world [(py "http://x/page-1", ok (listing_page [] None))])
           = (Raise AttributeError, w')).
Proof.
  apply (extract_book_data_without_heading ascii_extern
           (start_world [(py "http://x/page-1", ok (listing_page [] None))])
           (py "http://x/page-1")
           {| status := 200; content_type := Some (py "text/html");
              page := listing_page [] None; chunks := []; stream_exn := None |}).
  - reflexivity.
  - unfold passes. simpl. lia.
  - reflexivity.
  - intros src Hsrc. discriminate Hsrc.
Defined.

(** The page of A Light in the Attic. *)
Lemma extractors_agree_on_whole_rows_witness :
  ∃ d1 d2 w',
    test2_image.extract_book_data ascii_extern (py "http://x/attic")
      (start_world [(py "http://x/attic", ok attic)]) = (Ret d1, w')
    ∧ books_data_images.extract_book_data ascii_extern (py "http://x/attic")
        (start_world [(py "http://x/attic", ok attic)]) = (Ret d2, w')
    ∧ map fst d1 = map fst d2
    ∧ ∀ k, k ≠ py "price_incl_tax_gbp" → k ≠ py "price_excl_tax_gbp" →
           dict_get k d1 = dict_get k d2.
Proof.
  apply (extractors_agree_on_whole_rows ascii_extern
           (start_world [(py "http://x/attic", ok attic)]) (py "http://x/attic")
           {| status := 200; content_type := Some (py "text/html");
              page := attic; chunks := []; stream_exn := None |}).
  - reflexivity.
  - unfold passes. simpl. lia.
  - by eexists.
  - simpl. repeat (constructor; [split; eexists; reflexivity|]). constructor.
  - intros src Hsrc. discriminate Hsrc.
Defined.

(** ** The crawl of test2_image.py *)
Section Test2Crawl.
Context (L : extern).

Lemma terminates_test2_save_image (image_url category upc title referer_url : str)
    (images_log : list test2_image.log_record) :
  terminates (test2_image.save_image L image_url category upc title referer_url
                images_log).
Proof.
  unfold test2_image.save_image, test2_image.store_response. step_terminates.
Qed.

Lemma quiet_test2_save_image (image_url category upc title referer_url : str)
    (images_log : list test2_image.log_record) :
  quiet (test2_image.save_image L image_url category upc title referer_url images_log).
Proof.
  unfold test2_image.save_image, test2_image.store_response. step_quiet.
Qed.

Lemma terminates_test2_collect_links (u : str) (anchors : list anchor) :
  ∀ links, terminates (test2_image.collect_links L u anchors links).
Proof.
  induction anchors as [|a rest IH]; intros links;
    cbn [test2_image.collect_links]; step_terminates; apply IH.
Qed.

Lemma quiet_test2_collect_links (u : str) (anchors : list anchor) :
  ∀ links, quiet (test2_image.collect_links L u anchors links).
Proof.
  induction anchors as [|a rest IH]; intros links;
    cbn [test2_image.collect_links]; step_quiet; apply IH.
Qed.

Lemma terminates_extract_book_data (u : str) :
  terminates (test2_image.extract_book_data L u).
Proof. unfold test2_image.extract_book_data, test2_image.get_soup. step_terminates. Qed.

Lemma quiet_extract_book_data (u : str) : quiet (test2_image.extract_book_data L u).
Proof. unfold test2_image.extract_book_data, test2_image.get_soup. step_quiet. Qed.

(** The loop over the products of test2_image.py always returns. *)
Lemma test2_image_visit_products_returns (links : list str) :
  ∀ (i n : nat) (bc : dict (list (dict str))) (images_log : list test2_image.log_record)
    (w : world),
    ∃ st w', test2_image.visit_products L links i n bc images_log w = (Ret st, w')
      ∧ pages_visited w' = pages_visited w.
Proof.
  induction links as [|u links IH]; intros i n bc images_log w.
  - by eexists _, _.
  - cbn [test2_image.visit_products]. rewrite bind_run, print_run, bind_run.
    match goal with |- context [try_except ?m ?h ?w1] =>
      destruct (try_except_returns m h w1) as (st & w2 & Hrun);
        [| |assert (Hq : quiet (try_except m h))] end.
    + step_terminates; [apply terminates_extract_book_data
                       |apply terminates_test2_save_image].
    + intros e w1. by eexists _, _.
    + step_quiet; [apply quiet_extract_book_data|apply quiet_test2_save_image].
    + rewrite Hrun.
      destruct (IH (S i) n (fst st) (snd st) w2) as (st' & w' & Hrun' & Hp).
      exists st', w'. split; [exact Hrun'|]. rewrite Hp.
      match type of Hrun with _ ?w0 = _ => specialize (Hq w0) end.
      rewrite Hrun in Hq. cbn [snd] in Hq. rewrite Hq, pages_visited_app.
      cbn [omap list_omap]. by rewrite app_nil_r.
Qed.

Lemma test2_image_crawl_S (fuel : nat) (max_pages : option Z)
    (bc : dict (list (dict str))) (images_log : list test2_image.log_record)
    (u : str) (n : Z) :
  test2_image.crawl L (S fuel) max_pages bc images_log (Some u) n
  = if truthy u then
      (print (MsgPage n u);;
       listing <- try_except
                    (links <- test2_image.parse_listing_product_links L u;;
                     ret (Some links))
                    (λ e, print (MsgListingFailed u e);; ret None);;
       match listing with
       | None => ret (bc, images_log)
       | Some product_links =>
           print (MsgFound (length product_links));;
           st <- test2_image.visit_products L product_links 1 (length product_links)
                   bc images_log;;
           if test2_image.budget_reached max_pages n then
             print (MsgStop (default 0%Z max_pages));;
             ret st
           else
             next_url <- try_except (test2_image.get_next_page_url L u)
                           (λ e, print (MsgNextFailed u e);; ret None);;
             if truthy_opt next_url then
               print MsgNext;;
               test2_image.crawl L fuel max_pages (fst st) (snd st) next_url (n + 1)%Z
             else
               print MsgDone;;
               ret st
       end)
    else ret (bc, images_log).
Proof. reflexivity. Qed.

(** One turn of the loop of test2_image.py. *)
Lemma test2_image_page (fuel : nat) (max_pages : option Z)
    (bc : dict (list (dict str))) (images_log : list test2_image.log_record)
    (u : str) (n : Z) (w : world) :
  truthy u = true →
  ∃ st w1,
    pages_visited w1 = pages_visited w ++ [u]
    ∧ (test2_image.crawl L (S fuel) max_pages bc images_log (Some u) n w = (Ret st, w1)
       ∨ (test2_image.budget_reached max_pages n = false
          ∧ ∃ nxt, test2_image.crawl L (S fuel) max_pages bc images_log (Some u) n w
                   = test2_image.crawl L fuel max_pages (fst st) (snd st) (Some nxt)
                       (n + 1)%Z w1)).
Proof.
  intros Hu. rewrite test2_image_crawl_S, Hu.
  rewrite bind_run, print_run, bind_run.
  match goal with |- context [try_except ?m ?h ?w0] =>
    destruct (try_except_returns m h w0) as (listing & w1 & Hlist);
      [| |assert (Hq1 : quiet (try_except m h))] end.
  { unfold test2_image.parse_listing_product_links, test2_image.get_soup.
    step_terminates. apply terminates_test2_collect_links. }
  { intros e w1. by eexists _, _. }
  { unfold test2_image.parse_listing_product_links, test2_image.get_soup. step_quiet.
    apply quiet_test2_collect_links. }
  rewrite Hlist.
  match type of Hlist with _ ?w0 = _ => specialize (Hq1 w0) end.
  rewrite Hlist in Hq1. cbn [snd] in Hq1. rewrite pages_visited_app in Hq1.
  cbn [omap list_omap] in Hq1.
  destruct listing as [links|]; [|by eexists _, _; split; [|left]].
  rewrite bind_run, print_run, bind_run.
  match goal with |- context [test2_image.visit_products L links ?i ?k ?b ?l ?w0] =>
    destruct (test2_image_visit_products_returns links i k b l w0)
      as (st & w2 & Hvisit & Hq2) end.
  rewrite Hvisit. rewrite pages_visited_app in Hq2. cbn [omap list_omap] in Hq2.
  rewrite app_nil_r, Hq1 in Hq2. clear Hq1.
  destruct (test2_image.budget_reached max_pages n) eqn:Hb.
  - rewrite bind_run, print_run. eexists _, _. split; [|left; reflexivity].
    by rewrite pages_visited_app, Hq2, app_nil_r.
  - rewrite bind_run.
    match goal with |- context [try_except ?m ?h ?w0] =>
      destruct (try_except_returns m h w0) as (nxt & w3 & Hnext);
        [| |assert (Hq3 : quiet (try_except m h))] end.
    { unfold test2_image.get_next_page_url, test2_image.get_soup. step_terminates. }
    { intros e w3. by eexists _, _. }
    { unfold test2_image.get_next_page_url, test2_image.get_soup. step_quiet. }
    rewrite Hnext. specialize (Hq3 w2). rewrite Hnext in Hq3. cbn [snd] in Hq3.
    destruct nxt as [nxt|]; cbn [truthy_opt]; [destruct (truthy nxt)|];
      rewrite bind_run, print_run; eexists _, _.
    + split; [|right; split; [done|exists nxt; reflexivity]].
      by rewrite pages_visited_app, Hq3, Hq2, app_nil_r.
    + split; [|left; reflexivity].
      by rewrite pages_visited_app, Hq3, Hq2, app_nil_r.
    + split; [|left; reflexivity].
      by rewrite pages_visited_app, Hq3, Hq2, app_nil_r.
Qed.

Lemma test2_image_crawl_bounded (m : Z) (k : nat) :
  ∀ (fuel : nat) (bc : dict (list (dict str))) (images_log : list test2_image.log_record)
    (cur : option str) (n : Z) (w : world),
    (1 ≤ k ≤ fuel)%nat → (m - n < Z.of_nat k)%Z →
    ∃ st w', test2_image.crawl L fuel (Some m) bc images_log cur n w = (Ret st, w')
      ∧ (length (pages_visited w') ≤ length (pages_visited w) + k)%nat.
Proof.
  induction k as [|k IH]; intros fuel bc images_log cur n w Hk Hm; [lia|].
  destruct fuel as [|fuel]; [lia|].
  destruct (truthy_opt cur) eqn:Hcur.
  2: { cbn [test2_image.crawl]. rewrite Hcur. eexists _, _. split; [reflexivity|lia]. }
  destruct cur as [u|]; [|discriminate]. cbn [truthy_opt] in Hcur.
  destruct (test2_image_page fuel (Some m) bc images_log u n w Hcur)
    as (st & w1 & Hp & [Hrun | (Hb & nxt & Hrun)]); rewrite Hrun.
  - eexists _, _. split; [reflexivity|]. rewrite Hp, length_app. simpl. lia.
  - unfold test2_image.budget_reached in Hb.
    apply bool_decide_eq_false in Hb.
    destruct (IH fuel (fst st) (snd st) (Some nxt) (n + 1)%Z w1)
      as (st' & w' & Hrun' & Hlen); [lia|lia|].
    eexists _, _. split; [exact Hrun'|]. rewrite Hp, length_app in Hlen. simpl in Hlen. lia.
Qed.

Lemma test2_image_crawl_no_exception (fuel : nat) :
  ∀ (max_pages : option Z) (bc : dict (list (dict str)))
    (images_log : list test2_image.log_record) (cur : option str) (n : Z)
    (w : world) (e : exn),
    fst (test2_image.crawl L fuel max_pages bc images_log cur n w) ≠ Raise e.
Proof.
  induction fuel as [|fuel IH]; intros mp bc images_log cur n w e; [discriminate|].
  destruct (truthy_opt cur) eqn:Hcur.
  2: { cbn [test2_image.crawl]. rewrite Hcur. discriminate. }
  destruct cur as [u|]; [|discriminate]. cbn [truthy_opt] in Hcur.
  destruct (test2_image_page fuel mp bc images_log u n w Hcur)
    as (st & w1 & Hp & [Hrun | (Hb & nxt & Hrun)]); rewrite Hrun;
    [discriminate|apply IH].
Qed.

(** X15: [scrape_all_books] of test2_image.py never raises, whatever
    the site answers and whatever the budget; and with a page budget
    [m] it returns after at most [max 1 m] listing pages: that much
    fuel is enough, and no more pages than that are announced. *)
Theorem test2_image_crawl_is_bounded (start : str) (w : world) :
  (∀ fuel max_pages e,
     fst (test2_image.scrape_all_books L fuel start max_pages w) ≠ Raise e)
  ∧ (∀ m : Z,
       let pages := Z.to_nat (Z.max 1 m) in
       ∃ st w', test2_image.scrape_all_books L pages start (Some m) w = (Ret st, w')
         ∧ (length (pages_visited w') ≤ length (pages_visited w) + pages)%nat).
Proof.
  split.
  - intros fuel mp e. apply test2_image_crawl_no_exception.
  - intros m pages. apply test2_image_crawl_bounded; subst pages; lia.
Qed.

(** Filing a record makes one record more. *)
Lemma row_count_setdefault_append (k : str) (x : dict str)
    (d : dict (list (dict str))) :
  row_count (setdefault_append k x d) = S (row_count d).
Proof.
  unfold row_count. induction d as [|[k' xs] d IH]; simpl; [done|].
  destruct (str_eqb k' k); simpl; rewrite ?length_app; simpl.
  - lia.
  - rewrite IH. lia.
Qed.

(** Whenever [save_image] of test2_image.py returns, the log has one
    record more. *)
Lemma test2_image_save_image_log (w w' : world)
    (image_url category upc title referer_url o : str)
    (images_log log' : list test2_image.log_record) :
  test2_image.save_image L image_url category upc title referer_url images_log w
  = (Ret (o, log'), w') →
  length log' = S (length images_log).
Proof.
  intros Hrun.
  destruct (truthy image_url) eqn:Hurl;
    [destruct (refuses L (test2_image.folder_of category)) eqn:Hfolder|].
  - rewrite test2_image_save_image_refused in Hrun by done. discriminate.
  - destruct (test2_image_save_image_logs L w image_url category upc title
                referer_url images_log (or_intror Hfolder))
      as (o' & record & w2 & Hrun' & _).
    rewrite Hrun' in Hrun. injection Hrun as <- <- <-.
    rewrite length_app. simpl. lia.
  - destruct (test2_image_save_image_logs L w image_url category upc title
                referer_url images_log (or_introl Hurl))
      as (o' & record & w2 & Hrun' & _).
    rewrite Hrun' in Hrun. injection Hrun as <- <- <-.
    rewrite length_app. simpl. lia.
Qed.

Lemma visit_products_in_step (links : list str) :
  ∀ (i n : nat) (bc : dict (list (dict str))) (images_log : list test2_image.log_record)
    (w : world),
    ∃ st w', test2_image.visit_products L links i n bc images_log w = (Ret st, w')
      ∧ (row_count (fst st) + length images_log
         = row_count bc + length (snd st))%nat.
Proof.
  induction links as [|u links IH]; intros i n bc images_log w.
  - by eexists _, _.
  - cbn [test2_image.visit_products].
    rewrite bind_run, print_run, bind_run, try_except_run, bind_run.
    match goal with |- context [test2_image.extract_book_data L u ?w0] =>
      destruct (test2_image.extract_book_data L u w0) as [[d|e|] w1] eqn:He end.
    + rewrite bind_run.
      match goal with |- context [test2_image.save_image L ?a ?b ?c ?t u images_log w1] =>
        destruct (test2_image.save_image L a b c t u images_log w1)
          as [[[o log']|e|] w2] eqn:Hs end.
      * apply test2_image_save_image_log in Hs.
        cbv zeta. unfold ret at 1. cbv beta iota. cbn [fst snd].
        match goal with |- context [test2_image.visit_products L links ?i' n ?bc' ?l' ?w'] =>
          destruct (IH i' n bc' l' w') as (st & w3 & Hrun & Hc) end.
        exists st, w3. split; [exact Hrun|].
        rewrite row_count_setdefault_append in Hc. lia.
      * rewrite bind_run, print_run. unfold ret at 1. cbv beta iota. cbn [fst snd].
        apply IH.
      * match type of Hs with ?m w1 = _ =>
          pose proof (terminates_test2_save_image _ _ _ _ _ _ w1 : (m w1).1 ≠ OutOfFuel)
            as T end.
        by rewrite Hs in T.
    + rewrite bind_run, print_run. unfold ret at 1. cbv beta iota. cbn [fst snd].
      apply IH.
    + match type of He with _ ?w0 = _ =>
        pose proof (terminates_extract_book_data u w0) as T end.
      by rewrite He in T.
Qed.

Lemma crawl_in_step (fuel : nat) :
  ∀ (max_pages : option Z) (bc : dict (list (dict str)))
    (images_log : list test2_image.log_record) (cur : option str) (n : Z)
    (w w' : world) (st : dict (list (dict str)) * list test2_image.log_record),
    test2_image.crawl L fuel max_pages bc images_log cur n w = (Ret st, w') →
    (row_count (fst st) + length images_log = row_count bc + length (snd st))%nat.
Proof.
  induction fuel as [|fuel IH]; intros mp bc images_log cur n w w' st; [discriminate|].
  destruct cur as [u|]; [|by intros [= <- <-]].
  rewrite test2_image_crawl_S.
  destruct (truthy u); [|by intros [= <- <-]].
  rewrite bind_run, print_run, bind_run.
  match goal with |- context [try_except ?m ?h ?w0] =>
    destruct (try_except m h w0) as [[[links|]|e|] w1] end; try discriminate.
  2: { by intros [= <- <-]. }
  rewrite bind_run, print_run, bind_run.
  match goal with |- context [test2_image.visit_products L links ?i ?k bc images_log ?w0] =>
    destruct (visit_products_in_step links i k bc images_log w0)
      as (st1 & w2 & Hv & Hc) end.
  rewrite Hv.
  destruct (test2_image.budget_reached mp n).
  - rewrite bind_run, print_run. by intros [= <- <-].
  - rewrite bind_run.
    match goal with |- context [try_except ?m ?h w2] =>
      destruct (try_except m h w2) as [[nxt|e|] w3] end; try discriminate.
    destruct (truthy_opt nxt); rewrite bind_run, print_run.
    + intros Hrun. apply IH in Hrun. lia.
    + by intros [= <- <-].
Qed.

(** X16: [scrape_all_books] of test2_image.py keeps [images_log] in
    step with the records: what it returns holds as many log entries as
    there are records in all the categories together, one per product
    whose page could be read. *)
Theorem images_log_in_step_with_records (fuel : nat) (start : str)
    (max_pages : option Z) (w w' : world) (by_category : dict (list (dict str)))
    (images_log : list test2_image.log_record) :
  test2_image.scrape_all_books L fuel start max_pages w
  = (Ret (by_category, images_log), w') →
  length images_log = row_count by_category.
Proof.
  intros Hrun. apply crawl_in_step in Hrun.
  change (row_count by_category + 0 = 0 + length images_log)%nat in Hrun. lia.
Qed.

End Test2Crawl.

(** The catalogue, one product of which answers 500. *)
Lemma images_log_in_step_with_records_witness :
  ∃ by_category images_log w',
    test2_image.scrape_all_books ascii_extern 5 (py "http://x/page-1") None
      (start_world (catalogue server_error))
    = (Ret (by_category, images_log), w')
    ∧ length images_log = row_count by_category.
Proof.
  eexists _, _, _. split; [vm_compute; reflexivity|].
  apply (images_log_in_step_with_records ascii_extern 5 (py "http://x/page-1") None
           (start_world (catalogue server_error))
           (snd (test2_image.scrape_all_books ascii_extern 5 (py "http://x/page-1") None
                   (start_world (catalogue server_error))))).
  vm_compute. reflexivity.
Defined.

(** ** The export of images_book_data.py *)
Section CategoryFiles.
Context (L : extern).

(** The two scripts list the same ten columns. *)
Lemma wanted_cols_are_cols : images_book_data.wanted_cols = books_data_images.cols.
Proof. reflexivity. Qed.

Lemma fill_columns_same :
  images_book_data.fill_columns = books_data_images.fill_columns.
Proof. reflexivity. Qed.

Lemma images_book_data_frame_to_csv (rows : list (dict str)) :
  to_csv (select images_book_data.wanted_cols
            (images_book_data.fill_columns images_book_data.wanted_cols
               (DataFrame rows)))
  = images_book_data.wanted_cols :: map (csv_line images_book_data.wanted_cols) rows.
Proof.
  rewrite wanted_cols_are_cols, fill_columns_same. apply category_frame_to_csv.
Qed.

(** The export loop of images_book_data.py when no path is refused. *)
Lemma save_categories_run (grouped : dict (list (dict str)))
    (total categories_written : nat) (w : world) :
  let path := λ cat, path_join images_book_data.OUTPUT_DIR
                       (sanitize (Some cat) ++ py ".csv") in
  Forall (λ g, refuses L (path (fst g)) = false) grouped →
  ∃ w',
    images_book_data.save_categories L grouped total categories_written w
    = (Ret ((total + length (concat (map snd grouped)))%nat,
            (categories_written + length grouped)%nat), w')
    ∧ net w' = net w
    ∧ pages_visited w' = pages_visited w
    ∧ (∀ p, p ∉ map (λ g, path (fst g)) grouped → files w' !! p = files w !! p)
    ∧ (NoDup (map (λ g, path (fst g)) grouped) →
       ∀ cat rows, (cat, rows) ∈ grouped →
         files w' !! path cat
         = Some (Table (images_book_data.wanted_cols
                        :: map (csv_line images_book_data.wanted_cols) rows))).
Proof.
  intros path Hok. revert total categories_written w.
  induction Hok as [|[cat0 rows0] rest Hok0 _ IH]; intros total cw w.
  - exists w. rewrite !Nat.add_0_r. split; [reflexivity|].
    split; [done|]. split; [done|]. split; [done|].
    intros _ cat rows H. by apply elem_of_nil in H.
  - cbn [images_book_data.save_categories]. cbv zeta.
    rewrite images_book_data_frame_to_csv.
    cbn [fst] in Hok0. fold (path cat0).
    rewrite bind_run, write_csv_run, Hok0, bind_run, print_run.
    match goal with |- context [images_book_data.save_categories L rest ?t ?c ?w2] =>
      destruct (IH t c w2) as (w' & Hrun & Hnet & Hpages & Hother & Hmine) end.
    exists w'. split.
    { rewrite Hrun. cbn [map concat snd length]. rewrite length_app.
      by rewrite <- Nat.add_assoc, Nat.add_succ_comm. }
    cbn [net files] in *. cbn [map fst]. split; [done|]. split.
    { rewrite Hpages. unfold pages_visited. cbn [trace]. rewrite omap_app.
      cbn [omap list_omap]. by rewrite app_nil_r. }
    split.
    + intros p Hp. apply not_elem_of_cons in Hp as [Hne Hrest].
      rewrite Hother by done. by apply lookup_insert_ne.
    + intros Hnd cat rows Hin. apply NoDup_cons in Hnd as [Hfresh Hnd].
      apply elem_of_cons in Hin as [[= -> ->]|Hin].
      * rewrite Hother by done. apply lookup_insert_eq.
      * by apply Hmine.
Qed.

(** X17: the export loop of images_book_data.py, on a system that
    refuses none of the paths of the categories.  It returns; the total
    it reports has grown by the number of records of all the categories
    and the number of categories written by the number of categories;
    files outside the paths of the categories are left as they were;
    and, when no two categories share a file name, the file of each
    category holds the ten columns as header and one line per record,
    with the empty string where a record lacks a column. *)
Theorem save_categories_counts_and_writes (grouped : dict (list (dict str)))
    (total categories_written : nat) (w : world) :
  let path := λ cat, path_join images_book_data.OUTPUT_DIR
                       (sanitize (Some cat) ++ py ".csv") in
  Forall (λ g, refuses L (path (fst g)) = false) grouped →
  ∃ w',
    images_book_data.save_categories L grouped total categories_written w
    = (Ret ((total + length (concat (map snd grouped)))%nat,
            (categories_written + length grouped)%nat), w')
    ∧ net w' = net w
    ∧ pages_visited w' = pages_visited w
    ∧ (∀ p, p ∉ map (λ g, path (fst g)) grouped → files w' !! p = files w !! p)
    ∧ (NoDup (map (λ g, path (fst g)) grouped) →
       ∀ cat rows, (cat, rows) ∈ grouped →
         files w' !! path cat
         = Some (Table (images_book_data.wanted_cols
                        :: map (csv_line images_book_data.wanted_cols) rows))).
Proof. apply save_categories_run. Qed.

End CategoryFiles.

(** Two categories of the catalogue. *)
Lemma save_categories_counts_and_writes_witness :
  ∃ w',
    images_book_data.save_categories ascii_extern
      [(py "Poetry", [[(py "title", py "A Light in the Attic")];
                      [(py "title", py "Velvet")]]);
       (py "Fiction", [[(py "title", py "Soumission")]])] 0 0 (start_world [])
    = (Ret (3%nat, 2%nat), w')
    ∧ files w' !! py "books_csv/Fiction.csv"
      = Some (Table [images_book_data.wanted_cols;
                     [py "Soumission"; []; []; []; []; []; []; []; []; []]]).
Proof.
  destruct (save_categories_counts_and_writes ascii_extern
              [(py "Poetry", [[(py "title", py "A Light in the Attic")];
                              [(py "title", py "Velvet")]]);
               (py "Fiction", [[(py "title", py "Soumission")]])] 0 0 (start_world []))
    as (w' & Hrun & _ & _ & _ & Hmine).
  { repeat constructor. }
  exists w'. split; [exact Hrun|].
  apply (Hmine ltac:(by apply (bool_decide_unpack _); vm_compute)
           (py "Fiction") [[(py "title", py "Soumission")]]).
  by right; left.
Defined.

(** ** From the crawl to the export in books_data_images.py *)
Section Columns.
Context (L : extern).

(** Keys not seen before become columns, in their order. *)
Lemma add_keys_fresh (d : dict str) :
  ∀ cs, NoDup (cs ++ map fst d) → add_keys cs d = cs ++ map fst d.
Proof.
  induction d as [|[k v] d IH]; intros cs H; simpl; [by rewrite app_nil_r|].
  simpl in H. rewrite bool_decide_eq_false_2.
  - rewrite IH; rewrite <- app_assoc; done.
  - apply NoDup_app in H as (_ & H & _). intros Hk. apply (H k Hk). by left.
Qed.

Lemma add_keys_known (d : dict str) (cs : list str) :
  (∀ k, k ∈ map fst d → k ∈ cs) → add_keys cs d = cs.
Proof.
  induction d as [|[k v] d IH]; intros H; simpl; [done|].
  rewrite bool_decide_eq_true_2 by (apply H; by left).
  apply IH. intros k' Hk'. apply H. by right.
Qed.

(** Records that all have the keys [ks] give a frame with the columns [ks]. *)
Lemma DataFrame_columns_uniform (ks : list str) (rows : list (dict str)) :
  NoDup ks → rows ≠ [] → Forall (λ d, map fst d = ks) rows →
  columns (DataFrame rows) = ks.
Proof.
  intros Hnd Hne Hrows. destruct Hrows as [|d rows Hd Hrows]; [done|].
  unfold DataFrame. cbn [columns foldl].
  rewrite add_keys_fresh by (by rewrite Hd). rewrite Hd. cbn [app]. clear Hne.
  induction Hrows as [|d' rows Hd' _ IH]; [done|].
  cbn [foldl]. rewrite add_keys_known; [exact IH|]. by rewrite Hd'.
Qed.

Lemma setdefault_append_Forall {V} (P : V → Prop) (k : str) (x : V)
    (d : dict (list V)) :
  P x → Forall (λ g, Forall P (snd g)) d →
  Forall (λ g, Forall P (snd g)) (setdefault_append k x d).
Proof.
  intros Hx. induction 1 as [|[k' xs] d H Hd IH]; simpl.
  - by repeat constructor.
  - destruct (str_eqb k' k); constructor; simpl; try done.
    apply Forall_app. split; [done|]. by constructor.
Qed.

(** With [image_path] set, a record of [extract_book_data] has the ten columns. *)
Lemma extract_book_data_keys (u : str) (w w' : world) (d : dict str) (p : str) :
  books_data_images.extract_book_data L u w = (Ret d, w') →
  map fst (dict_set (py "image_path") p d) = books_data_images.cols.
Proof.
  unfold books_data_images.extract_book_data. rewrite bind_run.
  destruct (books_data_images.get_soup u w) as [[s|e|] w1]; try discriminate.
  rewrite bind_run. destruct (main_h1 s); [|discriminate].
  unfold ret at 1. cbv beta iota zeta. rewrite bind_run.
  match goal with |- context [(if ?b then ?m1 else ?m2) w1] =>
    destruct ((if b then m1 else m2) w1) as [[j|e|] w2] end; try discriminate.
  unfold ret. intros [= <- <-]. reflexivity.
Qed.

Lemma visit_links_ten_columns (links : list str) :
  ∀ (i n : nat) (data data' : dict (list (dict str))) (w w' : world),
    ten_columns data →
    books_data_images.visit_links L links i n data w = (Ret data', w') →
    ten_columns data'.
Proof.
  induction links as [|u links IH]; intros i n data data' w w' Hwf.
  - by intros [= <- <-].
  - cbn [books_data_images.visit_links]. rewrite bind_run, print_run, bind_run.
    match goal with |- context [books_data_images.extract_book_data L u ?w0] =>
      destruct (books_data_images.extract_book_data L u w0) as [[d|e|] w1] eqn:He end;
      try discriminate.
    rewrite bind_run.
    match goal with |- context [books_data_images.download_image L ?a ?b ?c ?t u w1] =>
      destruct (books_data_images.download_image L a b c t u w1)
        as [[o|e|] w2] eqn:Hd end; try discriminate.
    apply IH. destruct Hwf as [H1 H2]. split.
    + by apply setdefault_append_groups.
    + apply setdefault_append_Forall; [|done]. by apply (extract_book_data_keys _ _ _ _ _ He).
Qed.

Lemma books_data_images_crawl_S (fuel : nat) (max_pages : option Z)
    (data : dict (list (dict str))) (u : str) (n : Z) :
  books_data_images.crawl L (S fuel) max_pages data (Some u) n
  = if truthy u then
      (print (MsgPage n u);;
       links <- books_data_images.parse_listing_product_links L u;;
       print (MsgFound (length links));;
       data' <- books_data_images.visit_links L links 1 (length links) data;;
       if books_data_images.budget_reached max_pages n then
         print (MsgStop (default 0%Z max_pages));;
         ret data'
       else
         next_url <- books_data_images.get_next_page_url L u;;
         if truthy_opt next_url
         then books_data_images.crawl L fuel max_pages data' next_url (n + 1)%Z
         else ret data')
    else ret data.
Proof. reflexivity. Qed.

Lemma crawl_ten_columns (fuel : nat) :
  ∀ (max_pages : option Z) (data data' : dict (list (dict str))) (cur : option str)
    (n : Z) (w w' : world),
    ten_columns data →
    books_data_images.crawl L fuel max_pages data cur n w = (Ret data', w') →
    ten_columns data'.
Proof.
  induction fuel as [|fuel IH]; intros mp data data' cur n w w' Hwf; [discriminate|].
  destruct cur as [u|]; [|by intros [= <- <-]].
  rewrite books_data_images_crawl_S.
  destruct (truthy u); [|by intros [= <- <-]].
  rewrite bind_run, print_run, bind_run.
  match goal with |- context [books_data_images.parse_listing_product_links L u ?w0] =>
    destruct (books_data_images.parse_listing_product_links L u w0)
      as [[links|e|] w1] end; try discriminate.
  rewrite bind_run, print_run, bind_run.
  match goal with |- context [books_data_images.visit_links L links ?i ?k data ?w0] =>
    destruct (books_data_images.visit_links L links i k data w0)
      as [[data1|e|] w2] eqn:Hv end; try discriminate.
  apply visit_links_ten_columns in Hv; [|done].
  destruct (books_data_images.budget_reached mp n).
  - rewrite bind_run, print_run. by intros [= <- <-].
  - rewrite bind_run.
    destruct (books_data_images.get_next_page_url L u w2) as [[nxt|e|] w3];
      try discriminate.
    destruct (truthy_opt nxt); [by apply IH|by intros [= <- <-]].
Qed.

(** X18: what the crawl of books_data_images.py hands to the export.
    In the result of [scrape_all] no group is empty, every record has
    exactly the ten columns of the export, in their order, and the frame
    pandas builds from the records of a category has these ten columns:
    the export has no column to add. *)
Theorem scrape_all_records_have_the_columns (fuel : nat) (start : str)
    (max_pages : option Z) (w w' : world) (data : dict (list (dict str)))
    (cat : str) (rows : list (dict str)) :
  books_data_images.scrape_all L fuel start max_pages w = (Ret data, w') →
  (cat, rows) ∈ data →
  rows ≠ []
  ∧ Forall (λ d, map fst d = books_data_images.cols) rows
  ∧ columns (DataFrame rows) = books_data_images.cols.
Proof.
  intros Hrun Hin. apply crawl_ten_columns in Hrun as [H1 H2].
  2: { split; constructor. }
  rewrite Forall_forall in H1, H2.
  specialize (H1 _ Hin). specialize (H2 _ Hin). cbn [snd] in *.
  split; [done|]. split; [done|].
  apply DataFrame_columns_uniform; try done.
  apply (bool_decide_unpack (NoDup books_data_images.cols)). by vm_compute.
Qed.

End Columns.

(** The Poetry group of the catalogue. *)
Lemma scrape_all_records_have_the_columns_witness :
  ∃ rows,
    rows ≠ []
    ∧ Forall (λ d, map fst d = books_data_images.cols) rows
    ∧ columns (DataFrame rows) = books_data_images.cols.
Proof.
  eexists.
  eapply (scrape_all_records_have_the_columns ascii_extern 5 (py "http://x/page-1") None
            (start_world (catalogue (ok attic))) _ _ (py "Poetry")).
  - vm_compute. reflexivity.
  - left.
Defined.

(** ** A listing page that cannot be read *)
Section Listing.
Context (L : extern).

(** A page that cannot be read: the request fails or the status is
    refused. *)
Lemma fetch_fails {A} (k : response → M A) (u : str) (w : world) :
  (∀ r, net w {| url := u; referer := None |} = Reply r → ¬ passes r) →
  (r <- http_get {| url := u; referer := None |};; raise_for_status r;; k r) w
  = (Raise match net w {| url := u; referer := None |} with
           | NetFail e => e
           | Reply r => HTTPError (status r)
           end,
     {| net := net w; files := files w;
        trace := trace w ++ [Get {| url := u; referer := None |}] |}).
Proof.
  intros H. rewrite bind_run, http_get_run.
  destruct (net w _) as [e|r]; [reflexivity|].
  by rewrite bind_run, raise_for_status_fails by (by apply H).
Qed.

(** X19: a first listing page that cannot be read (the request fails
    or the status is refused).  test2_image.py leaves its loop at once
    and returns no record and an empty log after the one request;
    images_book_data.py, without a budget, takes the page as empty,
    asks for it a second time to look for the next link, and returns no
    record; books_data_images.py has no handler there and [scrape_all]
    raises the exception of the fetch. *)
Theorem unreadable_listing_ends_the_crawl (w : world) (start : str) (fuel : nat)
    (max_pages : option Z) :
  let rq := {| url := start; referer := None |} in
  let e := match net w rq with NetFail e => e | Reply r => HTTPError (status r) end in
  truthy start = true →
  (∀ r, net w rq = Reply r → ¬ passes r) →
  (∃ w', test2_image.scrape_all_books L (S fuel) start max_pages w = (Ret ([], []), w')
     ∧ requested w' = requested w ++ [start])
  ∧ (∃ w', images_book_data.scrape_all_books L (S fuel) start None w = (Ret [], w')
       ∧ requested w' = requested w ++ [start; start])
  ∧ (∃ w', books_data_images.scrape_all L (S fuel) start max_pages w = (Raise e, w')
       ∧ requested w' = requested w ++ [start]).
Proof.
  intros rq e Hu Hfail. split; [|split].
  - unfold test2_image.scrape_all_books. cbn [test2_image.crawl truthy_opt default].
    rewrite Hu, bind_run, print_run, bind_run, try_except_run, bind_run.
    unfold test2_image.parse_listing_product_links, test2_image.get_soup.
    rewrite bind_run, fetch_fails by (cbn [net]; exact Hfail).
    rewrite bind_run, print_run. eexists. split; [reflexivity|].
    unfold requested. cbn [trace]. rewrite !omap_app. cbn [omap list_omap url].
    by rewrite !app_nil_r.
  - unfold images_book_data.scrape_all_books.
    rewrite images_book_data_crawl_S, Hu.
    rewrite bind_run, print_run, bind_run, try_except_run.
    unfold images_book_data.get_book_urls_from_page at 1.
    rewrite fetch_fails by (cbn [net]; exact Hfail).
    rewrite bind_run, print_run. unfold ret at 1. cbv beta iota.
    rewrite bind_run, print_run, bind_run.
    cbn [images_book_data.visit_books images_book_data.budget_reached length].
    unfold ret at 1. cbv beta iota.
    rewrite bind_run, try_except_run.
    unfold images_book_data.get_next_page_url at 1.
    rewrite fetch_fails by (cbn [net]; exact Hfail).
    rewrite bind_run, print_run. unfold ret at 1. cbv beta iota.
    cbn [truthy_opt]. rewrite bind_run, print_run.
    eexists. split; [reflexivity|].
    unfold requested. cbn [trace]. rewrite !omap_app. cbn [omap list_omap url].
    by rewrite !app_nil_r, <- app_assoc.
  - unfold books_data_images.scrape_all.
    rewrite books_data_images_crawl_S, Hu.
    rewrite bind_run, print_run, bind_run.
    unfold books_data_images.parse_listing_product_links, books_data_images.get_soup.
    rewrite bind_run, fetch_fails by (cbn [net]; exact Hfail).
    eexists. split; [reflexivity|].
    unfold requested. cbn [trace]. rewrite !omap_app. cbn [omap list_omap url].
    by rewrite !app_nil_r.
Qed.

End Listing.

(** A start page that answers 500. *)
Lemma unreadable_listing_ends_the_crawl_witness :
  let w0 := start_world [(py "http://x/page-1", server_error)] in
  (∃ w', test2_image.scrape_all_books ascii_extern 1 (py "http://x/page-1") None w0
         = (Ret ([], []), w')
     ∧ requested w' = [py "http://x/page-1"])
  ∧ (∃ w', images_book_data.scrape_all_books ascii_extern 1 (py "http://x/page-1") None w0
           = (Ret [], w')
       ∧ requested w' = [py "http://x/page-1"; py "http://x/page-1"])
  ∧ (∃ w', books_data_images.scrape_all ascii_extern 1 (py "http://x/page-1") None w0
           = (Raise (HTTPError 500), w')
       ∧ requested w' = [py "http://x/page-1"]).
Proof.
  apply (unreadable_listing_ends_the_crawl ascii_extern
           (start_world [(py "http://x/page-1", server_error)])
           (py "http://x/page-1") 0 None).
  - reflexivity.
  - intros r [= <-]. unfold passes. simpl. lia.
Defined.

(** ** The record of images_book_data.py *)
Section Digits.
Context (L : extern).

(** What [take_while] takes satisfies the test. *)
Lemma take_while_Forall (p : char → bool) (s : str) :
  Forall (λ c, p c = true) (take_while p s).
Proof.
  induction s as [|c s IH]; simpl; [constructor|].
  destruct (p c) eqn:E; by constructor.
Qed.

Lemma drop_while_head (p : char → bool) (s : str) (c : char) (rest : str) :
  drop_while p s = c :: rest → p c = false.
Proof.
  unfold drop_while. induction s as [|x s IH]; simpl; [discriminate|].
  destruct (p x) eqn:E; [exact IH|]. by intros [= <- _].
Qed.

(** What [search_digits] finds is a non-empty run of digits. *)
Lemma search_digits_digits (val n : str) :
  images_book_data.search_digits L val = Some n →
  n ≠ [] ∧ Forall (λ c, isdecimal L c = true) n.
Proof.
  unfold images_book_data.search_digits.
  destruct (drop_while _ val) as [|c rest] eqn:E; [discriminate|].
  intros [= <-]. split; [|exact (take_while_Forall (isdecimal L) (c :: rest))].
  apply drop_while_head in E. apply negb_false_iff in E. simpl. by rewrite E.
Qed.

Lemma scan_row_count (f : images_book_data.fields) (r : row) :
  count_or_nothing L (images_book_data.availability f) →
  count_or_nothing L (images_book_data.availability (images_book_data.scan_row L f r)).
Proof.
  intros H. unfold images_book_data.scan_row.
  destruct (images_book_data.key_value r) as [[key val]|]; [|done].
  repeat (destruct (str_eqb key _); [done|]).
  destruct (str_eqb key _); [|done]. cbn [images_book_data.availability].
  destruct (images_book_data.search_digits L val) as [n|] eqn:E.
  - right; right. by apply search_digits_digits in E.
  - right; by left.
Qed.

Lemma availability_is_a_count (p : soup) :
  count_or_nothing L (images_book_data.availability (images_book_data.table_fields L p)).
Proof.
  unfold images_book_data.table_fields.
  destruct (head (tables p)) as [rows|]; [|by left].
  match goal with |- context [foldl _ ?f _] => set (f0 := f) end.
  assert (H0 : count_or_nothing L (images_book_data.availability f0)) by (by left).
  clearbody f0. revert f0 H0.
  induction rows as [|r rows IH]; intros f0 H0; [done|].
  cbn [foldl]. apply IH. by apply scan_row_count.
Qed.

Lemma images_book_data_scrape_book_keys (u : str) (w w' : world) (d : dict str) :
  images_book_data.scrape_book L u w = (Ret d, w') →
  map fst d = images_book_data.wanted_cols.
Proof.
  unfold images_book_data.scrape_book. rewrite bind_run.
  destruct (http_get _ w) as [[r|e|] w1]; try discriminate.
  rewrite bind_run. destruct (raise_for_status r w1) as [[[]|e|] w2]; try discriminate.
  cbv zeta. rewrite bind_run.
  match goal with |- context [(if ?b then ?m1 else ?m2) w2] =>
    destruct ((if b then m1 else m2) w2) as [[img|e|] w3] end; try discriminate.
  unfold ret. by intros [= <- <-].
Qed.

(** X20: [scrape_book] of images_book_data.py on a product page that
    is served with an accepted status and whose image source, if it has
    one, can be joined to its address.  It returns, whatever happens to
    the download of the image; the record has exactly the ten columns
    of the export, in their order; its [product_page_url] is the
    address it was called with; and its availability is empty, ["0"],
    or a non-empty run of decimal digits, never the text of the cell. *)
Theorem scrape_book_record_shape (w : world) (u : str) (r : response) :
  net w {| url := u; referer := None |} = Reply r → passes r →
  image_joins L u (page r) →
  ∃ d w', images_book_data.scrape_book L u w = (Ret d, w')
    ∧ map fst d = images_book_data.wanted_cols
    ∧ item "product_page_url" d = u
    ∧ count_or_nothing L (item "availability" d).
Proof.
  intros Hnet Hp Hj.
  destruct (images_book_data_scrape_book_returns L w u r Hnet Hp Hj)
    as (d & w' & Hrun).
  destruct (images_book_data_scrape_book_fields L w w' u r d Hnet Hrun) as [Ha _].
  exists d, w'. split; [exact Hrun|].
  split; [by apply (images_book_data_scrape_book_keys u w w')|].
  split; [|rewrite Ha; apply availability_is_a_count].
  revert Hrun. unfold images_book_data.scrape_book.
  rewrite bind_run, http_get_run, Hnet.
  rewrite bind_run, raise_for_status_passes by done.
  cbv zeta. rewrite bind_run.
  match goal with |- context [(if ?b then ?m1 else ?m2) ?w2] =>
    destruct ((if b then m1 else m2) w2) as [[img|e|] w3] end; try discriminate.
  unfold ret. by intros [= <- <-].
Qed.

End Digits.

(** The page of A Light in the Attic: 19 copies. *)
Lemma scrape_book_record_shape_witness :
  ∃ d w', images_book_data.scrape_book ascii_extern (py "http://x/attic")
            (start_world [(py "http://x/attic", ok attic)]) = (Ret d, w')
    ∧ map fst d = images_book_data.wanted_cols
    ∧ item "product_page_url" d = py "http://x/attic"
    ∧ count_or_nothing ascii_extern (item "availability" d).
Proof.
  apply (scrape_book_record_shape ascii_extern
           (start_world [(py "http://x/attic", ok attic)]) (py "http://x/attic")
           {| status := 200; content_type := Some (py "text/html");
              page := attic; chunks := []; stream_exn := None |}).
  - reflexivity.
  - unfold passes. simpl. lia.
  - intros src Hsrc. discriminate Hsrc.
Defined.

(** ** A whole run of images_book_data.py *)
Section WholeRun.
Context (L : extern).


End WholeRun.

